(** * Deshi Knowledge Collector: the message filter and its two hosts

    A shallow embedding of [src/app.py] (the Streamlit app) and
    [src/console_bot.py] (the command-line host): the event callback
    [handle_message_events] of each, the configuration resolution of each,
    the log capture object and the start/reset buttons of the Streamlit app.

    The Slack transport and the Supabase client are external.  The store is
    a state [db] with one operation, the insert call; every statement is
    made for an arbitrary store, and a small table with a uniqueness
    constraint is given as an instance for concrete runs. *)

From Stdlib Require Import ZArith Ascii String List Bool Lia.
From stdpp Require Import base option gmap strings list pretty.

Local Open Scope string_scope.
Local Open Scope list_scope.

(** ** Python values and built-ins *)

Module Py.

(** The values found in the fields the callback reads ([user], [text],
    [channel], [ts], [subtype]): in the payload of a message event each is a
    JSON string, or null, which Python reads as [None].  A key may also be
    missing from the payload altogether, which [get] maps to [None].  A
    [str] is a [string], and its characters are the elements of the
    string. *)
Inductive value : Type :=
| PNone
| PStr (s : string).

#[global] Instance value_eq_dec : EqDecision value.
Proof. solve_decision. Defined.

(** [d.get(k)] *)
Definition get (d : gmap string value) (k : string) : value :=
  match d !! k with
  | Some v => v
  | None => PNone
  end.

(** [v is None] *)
Definition is_none (v : value) : bool :=
  match v with
  | PNone => true
  | PStr _ => false
  end.

(** truth value of a [str] *)
Definition str_truthy (s : string) : bool :=
  match s with
  | EmptyString => false
  | String _ _ => true
  end.

(** truth value of an object in a condition *)
Definition truthy (v : value) : bool :=
  match v with
  | PNone => false
  | PStr s => str_truthy s
  end.

(** [v == s] for a [str] [s]: equality of strings, character by character *)
Definition eq_str (v : value) (s : string) : bool :=
  match v with
  | PNone => false
  | PStr t => String.eqb t s
  end.

(** [f"{v}"] *)
Definition format (v : value) : string :=
  match v with
  | PNone => "None"
  | PStr s => s
  end.

(** [s[:n]] on a [str] *)
Fixpoint take (n : nat) (s : string) : string :=
  match n, s with
  | O, _ => EmptyString
  | S _, EmptyString => EmptyString
  | S n', String c s' => String c (take n' s')
  end.

(** [c.lower()] on the ASCII letters *)
Definition lower_ascii (c : ascii) : ascii :=
  let n := nat_of_ascii c in
  if (65 <=? n)%nat && (n <=? 90)%nat then ascii_of_nat (n + 32) else c.

(** [s.lower()] *)
Fixpoint lower (s : string) : string :=
  match s with
  | EmptyString => EmptyString
  | String c s' => String (lower_ascii c) (lower s')
  end.

(** [needle in hay] on strings *)
Fixpoint contains (needle hay : string) : bool :=
  String.prefix needle hay ||
  match hay with
  | EmptyString => false
  | String _ hay' => contains needle hay'
  end.

(** the line feed of ["\n"] *)
Definition nl : string := String (ascii_of_nat 10) EmptyString.

(** Exceptions: the subclasses of [Exception], which [except Exception]
    catches, and [SystemExit] and [KeyboardInterrupt], which it does not. *)
Inductive exn : Type :=
| Exception (cls msg : string)
| SystemExit (code : Z)
| KeyboardInterrupt.

(** [str(e)] in [f"... {e}"] *)
Definition exn_str (e : exn) : string :=
  match e with
  | Exception _ msg => msg
  | SystemExit _ => EmptyString
  | KeyboardInterrupt => EmptyString
  end.

End Py.

(** ** The logging module and the store client *)

Inductive level : Type := INFO | WARNING | ERROR | CRITICAL.

#[global] Instance level_eq_dec : EqDecision level.
Proof. solve_decision. Defined.

(** What the callbacks read of an error object: what [str(error)] prints and
    what [error.message] prints. *)
Record api_error : Type := {
  error_repr : string;
  error_message : string
}.

(** The object returned by [execute()], the [APIResponse] of the client: the
    returned rows, the count, and the name of its class as Python prints it.
    It has no attribute [error]. *)
Record api_response : Type := {
  data : list (gmap string Py.value);
  count : option Z;
  response_class : string
}.

(** What [table(name).insert(row).execute()] does: it returns a response, or
    raises a subclass of [Exception] (printed as [msg]); an insert that the
    database refuses, a duplicate among them, is raised as [APIError]. *)
Inductive execute_result : Type :=
| Responded (r : api_response)
| Raised (cls msg : string).

(** ** The log capture object of the Streamlit app ([StreamlitLogHandler]) *)

Module StreamlitLogHandler.

Record t : Type := { buffer : list string }.

(** [__init__] *)
Definition init : t := {| buffer := [] |}.

(** [write]: append to the buffer, and echo to [sys.__stdout__], here the
    list of chunks written to it. *)
Definition write (message : string) (hs : t * list string) : t * list string :=
  ({| buffer := buffer (fst hs) ++ [message] |}, snd hs ++ [message]).

(** [get_logs] *)
Definition get_logs (h : t) : string := String.concat EmptyString (buffer h).

(** [clear_logs] *)
Definition clear_logs (h : t) : t := {| buffer := [] |}.

End StreamlitLogHandler.


(** ** The process state, and the monad the code runs in *)

(** The remote store [w_db]; the insert calls issued so far, each with its
    table name and row, in order ([w_inserts]); the records emitted through
    [logger] ([w_records]); the shared [log_capture_buffer] of the Streamlit app
    ([w_capture]) and the chunks written to [sys.__stdout__] ([w_stdout]);
    the external clients constructed so far ([w_clients]); the prompts shown
    on the terminal ([w_prompts]); the flag of the [threading.Event] the
    Streamlit app keeps as [stop_event] ([w_stop_event]). *)
Record world (db : Type) : Type := {
  w_db : db;
  w_inserts : list (string * gmap string Py.value);
  w_records : list (level * string);
  w_capture : StreamlitLogHandler.t;
  w_stdout : list string;
  w_clients : list string;
  w_prompts : list string;
  w_stop_event : bool
}.

Arguments w_db {db}.
Arguments w_inserts {db}.
Arguments w_records {db}.
Arguments w_capture {db}.
Arguments w_stdout {db}.
Arguments w_clients {db}.
Arguments w_prompts {db}.
Arguments w_stop_event {db}.

(** How a call ends: it returns a value or an exception leaves it. *)
Inductive outcome (A : Type) : Type :=
| Return (a : A)
| Raise (e : Py.exn).

Arguments Return {A}.
Arguments Raise {A}.

Module Run.

Section Runtime.

Context {db : Type}.

(** The store client: [table(name).insert(row).execute()]. *)
Variable execute_insert : db -> string -> gmap string Py.value -> db * execute_result.

Definition M (A : Type) : Type := world db -> outcome A * world db.

Definition ret {A} (a : A) : M A := fun w => (Return a, w).

Definition bind {A B} (m : M A) (k : A -> M B) : M B :=
  fun w =>
    match m w with
    | (Return a, w') => k a w'
    | (Raise e, w') => (Raise e, w')
    end.

Definition raise {A} (e : Py.exn) : M A := fun w => (Raise e, w).

(** [try: body  except Exception as e: handler(e)] *)
Definition try_except {A} (body : M A) (handler : Py.exn -> M A) : M A :=
  fun w =>
    match body w with
    | (Return a, w') => (Return a, w')
    | (Raise (Py.Exception cls msg), w') => handler (Py.Exception cls msg) w'
    | (Raise (Py.SystemExit code), w') => (Raise (Py.SystemExit code), w')
    | (Raise Py.KeyboardInterrupt, w') => (Raise Py.KeyboardInterrupt, w')
    end.

(** [try: body  finally: final] *)
Definition try_finally {A} (body : M A) (final : M unit) : M A :=
  fun w =>
    match body w with
    | (r, w') =>
        match final w' with
        | (Return _, w'') => (r, w'')
        | (Raise e, w'') => (Raise e, w'')
        end
    end.

(** [logger.info], [logger.warning], [logger.error], [logger.critical] *)
Definition logger (lvl : level) (msg : string) : M unit :=
  fun w =>
    (Return tt,
     {| w_db := w_db w; w_inserts := w_inserts w;
        w_records := w_records w ++ [(lvl, msg)];
        w_capture := w_capture w; w_stdout := w_stdout w;
        w_clients := w_clients w; w_prompts := w_prompts w;
        w_stop_event := w_stop_event w |}).

(** [log_capture_buffer.write(message)] *)
Definition capture_write (message : string) : M unit :=
  fun w =>
    let hs := StreamlitLogHandler.write message (w_capture w, w_stdout w) in
    (Return tt,
     {| w_db := w_db w; w_inserts := w_inserts w; w_records := w_records w;
        w_capture := fst hs; w_stdout := snd hs;
        w_clients := w_clients w; w_prompts := w_prompts w;
        w_stop_event := w_stop_event w |}).

(** [supabase.table(name).insert(row).execute()] *)
Definition insert_execute (name : string) (row : gmap string Py.value) : M api_response :=
  fun w =>
    let (d, r) := execute_insert (w_db w) name row in
    let w' := {| w_db := d; w_inserts := w_inserts w ++ [(name, row)];
                 w_records := w_records w;
                 w_capture := w_capture w; w_stdout := w_stdout w;
                 w_clients := w_clients w; w_prompts := w_prompts w;
                 w_stop_event := w_stop_event w |} in
    match r with
    | Responded resp => (Return resp, w')
    | Raised cls msg => (Raise (Py.Exception cls msg), w')
    end.

(** The constructor of an external client ([App], [create_client],
    [SocketModeHandler]): [failure] is the exception it raises, if any. *)
Definition construct (client : string) (failure : option (string * string)) : M unit :=
  fun w =>
    match failure with
    | Some (cls, msg) => (Raise (Py.Exception cls msg), w)
    | None =>
        (Return tt,
         {| w_db := w_db w; w_inserts := w_inserts w; w_records := w_records w;
            w_capture := w_capture w; w_stdout := w_stdout w;
            w_clients := w_clients w ++ [client]; w_prompts := w_prompts w;
            w_stop_event := w_stop_event w |})
    end.

(** A read from the terminal: the prompt is shown and the operator's line is
    read; [None] is the end of the input, on which the read raises [EOFError],
    printed as [eof]. *)
Definition read_line (eof : string) (answers : string -> option string) (prompt : string)
  : M string :=
  fun w =>
    let w' := {| w_db := w_db w; w_inserts := w_inserts w; w_records := w_records w;
                 w_capture := w_capture w; w_stdout := w_stdout w;
                 w_clients := w_clients w; w_prompts := w_prompts w ++ [prompt];
                 w_stop_event := w_stop_event w |} in
    match answers prompt with
    | Some line => (Return line, w')
    | None => (Raise (Py.Exception "EOFError" eof), w')
    end.

(** [input(prompt)]: at the end of the input, [EOFError: EOF when reading a
    line]. *)
Definition input : (string -> option string) -> string -> M string :=
  read_line "EOF when reading a line".

(** [getpass.getpass(prompt)]: at the end of the input, a bare
    [raise EOFError], which prints as the empty string. *)
Definition getpass : (string -> option string) -> string -> M string :=
  read_line EmptyString.

(** [message_text[:n]] *)
Definition slice (v : Py.value) (n : nat) : M string :=
  match v with
  | Py.PStr s => ret (Py.take n s)
  | Py.PNone => raise (Py.Exception "TypeError" "'NoneType' object is not subscriptable")
  end.

(** [response.data[0]['id']] *)
Definition first_id (rows : list (gmap string Py.value)) : M Py.value :=
  match rows with
  | [] => raise (Py.Exception "IndexError" "list index out of range")
  | r :: _ =>
      match r !! "id" with
      | Some v => ret v
      | None => raise (Py.Exception "KeyError" "'id'")
      end
  end.

(** truth value of [response.data] *)
Definition rows_truthy (rows : list (gmap string Py.value)) : bool :=
  match rows with
  | [] => false
  | _ :: _ => true
  end.

(** [response.error]: the response has no such attribute, and the read
    raises [AttributeError]. *)
Definition response_error (response : api_response) : M (option api_error) :=
  raise (Py.Exception "AttributeError"
           ("'" +:+ response_class response +:+ "' object has no attribute 'error'")).

(** [f"{error if error else 'No error info'}"] *)
Definition error_info (e : option api_error) : string :=
  match e with
  | Some err => error_repr err
  | None => "No error info"
  end.

(** ["violates unique constraint" in str(response.error.message).lower()] *)
Definition is_unique_violation (err : api_error) : bool :=
  Py.contains "violates unique constraint" (Py.lower (error_message err)).

(** The row built from the four fields read off the event. *)
Definition data_to_insert (event_user_id channel_id message_text message_ts : Py.value)
  : gmap string Py.value :=
  <["slack_user_id" := event_user_id]>
  (<["slack_channel_id" := channel_id]>
  (<["message_content" := message_text]>
  (<["slack_message_ts" := message_ts]> ∅))).

End Runtime.

Arguments M db A : clear implicits.

End Run.

Declare Scope py_scope.
Delimit Scope py_scope with py.
Notation "'let!' x ':=' c1 'in' c2" := (Run.bind c1 (fun x => c2))
  (at level 10, x name, c1 at level 100, c2 at level 200) : py_scope.
Notation "c1 >> c2" := (Run.bind c1 (fun _ => c2))
  (at level 100, c2 at level 200, right associativity) : py_scope.

(** ** The six settings *)

(** The settings a host ends up with: the locals of [run_bot], and the
    locals [start_slack_bot_listener] reads out of its [config]. *)
Record RuntimeConfig : Type := {
  cfg_slack_bot_token : string;
  cfg_slack_app_token : string;
  cfg_supabase_url : string;
  cfg_supabase_service_key : string;
  cfg_target_slack_user_id : string;
  cfg_supabase_table_name : string
}.

#[global] Instance RuntimeConfig_eq_dec : EqDecision RuntimeConfig.
Proof. solve_decision. Defined.

(** What the constructors of the external clients and the Socket Mode
    session do: [None] when a call succeeds, the exception otherwise;
    [session] is the sequence of events delivered while [start()] blocks and
    [session_end] how [start()] ends after them; [session_interrupted] tells
    whether the operator interrupts the process while [start()] blocks in the
    main thread of the command-line host (the thread of the Streamlit app is
    not the main thread, and is never interrupted). *)
Record externals : Type := {
  new_App : string -> option (string * string);
  create_client : string -> string -> option (string * string);
  new_SocketModeHandler : string -> option (string * string);
  session : list (gmap string Py.value);
  session_end : option (string * string);
  session_interrupted : bool
}.

(** ** The callback of the Streamlit app ([src/app.py]) *)

Module App.

Section Listener.

Context {db : Type}.
Variable execute_insert : db -> string -> gmap string Py.value -> db * execute_result.

(** The values bound by [start_slack_bot_listener] when the callback is
    defined. *)
Variable target_slack_user_id : string.
Variable supabase_table_name : string.

Local Open Scope py_scope.

(** The body of the [try] block.  In the [else] branch the first thing
    evaluated is [response.error], which raises: [error] stands for its
    value in what follows, which is never run. *)
Definition store_message (event_user_id channel_id message_text message_ts : Py.value)
  : Run.M db unit :=
  let row := Run.data_to_insert event_user_id channel_id message_text message_ts in
  let! response := Run.insert_execute execute_insert supabase_table_name row in
  if Run.rows_truthy (data response) then
    let! id := Run.first_id (data response) in
    let log_msg := "Message successfully stored in Supabase. ID: " +:+ Py.format id in
    Run.logger INFO log_msg >>
    Run.capture_write (log_msg +:+ Py.nl)
  else
    let! error := Run.response_error response in
    let err_msg := "Supabase insert did not return data: " +:+ Run.error_info error in
    Run.logger WARNING err_msg >>
    Run.capture_write ("WARNING: " +:+ err_msg +:+ Py.nl) >>
    match error with
    | Some err =>
        if Run.is_unique_violation err then
          Run.logger WARNING
            ("Duplicate message (slack_message_ts: " +:+ Py.format message_ts +:+ ") not inserted.") >>
          Run.capture_write
            ("WARNING: Duplicate message (slack_message_ts: " +:+ Py.format message_ts
               +:+ ") not inserted." +:+ Py.nl)
        else Run.ret tt
    | None => Run.ret tt
    end.

(** The [except Exception as e] block. *)
Definition store_failed (e : Py.exn) : Run.M db unit :=
  let err_msg := "Error storing message in Supabase: " +:+ Py.exn_str e in
  Run.logger ERROR err_msg >>
  Run.capture_write ("ERROR: " +:+ err_msg +:+ Py.nl).

(** The condition of the [if]. *)
Definition passes_filter (event : gmap string Py.value) : bool :=
  Py.is_none (Py.get event "subtype")
  && Py.eq_str (Py.get event "user") target_slack_user_id
  && Py.truthy (Py.get event "text").

Definition handle_message_events (event : gmap string Py.value) : Run.M db unit :=
  let event_user_id := Py.get event "user" in
  let message_text := Py.get event "text" in
  let channel_id := Py.get event "channel" in
  let message_ts := Py.get event "ts" in
  if passes_filter event then
    let! shown := Run.slice message_text 50 in
    let log_msg :=
      "Received message from target user (" +:+ Py.format event_user_id
        +:+ ") in channel (" +:+ Py.format channel_id +:+ "): '" +:+ shown +:+ "...'" in
    Run.logger INFO log_msg >>
    Run.capture_write (log_msg +:+ Py.nl) >>
    Run.try_except
      (store_message event_user_id channel_id message_text message_ts)
      store_failed
  else Run.ret tt.

End Listener.

(** *** The configuration form *)

(** The six text inputs as they stand when the form is submitted. *)
Record form_fields : Type := {
  f_slack_bot_token : string;
  f_slack_app_token : string;
  f_supabase_url : string;
  f_supabase_service_key : string;
  f_target_slack_user_id : string;
  f_supabase_table_name : string
}.

(** [st.session_state], but for the two shared objects [stop_event] and
    [streamlit_log_handler], which are in the [world]; [bot_thread] tells
    whether a [Thread] is stored ([false]: [None]). *)
Record session_state : Type := {
  env_vars_confirmed : bool;
  bot_started : bool;
  bot_thread : bool;
  config : option (gmap string string)
}.

(** Lines 162 to 167: the labels of the empty required inputs. *)
Definition missing_fields (f : form_fields) : list string :=
  (if Py.str_truthy (f_slack_bot_token f) then [] else ["Slack Bot Token"])
  ++ (if Py.str_truthy (f_slack_app_token f) then [] else ["Slack App Token"])
  ++ (if Py.str_truthy (f_supabase_url f) then [] else ["Supabase URL"])
  ++ (if Py.str_truthy (f_supabase_service_key f) then [] else ["Supabase Service Key"])
  ++ (if Py.str_truthy (f_target_slack_user_id f) then [] else ["Target Slack User ID"]).

(** Lines 175 to 182: the [config] dictionary. *)
Definition form_config (f : form_fields) : gmap string string :=
  <["SLACK_BOT_TOKEN" := f_slack_bot_token f]>
  (<["SLACK_APP_TOKEN" := f_slack_app_token f]>
  (<["SUPABASE_URL" := f_supabase_url f]>
  (<["SUPABASE_SERVICE_KEY" := f_supabase_service_key f]>
  (<["TARGET_SLACK_USER_ID" := f_target_slack_user_id f]>
  (<["SUPABASE_TABLE_NAME" :=
       if Py.str_truthy (f_supabase_table_name f) then f_supabase_table_name f
       else "slack_messages_for_sensay"]> ∅))))).

(** The [if submitted:] block: the new session state, and the message of
    [st.error] when the form is refused. *)
Definition env_var_form (f : form_fields) (ss : session_state)
  : session_state * option string :=
  let missing := missing_fields f in
  let critical_missing := missing in
  match critical_missing with
  | _ :: _ =>
      (ss, Some ("Please fill in all required fields: "
                   +:+ String.concat ", " critical_missing))
  | [] =>
      ({| env_vars_confirmed := true;
          bot_started := bot_started ss;
          bot_thread := bot_thread ss;
          config := Some (form_config f) |}, None)
  end.

(** *** The configuration shown back to the operator *)

(** Lines 196, 197 and 199: a secret is shown by its first five characters,
    or as [Not Set] when it is missing or empty. *)
Definition masked (config : gmap string string) (key : string) : string :=
  match config !! key with
  | Some v => if Py.str_truthy v then Py.take 5 v +:+ "..." else "Not Set"
  | None => "Not Set"
  end.

(** Lines 198, 200 and 201: [config.get(key, 'Not Set')]. *)
Definition shown (config : gmap string string) (key : string) : string :=
  match config !! key with
  | Some v => v
  | None => "Not Set"
  end.

(** Lines 193 to 203: the dictionary given to [st.json]. *)
Definition config_display (ss : session_state) : gmap string string :=
  match config ss with
  | Some c =>
      <["SLACK_BOT_TOKEN" := masked c "SLACK_BOT_TOKEN"]>
      (<["SLACK_APP_TOKEN" := masked c "SLACK_APP_TOKEN"]>
      (<["SUPABASE_URL" := shown c "SUPABASE_URL"]>
      (<["SUPABASE_SERVICE_KEY" := masked c "SUPABASE_SERVICE_KEY"]>
      (<["TARGET_SLACK_USER_ID" := shown c "TARGET_SLACK_USER_ID"]>
      (<["SUPABASE_TABLE_NAME" := shown c "SUPABASE_TABLE_NAME"]> ∅)))))
  | None => ∅
  end.

(** *** The listener thread *)

Section Thread.

Context {db : Type}.
Variable execute_insert : db -> string -> gmap string Py.value -> db * execute_result.
Variable ext : externals.

Local Open Scope py_scope.

(** [config[key]] *)
Definition getitem (config : gmap string string) (key : string) : Run.M db string :=
  match config !! key with
  | Some v => Run.ret v
  | None => Run.raise (Py.Exception "KeyError" ("'" +:+ key +:+ "'"))
  end.

(** Lines 41 to 46: the six locals, gathered in a record. *)
Definition read_config (config : gmap string string) : Run.M db RuntimeConfig :=
  let! slack_bot_token := getitem config "SLACK_BOT_TOKEN" in
  let! slack_app_token := getitem config "SLACK_APP_TOKEN" in
  let! supabase_url := getitem config "SUPABASE_URL" in
  let! supabase_service_key := getitem config "SUPABASE_SERVICE_KEY" in
  let! target_slack_user_id := getitem config "TARGET_SLACK_USER_ID" in
  let supabase_table_name :=
    match config !! "SUPABASE_TABLE_NAME" with
    | Some v => v
    | None => "slack_messages_for_sensay"
    end in
  Run.ret {| cfg_slack_bot_token := slack_bot_token;
             cfg_slack_app_token := slack_app_token;
             cfg_supabase_url := supabase_url;
             cfg_supabase_service_key := supabase_service_key;
             cfg_target_slack_user_id := target_slack_user_id;
             cfg_supabase_table_name := supabase_table_name |}.

(** Lines 54 and 55. *)
Definition listener_banner : Run.M db unit :=
  Run.logger INFO "Bot thread started. Initializing Slack and Supabase clients..." >>
  Run.capture_write
    ("Bot thread started. Initializing Slack and Supabase clients..." +:+ Py.nl).

(** Lines 58 to 109: the [try] block up to the call of [handler.start()]. *)
Definition listener_setup (cfg : RuntimeConfig) : Run.M db unit :=
  Run.construct "App" (new_App ext (cfg_slack_bot_token cfg)) >>
  Run.construct "create_client"
    (create_client ext (cfg_supabase_url cfg) (cfg_supabase_service_key cfg)) >>
  Run.logger INFO ("Supabase client initialized for URL: " +:+ cfg_supabase_url cfg) >>
  Run.logger INFO
    ("Monitoring messages from Slack User ID: " +:+ cfg_target_slack_user_id cfg) >>
  Run.logger INFO
    ("Storing messages in Supabase table: " +:+ cfg_supabase_table_name cfg) >>
  Run.capture_write
    ("Supabase client initialized for URL: " +:+ cfg_supabase_url cfg +:+ Py.nl) >>
  Run.capture_write
    ("Monitoring messages from Slack User ID: " +:+ cfg_target_slack_user_id cfg +:+ Py.nl) >>
  Run.capture_write
    ("Storing messages in Supabase table: " +:+ cfg_supabase_table_name cfg +:+ Py.nl) >>
  Run.logger INFO "Starting SocketModeHandler..." >>
  Run.capture_write ("Starting SocketModeHandler..." +:+ Py.nl) >>
  Run.construct "SocketModeHandler" (new_SocketModeHandler ext (cfg_slack_app_token cfg)).

(** The callback as the thread binds it. *)
Definition bound_handler (cfg : RuntimeConfig) : gmap string Py.value -> Run.M db unit :=
  handle_message_events execute_insert
    (cfg_target_slack_user_id cfg) (cfg_supabase_table_name cfg).

(** [handler.start()]: the callback runs on each event delivered, in turn. *)
Fixpoint serve (handler : gmap string Py.value -> Run.M db unit)
    (events : list (gmap string Py.value)) : Run.M db unit :=
  match events with
  | [] => Run.ret tt
  | event :: rest => handler event >> serve handler rest
  end.

(** How [handler.start()] ends. *)
Definition session_over (ending : option (string * string)) : Run.M db unit :=
  match ending with
  | Some (cls, msg) => Run.raise (Py.Exception cls msg)
  | None => Run.ret tt
  end.

(** Lines 116 to 119: the [except Exception as e] block. *)
Definition listener_except (e : Py.exn) : Run.M db unit :=
  let err_msg := "Critical error in bot thread: " +:+ Py.exn_str e in
  Run.logger ERROR err_msg >>
  Run.capture_write ("CRITICAL ERROR: " +:+ err_msg +:+ Py.nl).

(** Lines 120 to 124: the [finally] block. *)
Definition listener_finally : Run.M db unit :=
  Run.logger INFO "Bot thread attempting to clean up and exit." >>
  Run.capture_write ("Bot thread attempting to clean up and exit." +:+ Py.nl).

(** The whole thread, for the session of [ext].  Its arguments [stop_event]
    and [log_capture_buffer] are references to the shared objects, which are
    [w_stop_event] and [w_capture] of the [world] it runs in. *)
Definition start_slack_bot_listener (config : gmap string string) : Run.M db unit :=
  let! cfg := read_config config in
  listener_banner >>
  Run.try_finally
    (Run.try_except
       (listener_setup cfg >>
        serve (bound_handler cfg) (session ext) >>
        session_over (session_end ext))
       listener_except)
    listener_finally.

End Thread.

(** *** The page: the session, the thread and the shared objects *)

(** The thread stored in [bot_thread]: none yet, started and not yet
    listening, blocked in [handler.start()], or finished. *)
Inductive thread_state : Type :=
| NoThread
| Spawned (config : gmap string string)
| Listening (cfg : RuntimeConfig)
| Dead.

(** [bot_thread.is_alive()] *)
Definition is_alive (t : thread_state) : bool :=
  match t with
  | Spawned _ | Listening _ => true
  | NoThread | Dead => false
  end.

Record system (db : Type) : Type := {
  ui : session_state;
  thread : thread_state;
  shared : world db
}.

Arguments ui {db}.
Arguments thread {db}.
Arguments shared {db}.

(** What happens on the page and in the thread, one step at a time. *)
Inductive action : Type :=
| UiSubmit (f : form_fields)
| UiStart
| UiReset
| BgBoot
| BgDeliver (event : gmap string Py.value)
| BgEnd (ending : option (string * string)).

Definition background (a : action) : bool :=
  match a with
  | BgBoot | BgDeliver _ | BgEnd _ => true
  | UiSubmit _ | UiStart | UiReset => false
  end.

Section Page.

Context {db : Type}.
Variable execute_insert : db -> string -> gmap string Py.value -> db * execute_result.
Variable ext : externals.

Local Open Scope py_scope.

(** [stop_event.set()] and [stop_event.clear()] *)
Definition with_stop_event (flag : bool) (w : world db) : world db :=
  {| w_db := w_db w; w_inserts := w_inserts w; w_records := w_records w;
     w_capture := w_capture w; w_stdout := w_stdout w;
     w_clients := w_clients w; w_prompts := w_prompts w;
     w_stop_event := flag |}.

(** [streamlit_log_handler.clear_logs()] *)
Definition with_cleared_logs (w : world db) : world db :=
  {| w_db := w_db w; w_inserts := w_inserts w; w_records := w_records w;
     w_capture := StreamlitLogHandler.clear_logs (w_capture w); w_stdout := w_stdout w;
     w_clients := w_clients w; w_prompts := w_prompts w;
     w_stop_event := w_stop_event w |}.

(** The form, shown while [env_vars_confirmed] is false. *)
Definition submit (f : form_fields) (s : system db) : system db :=
  if env_vars_confirmed (ui s) then s
  else {| ui := fst (env_var_form f (ui s)); thread := thread s; shared := shared s |}.

(** Lines 206 to 221: the button [start_bot], shown once the configuration
    is confirmed and while [bot_started] is false.  Reading
    [st.session_state.config] fails when no configuration was saved; the
    page cannot be in that state once the configuration is confirmed, and
    the step does nothing there. *)
Definition start_bot (s : system db) : system db :=
  if env_vars_confirmed (ui s) && negb (bot_started (ui s)) then
    if negb (bot_thread (ui s)) || negb (is_alive (thread s)) then
      match config (ui s) with
      | Some c =>
          {| ui := {| env_vars_confirmed := env_vars_confirmed (ui s);
                      bot_started := true;
                      bot_thread := true;
                      config := config (ui s) |};
             thread := Spawned c;
             shared := with_stop_event false (with_cleared_logs (shared s)) |}
      | None => s
      end
    else s
  else s.

(** Lines 223 to 237: the button [stop_bot], shown while [bot_started] is
    true.  The [Event] object is always true in the condition of line 225. *)
Definition stop_bot (s : system db) : system db :=
  if env_vars_confirmed (ui s) && bot_started (ui s) then
    {| ui := {| env_vars_confirmed := false;
                bot_started := false;
                bot_thread := bot_thread (ui s);
                config := config (ui s) |};
       thread := thread s;
       shared :=
         snd (Run.capture_write
                ("UI Stop requested. Resetting configuration." +:+ Py.nl)
                (with_stop_event true (shared s))) |}
  else s.

(** The [except] and [finally] blocks around what is left of the [try]
    block. *)
Definition listener_exit (rest : Run.M db unit) : Run.M db unit :=
  Run.try_finally (Run.try_except rest listener_except) listener_finally.

(** The thread runs from its start to the call of [handler.start()]. *)
Definition thread_boot (s : system db) : system db :=
  match thread s with
  | Spawned c =>
      match read_config c (shared s) with
      | (Return cfg, w) =>
          let w1 := snd (listener_banner w) in
          match listener_setup ext cfg w1 with
          | (Return _, w2) => {| ui := ui s; thread := Listening cfg; shared := w2 |}
          | (Raise e, w2) =>
              {| ui := ui s; thread := Dead;
                 shared := snd (listener_exit (Run.raise e) w2) |}
          end
      | (Raise _, w) => {| ui := ui s; thread := Dead; shared := w |}
      end
  | _ => s
  end.

(** The transport delivers one event to the listening thread. *)
Definition thread_deliver (event : gmap string Py.value) (s : system db) : system db :=
  match thread s with
  | Listening cfg =>
      match bound_handler execute_insert cfg event (shared s) with
      | (Return _, w) => {| ui := ui s; thread := Listening cfg; shared := w |}
      | (Raise e, w) =>
          {| ui := ui s; thread := Dead;
             shared := snd (listener_exit (Run.raise e) w) |}
      end
  | _ => s
  end.

(** [handler.start()] ends. *)
Definition thread_end (ending : option (string * string)) (s : system db) : system db :=
  match thread s with
  | Listening cfg =>
      {| ui := ui s; thread := Dead;
         shared := snd (listener_exit (session_over ending) (shared s)) |}
  | _ => s
  end.

Definition exec (a : action) (s : system db) : system db :=
  match a with
  | UiSubmit f => submit f s
  | UiStart => start_bot s
  | UiReset => stop_bot s
  | BgBoot => thread_boot s
  | BgDeliver event => thread_deliver event s
  | BgEnd ending => thread_end ending s
  end.

(** A schedule of steps, run in order. *)
Fixpoint run (schedule : list action) (s : system db) : system db :=
  match schedule with
  | [] => s
  | a :: rest => run rest (exec a s)
  end.

(** The same state with another value of the flag. *)
Definition flagged (flag : bool) (s : system db) : system db :=
  {| ui := ui s; thread := thread s; shared := with_stop_event flag (shared s) |}.

(** Lines 239 to 272: the log panel of the second step, which is drawn once
    the configuration is confirmed: its label, its content, and whether the
    page sleeps two seconds and reruns to refresh it. *)
Record log_view : Type := {
  log_display_label : string;
  log_display_content : string;
  show_rerun_trigger_for_logs : bool;
  stopped_warning : bool
}.

(** [stopped_warning] tells whether the warning of line 253 is shown. *)
Definition log_panel (s : system db) : option log_view :=
  if env_vars_confirmed (ui s) then
    if bot_started (ui s) then
      Some {| log_display_label := "Logs (Bot Active)";
              log_display_content := StreamlitLogHandler.get_logs (w_capture (shared s));
              show_rerun_trigger_for_logs := bot_thread (ui s) && is_alive (thread s);
              stopped_warning := bot_thread (ui s) && negb (is_alive (thread s)) |}
    else if Py.str_truthy (StreamlitLogHandler.get_logs (w_capture (shared s))) then
      Some {| log_display_label := "Logs (Bot Inactive)";
              log_display_content := StreamlitLogHandler.get_logs (w_capture (shared s));
              show_rerun_trigger_for_logs := false;
              stopped_warning := false |}
    else
      Some {| log_display_label := "Logs";
              log_display_content := "Bot not started or no logs yet.";
              show_rerun_trigger_for_logs := false;
              stopped_warning := false |}
  else None.

End Page.

End App.

(** ** The callback of the command-line host ([src/console_bot.py]) *)

Module ConsoleBot.

Section Listener.

Context {db : Type}.
Variable execute_insert : db -> string -> gmap string Py.value -> db * execute_result.

(** The locals of [run_bot] the callback closes over. *)
Variable target_slack_user_id : string.
Variable supabase_table_name : string.

Local Open Scope py_scope.

(** The body of the [try] block.  In the [else] branch the first thing
    evaluated is [response.error], which raises: [error] stands for its
    value in what follows, which is never run. *)
Definition store_message (event_user_id channel_id message_text message_ts : Py.value)
  : Run.M db unit :=
  let row := Run.data_to_insert event_user_id channel_id message_text message_ts in
  let! response := Run.insert_execute execute_insert supabase_table_name row in
  if Run.rows_truthy (data response) then
    let! id := Run.first_id (data response) in
    Run.logger INFO ("Message successfully stored in Supabase. ID: " +:+ Py.format id)
  else
    let! error := Run.response_error response in
    Run.logger WARNING
      ("Supabase insert did not return data: " +:+ Run.error_info error) >>
    match error with
    | Some err =>
        if Run.is_unique_violation err then
          Run.logger WARNING
            ("Duplicate message (slack_message_ts: " +:+ Py.format message_ts +:+ ") not inserted.")
        else
          Run.logger ERROR ("Failed to store message in Supabase: " +:+ error_repr err)
    | None => Run.ret tt
    end.

(** The [except Exception as e_db] block (the traceback that [exc_info]
    adds to the record is left out). *)
Definition store_failed (e_db : Py.exn) : Run.M db unit :=
  Run.logger ERROR ("Error storing message in Supabase: " +:+ Py.exn_str e_db).

(** The condition of the [if]. *)
Definition passes_filter (event : gmap string Py.value) : bool :=
  Py.is_none (Py.get event "subtype")
  && Py.eq_str (Py.get event "user") target_slack_user_id
  && Py.truthy (Py.get event "text").

Definition handle_message_events (event : gmap string Py.value) : Run.M db unit :=
  let event_user_id := Py.get event "user" in
  let message_text := Py.get event "text" in
  let channel_id := Py.get event "channel" in
  let message_ts := Py.get event "ts" in
  if passes_filter event then
    let! shown := Run.slice message_text 70 in
    Run.logger INFO
      ("Received message from target user (" +:+ Py.format event_user_id
         +:+ ") in channel (" +:+ Py.format channel_id +:+ "): '" +:+ shown +:+ "...'") >>
    Run.try_except
      (store_message event_user_id channel_id message_text message_ts)
      store_failed
  else Run.ret tt.

End Listener.

Section Host.

Context {db : Type}.
Variable execute_insert : db -> string -> gmap string Py.value -> db * execute_result.

(** [os.environ] once [load_dotenv()] has run, the operator at the terminal,
    and the external services. *)
Variable environ : gmap string string.
Variable answers : string -> option string.
Variable ext : externals.

Local Open Scope py_scope.

(** [not value] for what [os.getenv] returns *)
Definition unset (value : option string) : bool :=
  match value with
  | Some v => negb (Py.str_truthy v)
  | None => true
  end.

(** Lines 12 to 19: the prompt, and the exit when nothing is typed. *)
Definition prompt_for (var_name prompt_text : string) (is_secret : bool)
  : Run.M db string :=
  let! value :=
    (if is_secret then Run.getpass answers (prompt_text +:+ ": ")
     else Run.input answers (prompt_text +:+ ": ")) in
  if Py.str_truthy value then Run.ret value
  else
    Run.logger ERROR
      ("Required configuration '" +:+ var_name +:+ "' was not provided. Exiting.") >>
    Run.raise (Py.SystemExit 1).

Definition get_env_variable (var_name prompt_text : string) (is_secret : bool)
  : Run.M db string :=
  match environ !! var_name with
  | Some value =>
      if unset (Some value) then prompt_for var_name prompt_text is_secret
      else Run.ret value
  | None => prompt_for var_name prompt_text is_secret
  end.

(** Lines 32 to 34: the table name. *)
Definition prompt_table_name : Run.M db string :=
  let! typed :=
    Run.input answers
      "Enter Supabase Table Name (default: slack_messages_for_sensay): " in
  Run.ret (if Py.str_truthy typed then typed else "slack_messages_for_sensay").

Definition get_table_name : Run.M db string :=
  match environ !! "SUPABASE_TABLE_NAME" with
  | Some supabase_table_name =>
      if unset (Some supabase_table_name) then prompt_table_name
      else Run.ret supabase_table_name
  | None => prompt_table_name
  end.

(** Lines 27 to 34 of [run_bot]: the six locals, gathered in a record. *)
Definition resolve_config : Run.M db RuntimeConfig :=
  let! slack_bot_token :=
    get_env_variable "SLACK_BOT_TOKEN" "Enter Slack Bot Token (xoxb-)" true in
  let! slack_app_token :=
    get_env_variable "SLACK_APP_TOKEN" "Enter Slack App Token (xapp-)" true in
  let! supabase_url :=
    get_env_variable "SUPABASE_URL" "Enter Supabase Project URL" false in
  let! supabase_service_key :=
    get_env_variable "SUPABASE_SERVICE_KEY" "Enter Supabase Service Role Key" true in
  let! target_slack_user_id :=
    get_env_variable "TARGET_SLACK_USER_ID"
      "Enter Target Slack User ID (e.g., UXXXXXXXXXX)" false in
  let! supabase_table_name := get_table_name in
  Run.ret {| cfg_slack_bot_token := slack_bot_token;
             cfg_slack_app_token := slack_app_token;
             cfg_supabase_url := supabase_url;
             cfg_supabase_service_key := supabase_service_key;
             cfg_target_slack_user_id := target_slack_user_id;
             cfg_supabase_table_name := supabase_table_name |}.

(** [socket_handler.start()]: the callback runs on each event delivered, in
    turn, and the call ends as the session does, or, in this main thread, by
    the [KeyboardInterrupt] of the operator. *)
Fixpoint serve (handler : gmap string Py.value -> Run.M db unit)
    (events : list (gmap string Py.value)) : Run.M db unit :=
  match events with
  | [] => Run.ret tt
  | event :: rest => handler event >> serve handler rest
  end.

Definition socket_start (handler : gmap string Py.value -> Run.M db unit) : Run.M db unit :=
  serve handler (session ext) >>
  if session_interrupted ext then Run.raise Py.KeyboardInterrupt
  else
    match session_end ext with
    | Some (cls, msg) => Run.raise (Py.Exception cls msg)
    | None => Run.ret tt
    end.

(** The [try] block of [run_bot]. *)
Definition connect_and_listen (cfg : RuntimeConfig) : Run.M db unit :=
  Run.construct "App" (new_App ext (cfg_slack_bot_token cfg)) >>
  Run.construct "create_client"
    (create_client ext (cfg_supabase_url cfg) (cfg_supabase_service_key cfg)) >>
  Run.logger INFO ("Supabase client initialized for URL: " +:+ cfg_supabase_url cfg) >>
  Run.logger INFO
    ("Monitoring messages from Slack User ID: " +:+ cfg_target_slack_user_id cfg) >>
  Run.logger INFO
    ("Storing messages in Supabase table: " +:+ cfg_supabase_table_name cfg) >>
  Run.construct "SocketModeHandler" (new_SocketModeHandler ext (cfg_slack_app_token cfg)) >>
  Run.logger INFO "Connecting to Slack via Socket Mode..." >>
  socket_start
    (handle_message_events execute_insert
       (cfg_target_slack_user_id cfg) (cfg_supabase_table_name cfg)).

Definition run_bot : Run.M db unit :=
  let! cfg := resolve_config in
  Run.logger INFO "Initializing Deshi Knowledge Collector Bot..." >>
  Run.try_finally
    (Run.try_except
       (connect_and_listen cfg)
       (fun e_main =>
          Run.logger CRITICAL ("A critical error occurred: " +:+ Py.exn_str e_main)))
    (Run.logger INFO "Bot has shut down or encountered a critical error.").

(** The exit status of the interpreter after [run_bot()], as a shell reports
    it: 0 when it returns, the code of a [SystemExit], 1 when an exception is
    left uncaught, 130 when the process ends by [KeyboardInterrupt]. *)
Definition exit_status (r : outcome unit) : Z :=
  match r with
  | Return _ => 0
  | Raise (Py.SystemExit code) => code
  | Raise (Py.Exception _ _) => 1
  | Raise Py.KeyboardInterrupt => 130
  end.

End Host.

End ConsoleBot.

(** ** A table with a uniqueness constraint, for concrete runs *)

(** An instance of the store interface: the tables by name, each a list of
    rows; the store assigns [id], and refuses a row whose [slack_message_ts]
    is already stored: the client raises [APIError], which prints as the
    error of the database, a unique-constraint violation. *)
Module UniqueTable.

Definition ts_taken (ts : Py.value) (rows : list (gmap string Py.value)) : bool :=
  match ts with
  | Py.PStr _ =>
      existsb (fun r => bool_decide (r !! "slack_message_ts" = Some ts)) rows
  | Py.PNone => false
  end.

Definition duplicate_key : string :=
  "{'code': '23505', 'message': 'duplicate key value violates unique constraint'}".

Definition execute_insert (tables : gmap string (list (gmap string Py.value)))
    (name : string) (row : gmap string Py.value)
  : gmap string (list (gmap string Py.value)) * execute_result :=
  let rows := match tables !! name with Some rs => rs | None => [] end in
  if ts_taken (Py.get row "slack_message_ts") rows then
    (tables, Raised "APIError" duplicate_key)
  else
    let stored := <["id" := Py.PStr (pretty (S (length rows)))]> row in
    (<[name := rows ++ [stored]]> tables,
     Responded {| data := [stored]; count := None; response_class := "APIResponse" |}).

End UniqueTable.

(** Stores that fail: the service cannot be reached, and the database refuses
    the insert for a reason that is no uniqueness violation. *)
Definition unreachable_store (d : unit) (name : string) (row : gmap string Py.value)
  : unit * execute_result :=
  (d, Raised "ConnectError" "connection refused").

Definition permission_denied : string :=
  "{'code': '42501', 'message': 'permission denied for table'}".

Definition refusing_store (d : unit) (name : string) (row : gmap string Py.value)
  : unit * execute_result :=
  (d, Raised "APIError" permission_denied).

(** The state of a process that has done nothing yet. *)
Definition fresh {db : Type} (d : db) : world db :=
  {| w_db := d; w_inserts := []; w_records := [];
     w_capture := StreamlitLogHandler.init; w_stdout := [];
     w_clients := []; w_prompts := []; w_stop_event := false |}.

(** Events used in concrete runs. *)
Definition hello_event : gmap string Py.value :=
  <["user" := Py.PStr "U_target"]>
  (<["text" := Py.PStr "hello"]>
  (<["channel" := Py.PStr "C1"]>
  (<["ts" := Py.PStr "T1"]> ∅))).

Definition null_subtype_event : gmap string Py.value :=
  <["subtype" := Py.PNone]> hello_event.

Definition edited_event : gmap string Py.value :=
  <["subtype" := Py.PStr "message_changed"]> hello_event.

(** An event whose text has 80 characters. *)
Definition long_text : string :=
  "0123456789abcdefghij0123456789ABCDEFGHIJ0123456789klmnopqrst0123456789KLMNOPQRST".

Definition long_event : gmap string Py.value :=
  <["text" := Py.PStr long_text]> hello_event.

(** The state of the Streamlit app's process after it has stored [hello_event]. *)
Definition after_hello : world (gmap string (list (gmap string Py.value))) :=
  snd (App.handle_message_events UniqueTable.execute_insert
         "U_target" "slack_messages_for_sensay" hello_event (fresh ∅)).

(** ** The relevance predicate and the stored row, as specified *)

(** The predicate in the specification's words: [subtype] is absent, the
    author is the target user, the text is present and not empty. *)
Definition relevant (target : string) (event : gmap string Py.value) : Prop :=
  event !! "subtype" = None
  ∧ event !! "user" = Some (Py.PStr target)
  ∧ ∃ t, event !! "text" = Some (Py.PStr t) ∧ t ≠ EmptyString.

(** The same with [subtype] absent or null. *)
Definition qualifies (target : string) (event : gmap string Py.value) : Prop :=
  (event !! "subtype" = None ∨ event !! "subtype" = Some Py.PNone)
  ∧ event !! "user" = Some (Py.PStr target)
  ∧ ∃ t, event !! "text" = Some (Py.PStr t) ∧ t ≠ EmptyString.

(** The row of the specification's data model: its four columns are the
    author, the channel, the text and the timestamp token of the event. *)
Definition row_of (event : gmap string Py.value) : gmap string Py.value :=
  {[ "slack_user_id" := Py.get event "user";
     "slack_channel_id" := Py.get event "channel";
     "message_content" := Py.get event "text";
     "slack_message_ts" := Py.get event "ts" ]}.

(** The records of one level. *)
Definition at_level (lvl : level) (records : list (level * string)) : list string :=
  snd <$> filter (fun r => fst r = lvl) records.

(** The record both callbacks start with, showing the first [n] characters
    of the text. *)
Definition received_line (n : nat) (event : gmap string Py.value) (text : string) : string :=
  "Received message from target user (" +:+ Py.format (Py.get event "user")
    +:+ ") in channel (" +:+ Py.format (Py.get event "channel")
    +:+ "): '" +:+ Py.take n text +:+ "...'".

(** The warning for a duplicate. *)
Definition duplicate_line (event : gmap string Py.value) : string :=
  "Duplicate message (slack_message_ts: " +:+ Py.format (Py.get event "ts")
    +:+ ") not inserted.".

(** The log buffer after the entries of a list have been written to it, in
    order. *)
Definition write_all (entries : list string) (hs : StreamlitLogHandler.t * list string)
  : StreamlitLogHandler.t * list string :=
  fold_left (fun hs entry => StreamlitLogHandler.write entry hs) entries hs.

(** ** The configuration, as specified *)

(** The five mandatory settings of [run_bot]: the environment variable, the
    text of its prompt, and whether it is read as a secret. *)
Definition mandatory : list (string * string * bool) :=
  [ ("SLACK_BOT_TOKEN", "Enter Slack Bot Token (xoxb-)", true);
    ("SLACK_APP_TOKEN", "Enter Slack App Token (xapp-)", true);
    ("SUPABASE_URL", "Enter Supabase Project URL", false);
    ("SUPABASE_SERVICE_KEY", "Enter Supabase Service Role Key", true);
    ("TARGET_SLACK_USER_ID", "Enter Target Slack User ID (e.g., UXXXXXXXXXX)", false) ].

(** Nothing comes back from a prompt: the input has ended, or the line is
    empty. *)
Definition nothing_typed (answer : option string) : Prop :=
  answer = None ∨ answer = Some EmptyString.

(** What the operator of the command-line host supplies for a setting: the
    value of the environment variable when it is set and not empty, and
    otherwise the line typed at the prompt. *)
Definition supplied_value (environ : gmap string string) (typed : string → string)
    (var_name prompt : string) : string :=
  match environ !! var_name with
  | Some v => if Py.str_truthy v then v else typed prompt
  | None => typed prompt
  end.


(** The same six values, as the fields of the Streamlit app's form. *)
Definition supplied (environ : gmap string string) (typed : string → string)
  : App.form_fields :=
  {| App.f_slack_bot_token :=
       supplied_value environ typed "SLACK_BOT_TOKEN" "Enter Slack Bot Token (xoxb-): ";
     App.f_slack_app_token :=
       supplied_value environ typed "SLACK_APP_TOKEN" "Enter Slack App Token (xapp-): ";
     App.f_supabase_url :=
       supplied_value environ typed "SUPABASE_URL" "Enter Supabase Project URL: ";
     App.f_supabase_service_key :=
       supplied_value environ typed "SUPABASE_SERVICE_KEY"
         "Enter Supabase Service Role Key: ";
     App.f_target_slack_user_id :=
       supplied_value environ typed "TARGET_SLACK_USER_ID"
         "Enter Target Slack User ID (e.g., UXXXXXXXXXX): ";
     App.f_supabase_table_name :=
       supplied_value environ typed "SUPABASE_TABLE_NAME"
         "Enter Supabase Table Name (default: slack_messages_for_sensay): " |}.

(** An environment with every setting but the bot token, an operator who
    types a token at each prompt, one who leaves every line empty, and
    external services that accept every call and deliver [hello_event]. *)
Definition environ_without_bot_token : gmap string string :=
  <["SLACK_APP_TOKEN" := "xapp-1"]>
  (<["SUPABASE_URL" := "https://db.example"]>
  (<["SUPABASE_SERVICE_KEY" := "service-key"]>
  (<["TARGET_SLACK_USER_ID" := "U_target"]>
  (<["SUPABASE_TABLE_NAME" := "slack_messages_for_sensay"]> ∅)))).

Definition types_a_token (prompt : string) : option string := Some "xoxb-typed".


Definition no_terminal (prompt : string) : option string := None.


Definition types_nothing (prompt : string) : option string := Some EmptyString.

(** The exception of the first constructor that refuses, in the order of the
    calls: [App], [create_client], [SocketModeHandler]. *)
Definition first_refusal (ext : externals) (cfg : RuntimeConfig) : option (string * string) :=
  match new_App ext (cfg_slack_bot_token cfg) with
  | Some e => Some e
  | None =>
      match create_client ext (cfg_supabase_url cfg) (cfg_supabase_service_key cfg) with
      | Some e => Some e
      | None => new_SocketModeHandler ext (cfg_slack_app_token cfg)
      end
  end.

(** The settings used in concrete runs. *)
Definition default_settings : RuntimeConfig :=
  {| cfg_slack_bot_token := "xoxb-1";
     cfg_slack_app_token := "xapp-1";
     cfg_supabase_url := "https://db.example";
     cfg_supabase_service_key := "service-key";
     cfg_target_slack_user_id := "U_target";
     cfg_supabase_table_name := "slack_messages_for_sensay" |}.

Definition quiet_services : externals :=
  {| new_App := fun _ => None;
     create_client := fun _ _ => None;
     new_SocketModeHandler := fun _ => None;
     session := [hello_event];
     session_end := None;
     session_interrupted := false |}.

(** Nothing was constructed and the store was not called between two
    states. *)
Definition nothing_started {db : Type} (w w' : world db) : Prop :=
  w_clients w' = w_clients w ∧ w_inserts w' = w_inserts w ∧ w_db w' = w_db w.

(** A computation stops the process with exit status 1 before anything is
    started. *)
Definition aborts {db : Type} {A : Type} (m : Run.M db A) (w : world db) : Prop :=
  ∃ e, fst (m w) = Raise e
       ∧ ConsoleBot.exit_status (Raise e) = 1%Z
       ∧ nothing_started w (snd (m w)).

(** ** The stop flag, as specified *)

(** A computation neither reads nor writes the flag of [stop_event]: run
    from a state with another value of the flag, it ends the same way, in
    the same state but for that value. *)
Definition flag_blind {db : Type} {A : Type} (m : Run.M db A) : Prop :=
  ∀ (flag : bool) (w : world db),
    m (App.with_stop_event flag w) = (fst (m w), App.with_stop_event flag (snd (m w))).

(** A page on which the configuration was saved, the listener started and
    has come to listen. *)
Definition saved_fields : App.form_fields :=
  {| App.f_slack_bot_token := "xoxb-1";
     App.f_slack_app_token := "xapp-1";
     App.f_supabase_url := "https://db.example";
     App.f_supabase_service_key := "service-key";
     App.f_target_slack_user_id := "U_target";
     App.f_supabase_table_name := EmptyString |}.

Definition first_visit : App.system (gmap string (list (gmap string Py.value))) :=
  {| App.ui := {| App.env_vars_confirmed := false; App.bot_started := false;
                  App.bot_thread := false; App.config := None |};
     App.thread := App.NoThread;
     App.shared := fresh ∅ |}.

(** An event that comes after [hello_event]. *)
Definition later_event : gmap string Py.value :=
  <["ts" := Py.PStr "T2"]> (<["text" := Py.PStr "later"]> hello_event).

(** The page once the operator has saved the form and pressed start, the
    thread has come to listen and has stored [hello_event]. *)
Definition listening_page : App.system (gmap string (list (gmap string Py.value))) :=
  App.run UniqueTable.execute_insert quiet_services
    [App.UiSubmit saved_fields; App.UiStart; App.BgBoot; App.BgDeliver hello_event]
    first_visit.

(** * Properties *)

(** ** The built-ins on examples *)

Example take_examples :
  Py.take 3 "hello" = "hel" ∧ Py.take 50 "hello" = "hello" ∧ Py.take 0 "hello" = EmptyString.
Proof. repeat split. Qed.

Example lower_example : Py.lower "Duplicate KEY (23505)" = "duplicate key (23505)".
Proof. reflexivity. Qed.

Example contains_examples :
  Py.contains "violates unique constraint"
    (Py.lower "duplicate key value VIOLATES Unique Constraint slack_message_ts_key") = true
  ∧ Py.contains "violates unique constraint" (Py.lower "permission denied for table") = false
  ∧ Py.contains "b" EmptyString = false.
Proof. repeat split. Qed.

Example get_examples :
  Py.get hello_event "subtype" = Py.PNone
  ∧ Py.get null_subtype_event "subtype" = Py.PNone
  ∧ null_subtype_event !! "subtype" = Some Py.PNone
  ∧ hello_event !! "subtype" = None
  ∧ Py.get edited_event "subtype" = Py.PStr "message_changed".
Proof. repeat split; compute_done. Qed.

(** ** The filter *)

Lemma relevant_qualifies target event : relevant target event → qualifies target event.
Proof. intros (Hs & Hu & Ht). repeat split; auto. Qed.

Lemma str_truthy_true s : Py.str_truthy s = true ↔ s ≠ EmptyString.
Proof. destruct s; simpl; split; congruence. Qed.

Lemma app_passes_filter_iff target event :
  App.passes_filter target event = true ↔ qualifies target event.
Proof.
  unfold App.passes_filter, qualifies, Py.get.
  destruct (event !! "subtype") as [[|st]|]; simpl;
    try (split; [discriminate | intros ([?|?] & _); discriminate]);
    (destruct (event !! "user") as [[|u]|]; simpl;
     [ split; [discriminate | intros (_ & ? & _); discriminate]
     | destruct (String.eqb_spec u target) as [->|Hne]; simpl;
       [ destruct (event !! "text") as [[|t]|]; simpl;
         [ split; [discriminate | intros (_ & _ & ? & ? & _); discriminate]
         | rewrite str_truthy_true; split;
           [ intros Ht; repeat split; eauto
           | intros (_ & _ & t' & Heq & Hne); congruence ]
         | split; [discriminate | intros (_ & _ & ? & ? & _); discriminate] ]
       | split; [discriminate | intros (_ & Heq & _); congruence] ]
     | split; [discriminate | intros (_ & ? & _); discriminate] ]).
Qed.

Lemma cli_passes_filter_eq target event :
  ConsoleBot.passes_filter target event = App.passes_filter target event.
Proof. reflexivity. Qed.

Lemma not_qualifies_filter target event :
  ¬ qualifies target event → App.passes_filter target event = false.
Proof.
  intros Hn. destruct (App.passes_filter target event) eqn:E; [|reflexivity].
  apply app_passes_filter_iff in E. contradiction.
Qed.

Lemma data_to_insert_row_of event :
  Run.data_to_insert (Py.get event "user") (Py.get event "channel")
    (Py.get event "text") (Py.get event "ts") = row_of event.
Proof. unfold Run.data_to_insert, row_of. by rewrite insert_empty. Qed.

(** ** Running a callback *)

Arguments Run.data_to_insert : simpl never.
Arguments Py.get : simpl never.

Ltac run_callback :=
  unfold App.handle_message_events, ConsoleBot.handle_message_events,
    App.store_message, ConsoleBot.store_message,
    App.store_failed, ConsoleBot.store_failed,
    Run.try_except, Run.bind, Run.slice, Run.insert_execute, Run.first_id,
    Run.response_error, Run.logger, Run.capture_write, Run.ret, Run.raise.

Ltac split_response resp :=
  let rows := fresh "rows" in
  let cnt := fresh "cnt" in
  let cls := fresh "cls" in
  destruct resp as [rows cnt cls];
  destruct rows as [|? ?]; cbn;
  repeat match goal with
    | |- context [match ?r !! "id" with _ => _ end] => destruct (r !! "id"); cbn
    end.

(** A qualifying event carries its text as a non-empty string. *)
Lemma qualifies_text target event :
  qualifies target event →
  ∃ t, Py.get event "text" = Py.PStr t ∧ t ≠ EmptyString.
Proof.
  intros (_ & _ & t & Ht & Hne). exists t. unfold Py.get. by rewrite Ht.
Qed.

(** An event that fails the test of the [if] changes nothing. *)
Lemma app_callback_skips {db} (execute_insert : db → _) target table event w :
  App.passes_filter target event = false →
  App.handle_message_events execute_insert target table event w = (Return tt, w).
Proof. unfold App.handle_message_events. by intros ->. Qed.

Lemma cli_callback_skips {db} (execute_insert : db → _) target table event w :
  ConsoleBot.passes_filter target event = false →
  ConsoleBot.handle_message_events execute_insert target table event w = (Return tt, w).
Proof. unfold ConsoleBot.handle_message_events. by intros ->. Qed.

(** The callbacks never let an exception out. *)
Lemma app_callback_returns {db} (execute_insert : db → _) target table event w :
  fst (App.handle_message_events execute_insert target table event w) = Return tt.
Proof.
  run_callback.
  destruct (App.passes_filter target event) eqn:Hf; [|reflexivity].
  apply app_passes_filter_iff, qualifies_text in Hf as (t & -> & _). cbn.
  destruct (execute_insert _ _ _) as [d [resp|cls msg]]; cbn; [|reflexivity].
  split_response resp; reflexivity.
Qed.

Lemma cli_callback_returns {db} (execute_insert : db → _) target table event w :
  fst (ConsoleBot.handle_message_events execute_insert target table event w) = Return tt.
Proof.
  run_callback. rewrite cli_passes_filter_eq.
  destruct (App.passes_filter target event) eqn:Hf; [|reflexivity].
  apply app_passes_filter_iff, qualifies_text in Hf as (t & -> & _). cbn.
  destruct (execute_insert _ _ _) as [d [resp|cls msg]]; cbn; [|reflexivity].
  split_response resp; reflexivity.
Qed.

(** One insert call per qualifying event, whatever the store answers. *)
Lemma app_callback_inserts {db} (execute_insert : db → _) target table event w :
  qualifies target event →
  w_inserts (snd (App.handle_message_events execute_insert target table event w))
  = w_inserts w ++ [(table, row_of event)].
Proof.
  intros Hq. rewrite <- data_to_insert_row_of. run_callback.
  rewrite (proj2 (app_passes_filter_iff _ _) Hq).
  destruct (qualifies_text _ _ Hq) as (t & -> & _). cbn.
  destruct (execute_insert _ _ _) as [d [resp|cls msg]]; cbn; [|reflexivity].
  split_response resp; reflexivity.
Qed.

Lemma cli_callback_inserts {db} (execute_insert : db → _) target table event w :
  qualifies target event →
  w_inserts (snd (ConsoleBot.handle_message_events execute_insert target table event w))
  = w_inserts w ++ [(table, row_of event)].
Proof.
  intros Hq. rewrite <- data_to_insert_row_of. run_callback.
  rewrite cli_passes_filter_eq, (proj2 (app_passes_filter_iff _ _) Hq).
  destruct (qualifies_text _ _ Hq) as (t & -> & _). cbn.
  destruct (execute_insert _ _ _) as [d [resp|cls msg]]; cbn; [|reflexivity].
  split_response resp; reflexivity.
Qed.

(** C1, as amended: an event that does not qualify (its [subtype] is
    neither absent nor null, or its author is not the target user, or its
    text is absent or empty) is a complete no-op in both hosts: the callback
    returns, and no insert call, record, or write has happened.  So an
    insert is issued only for a qualifying event. *)
Theorem C1_only_qualifying_events_act :
  ∀ {db : Type} (execute_insert : db → string → gmap string Py.value → db * execute_result)
    (target table : string) (event : gmap string Py.value) (w : world db),
    ¬ qualifies target event →
    App.handle_message_events execute_insert target table event w = (Return tt, w)
    ∧ ConsoleBot.handle_message_events execute_insert target table event w = (Return tt, w).
Proof.
  intros db execute_insert target table event w Hn.
  apply not_qualifies_filter in Hn.
  split; [by apply app_callback_skips | apply cli_callback_skips; exact Hn].
Qed.

Lemma C1_edited_message_is_ignored :
  App.handle_message_events UniqueTable.execute_insert
    "U_target" "slack_messages_for_sensay" edited_event (fresh ∅)
  = (Return tt, fresh ∅)
  ∧ ConsoleBot.handle_message_events UniqueTable.execute_insert
      "U_target" "slack_messages_for_sensay" edited_event (fresh ∅)
    = (Return tt, fresh ∅).
Proof.
  apply (C1_only_qualifying_events_act UniqueTable.execute_insert
           "U_target" "slack_messages_for_sensay" edited_event (fresh ∅)).
  intros ([H|H] & _); vm_compute in H; discriminate.
Defined.

(** C1 as stated fails: the event whose [subtype] is present with the value
    null is not relevant in the specification's sense, and both hosts issue
    the insert for it. *)
Lemma C1_null_subtype_is_stored :
  ¬ relevant "U_target" null_subtype_event
  ∧ w_inserts (snd (App.handle_message_events UniqueTable.execute_insert
                      "U_target" "slack_messages_for_sensay" null_subtype_event (fresh ∅)))
    = [("slack_messages_for_sensay", row_of null_subtype_event)]
  ∧ w_inserts (snd (ConsoleBot.handle_message_events UniqueTable.execute_insert
                      "U_target" "slack_messages_for_sensay" null_subtype_event (fresh ∅)))
    = [("slack_messages_for_sensay", row_of null_subtype_event)].
Proof.
  split; [|split].
  - intros (H & _). vm_compute in H. discriminate.
  - compute_done.
  - compute_done.
Qed.

(** C2: for a qualifying event, hence for any relevant one, each host issues
    exactly one insert call, on the configured table, and the row is the
    event's author, channel, text and timestamp token under the four column
    names. *)
Theorem C2_one_insert_with_the_event_row :
  ∀ {db : Type} (execute_insert : db → string → gmap string Py.value → db * execute_result)
    (target table : string) (event : gmap string Py.value) (w : world db),
    qualifies target event →
    let row : gmap string Py.value :=
      {[ "slack_user_id" := Py.PStr target;
         "slack_channel_id" := Py.get event "channel";
         "message_content" := Py.get event "text";
         "slack_message_ts" := Py.get event "ts" ]} in
    w_inserts (snd (App.handle_message_events execute_insert target table event w))
    = w_inserts w ++ [(table, row)]
    ∧ w_inserts (snd (ConsoleBot.handle_message_events execute_insert target table event w))
      = w_inserts w ++ [(table, row)].
Proof.
  intros db execute_insert target table event w Hq row.
  assert (Py.get event "user" = Py.PStr target) as Hu.
  { unfold Py.get. by destruct Hq as (_ & -> & _). }
  assert (row = row_of event) as -> by (unfold row_of; by rewrite Hu).
  split; [by apply app_callback_inserts | by apply cli_callback_inserts].
Qed.

Lemma C2_hello_row :
  w_inserts (snd (App.handle_message_events UniqueTable.execute_insert
                    "U_target" "slack_messages_for_sensay" hello_event (fresh ∅)))
  = [("slack_messages_for_sensay",
      {[ "slack_user_id" := Py.PStr "U_target";
         "slack_channel_id" := Py.PStr "C1";
         "message_content" := Py.PStr "hello";
         "slack_message_ts" := Py.PStr "T1" ]})]
  ∧ w_inserts (snd (ConsoleBot.handle_message_events UniqueTable.execute_insert
                      "U_target" "slack_messages_for_sensay" hello_event (fresh ∅)))
    = [("slack_messages_for_sensay",
        {[ "slack_user_id" := Py.PStr "U_target";
           "slack_channel_id" := Py.PStr "C1";
           "message_content" := Py.PStr "hello";
           "slack_message_ts" := Py.PStr "T1" ]})].
Proof.
  apply (C2_one_insert_with_the_event_row UniqueTable.execute_insert
           "U_target" "slack_messages_for_sensay" hello_event (fresh ∅)).
  split; [left; vm_compute; reflexivity | split; [vm_compute; reflexivity|]].
  exists "hello". split; [vm_compute; reflexivity | discriminate].
Defined.

(** ** What a callback records, by what the store answers *)

Ltac run_app Hq Ht He :=
  rewrite <- data_to_insert_row_of in He; rewrite <- ?data_to_insert_row_of;
  run_callback;
  rewrite (proj2 (app_passes_filter_iff _ _) Hq);
  rewrite Ht in He |- *; cbn; rewrite He; cbn.

Ltac run_cli Hq Ht He :=
  rewrite <- data_to_insert_row_of in He; rewrite <- ?data_to_insert_row_of;
  run_callback;
  rewrite cli_passes_filter_eq, (proj2 (app_passes_filter_iff _ _) Hq);
  rewrite Ht in He |- *; cbn; rewrite He; cbn.

(** The store raises: both hosts record an error with the cause. *)
Lemma app_callback_on_exception {db} (execute_insert : db → _) target table event w t d cls msg :
  qualifies target event →
  Py.get event "text" = Py.PStr t →
  execute_insert (w_db w) table (row_of event) = (d, Raised cls msg) →
  let after := App.handle_message_events execute_insert target table event w in
  fst after = Return tt
  ∧ w_records (snd after) = w_records w ++
      [(INFO, received_line 50 event t);
       (ERROR, "Error storing message in Supabase: " +:+ msg)]
  ∧ w_inserts (snd after) = w_inserts w ++ [(table, row_of event)]
  ∧ w_db (snd after) = d.
Proof.
  intros Hq Ht He after. subst after. run_app Hq Ht He.
  rewrite <- !app_assoc. repeat split; reflexivity.
Qed.

Lemma cli_callback_on_exception {db} (execute_insert : db → _)
    target table event w t d cls msg :
  qualifies target event →
  Py.get event "text" = Py.PStr t →
  execute_insert (w_db w) table (row_of event) = (d, Raised cls msg) →
  let after := ConsoleBot.handle_message_events execute_insert target table event w in
  fst after = Return tt
  ∧ w_records (snd after) = w_records w ++
      [(INFO, received_line 70 event t);
       (ERROR, "Error storing message in Supabase: " +:+ msg)]
  ∧ w_inserts (snd after) = w_inserts w ++ [(table, row_of event)]
  ∧ w_db (snd after) = d.
Proof.
  intros Hq Ht He after. subst after. run_cli Hq Ht He.
  rewrite <- !app_assoc. repeat split; reflexivity.
Qed.

(** The store answers with no row: the read of [response.error] raises, and
    both hosts record that as an error. *)
Lemma app_callback_on_empty {db} (execute_insert : db → _) target table event w t d resp :
  qualifies target event →
  Py.get event "text" = Py.PStr t →
  execute_insert (w_db w) table (row_of event) = (d, Responded resp) →
  data resp = [] →
  let after := App.handle_message_events execute_insert target table event w in
  fst after = Return tt
  ∧ w_records (snd after) = w_records w ++
      [(INFO, received_line 50 event t);
       (ERROR, "Error storing message in Supabase: "
                 +:+ "'" +:+ response_class resp +:+ "' object has no attribute 'error'")]
  ∧ w_inserts (snd after) = w_inserts w ++ [(table, row_of event)]
  ∧ w_db (snd after) = d.
Proof.
  intros Hq Ht He Hd after. subst after. destruct resp as [rows cnt cls].
  cbn in Hd. subst rows. run_app Hq Ht He.
  rewrite <- !app_assoc. repeat split; reflexivity.
Qed.

Lemma cli_callback_on_empty {db} (execute_insert : db → _) target table event w t d resp :
  qualifies target event →
  Py.get event "text" = Py.PStr t →
  execute_insert (w_db w) table (row_of event) = (d, Responded resp) →
  data resp = [] →
  let after := ConsoleBot.handle_message_events execute_insert target table event w in
  fst after = Return tt
  ∧ w_records (snd after) = w_records w ++
      [(INFO, received_line 70 event t);
       (ERROR, "Error storing message in Supabase: "
                 +:+ "'" +:+ response_class resp +:+ "' object has no attribute 'error'")]
  ∧ w_inserts (snd after) = w_inserts w ++ [(table, row_of event)]
  ∧ w_db (snd after) = d.
Proof.
  intros Hq Ht He Hd after. subst after. destruct resp as [rows cnt cls].
  cbn in Hd. subst rows. run_cli Hq Ht He.
  rewrite <- !app_assoc. repeat split; reflexivity.
Qed.

(** Every run on a qualifying event starts with the record of the received
    message. *)
Lemma app_callback_announces {db} (execute_insert : db → _) target table event w t :
  qualifies target event →
  Py.get event "text" = Py.PStr t →
  ∃ rest,
    w_records (snd (App.handle_message_events execute_insert target table event w))
    = w_records w ++ (INFO, received_line 50 event t) :: rest.
Proof.
  intros Hq Ht. run_callback.
  rewrite (proj2 (app_passes_filter_iff _ _) Hq), Ht. cbn.
  destruct (execute_insert _ _ _) as [d [resp|cls msg]]; cbn;
    [split_response resp|]; rewrite <- ?app_assoc; eexists; reflexivity.
Qed.

Lemma cli_callback_announces {db} (execute_insert : db → _) target table event w t :
  qualifies target event →
  Py.get event "text" = Py.PStr t →
  ∃ rest,
    w_records (snd (ConsoleBot.handle_message_events execute_insert target table event w))
    = w_records w ++ (INFO, received_line 70 event t) :: rest.
Proof.
  intros Hq Ht. run_callback.
  rewrite cli_passes_filter_eq, (proj2 (app_passes_filter_iff _ _) Hq), Ht. cbn.
  destruct (execute_insert _ _ _) as [d [resp|cls msg]]; cbn;
    [split_response resp|]; rewrite <- ?app_assoc; eexists; reflexivity.
Qed.

(** [s[:n]] keeps at most [n] characters, and all of a shorter string. *)
Lemma take_length n s : String.length (Py.take n s) = Nat.min n (String.length s).
Proof.
  revert s. induction n as [|n IH]; intros [|c s]; simpl; auto.
Qed.

Lemma take_all n s : (String.length s ≤ n)%nat → Py.take n s = s.
Proof.
  revert s. induction n as [|n IH]; intros [|c s]; simpl; intros Hl; auto; try lia.
  f_equal. apply IH. lia.
Qed.

(** Deleting a null [subtype] changes nothing that [get] can see. *)
Lemma get_delete_null_subtype (event : gmap string Py.value) k :
  event !! "subtype" = Some Py.PNone →
  Py.get (delete "subtype" event) k = Py.get event k.
Proof.
  intros Hs. unfold Py.get. destruct (decide (k = "subtype")) as [->|Hne].
  - by rewrite lookup_delete_eq, Hs.
  - by rewrite lookup_delete_ne.
Qed.

Lemma error_records_app (l1 l2 : list (level * string)) :
  at_level ERROR (l1 ++ l2) = at_level ERROR l1 ++ at_level ERROR l2.
Proof. unfold at_level. by rewrite filter_app, fmap_app. Qed.

(** ** The outcomes of the insert *)

(** C3, at the failing input: [hello_event] is delivered a second time, to a
    table that already holds its row.  The insert is refused as a duplicate,
    which the client raises as [APIError]: each host returns, the table keeps
    its one row and the insert is not tried again, but what is recorded is an
    error with the text of the exception, and no warning: the warning that
    names the timestamp token is not among the records. *)
Lemma C3_redelivery_is_recorded_as_an_error :
  let app :=
    App.handle_message_events UniqueTable.execute_insert
      "U_target" "slack_messages_for_sensay" hello_event after_hello in
  let cli :=
    ConsoleBot.handle_message_events UniqueTable.execute_insert
      "U_target" "slack_messages_for_sensay" hello_event after_hello in
  length <$> (w_db after_hello !! "slack_messages_for_sensay") = Some 1%nat
  ∧ (fst app = Return tt
     ∧ w_db (snd app) = w_db after_hello
     ∧ w_inserts (snd app)
       = w_inserts after_hello ++ [("slack_messages_for_sensay", row_of hello_event)]
     ∧ w_records (snd app)
       = w_records after_hello ++
           [(INFO, received_line 50 hello_event "hello");
            (ERROR, "Error storing message in Supabase: " +:+ UniqueTable.duplicate_key)]
     ∧ at_level WARNING (w_records (snd app)) = []
     ∧ (WARNING, duplicate_line hello_event) ∉ w_records (snd app))
  ∧ (fst cli = Return tt
     ∧ w_db (snd cli) = w_db after_hello
     ∧ w_inserts (snd cli)
       = w_inserts after_hello ++ [("slack_messages_for_sensay", row_of hello_event)]
     ∧ w_records (snd cli)
       = w_records after_hello ++
           [(INFO, received_line 70 hello_event "hello");
            (ERROR, "Error storing message in Supabase: " +:+ UniqueTable.duplicate_key)]
     ∧ at_level WARNING (w_records (snd cli)) = []
     ∧ (WARNING, duplicate_line hello_event) ∉ w_records (snd cli)).
Proof.
  cbv zeta. split; [compute_done|].
  split; (repeat (split; [compute_done|])); compute_done.
Qed.

(** ** A null subtype *)

(** C9: an event whose [subtype] is present and null, sent by the target
    user with a non-empty text, is handled exactly as the same event without
    the [subtype] key, and the insert is issued for it, in both hosts. *)
Theorem C9_null_subtype_is_absent :
  ∀ {db : Type} (execute_insert : db → string → gmap string Py.value → db * execute_result)
    (target table : string) (event : gmap string Py.value) (w : world db),
    event !! "subtype" = Some Py.PNone →
    event !! "user" = Some (Py.PStr target) →
    (∃ t, event !! "text" = Some (Py.PStr t) ∧ t ≠ EmptyString) →
    (App.handle_message_events execute_insert target table event w
     = App.handle_message_events execute_insert target table (delete "subtype" event) w
     ∧ w_inserts (snd (App.handle_message_events execute_insert target table event w))
       = w_inserts w ++ [(table, row_of event)])
    ∧ (ConsoleBot.handle_message_events execute_insert target table event w
       = ConsoleBot.handle_message_events execute_insert target table
           (delete "subtype" event) w
       ∧ w_inserts (snd (ConsoleBot.handle_message_events execute_insert target table event w))
         = w_inserts w ++ [(table, row_of event)]).
Proof.
  intros db execute_insert target table event w Hs Hu Ht.
  assert (qualifies target event) as Hq by (split; [by right | by split]).
  split; split.
  - unfold App.handle_message_events, App.passes_filter.
    by rewrite !(get_delete_null_subtype _ _ Hs).
  - by apply app_callback_inserts.
  - unfold ConsoleBot.handle_message_events, ConsoleBot.passes_filter.
    by rewrite !(get_delete_null_subtype _ _ Hs).
  - by apply cli_callback_inserts.
Qed.

Lemma C9_null_subtype_event_is_stored :
  (App.handle_message_events UniqueTable.execute_insert
     "U_target" "slack_messages_for_sensay" null_subtype_event (fresh ∅)
   = App.handle_message_events UniqueTable.execute_insert
       "U_target" "slack_messages_for_sensay" (delete "subtype" null_subtype_event) (fresh ∅)
   ∧ w_inserts (snd (App.handle_message_events UniqueTable.execute_insert
                       "U_target" "slack_messages_for_sensay" null_subtype_event (fresh ∅)))
     = [] ++ [("slack_messages_for_sensay", row_of null_subtype_event)])
  ∧ (ConsoleBot.handle_message_events UniqueTable.execute_insert
       "U_target" "slack_messages_for_sensay" null_subtype_event (fresh ∅)
     = ConsoleBot.handle_message_events UniqueTable.execute_insert
         "U_target" "slack_messages_for_sensay" (delete "subtype" null_subtype_event) (fresh ∅)
     ∧ w_inserts (snd (ConsoleBot.handle_message_events UniqueTable.execute_insert
                         "U_target" "slack_messages_for_sensay" null_subtype_event (fresh ∅)))
       = [] ++ [("slack_messages_for_sensay", row_of null_subtype_event)]).
Proof.
  apply (C9_null_subtype_is_absent UniqueTable.execute_insert
           "U_target" "slack_messages_for_sensay" null_subtype_event (fresh ∅)).
  - compute_done.
  - compute_done.
  - exists "hello". split; [compute_done | discriminate].
Defined.

(** ** The text that is stored and the text that is shown *)

(** C10: for a qualifying event with text [t], of any length, the row of the
    one insert call carries [t] whole as [message_content]; the record of
    the received message shows [t[:50]] in the Streamlit app and [t[:70]] in the
    command-line host. *)
Theorem C10_stored_text_is_not_truncated :
  ∀ {db : Type} (execute_insert : db → string → gmap string Py.value → db * execute_result)
    (target table : string) (event : gmap string Py.value) (w : world db) (t : string),
    qualifies target event →
    event !! "text" = Some (Py.PStr t) →
    let app := App.handle_message_events execute_insert target table event w in
    let cli := ConsoleBot.handle_message_events execute_insert target table event w in
    (∃ row rest,
        w_inserts (snd app) = w_inserts w ++ [(table, row)]
        ∧ row !! "message_content" = Some (Py.PStr t)
        ∧ w_records (snd app)
          = w_records w ++
              (INFO, "Received message from target user (" +:+ target
                       +:+ ") in channel (" +:+ Py.format (Py.get event "channel")
                       +:+ "): '" +:+ Py.take 50 t +:+ "...'") :: rest)
    ∧ (∃ row rest,
          w_inserts (snd cli) = w_inserts w ++ [(table, row)]
          ∧ row !! "message_content" = Some (Py.PStr t)
          ∧ w_records (snd cli)
            = w_records w ++
                (INFO, "Received message from target user (" +:+ target
                         +:+ ") in channel (" +:+ Py.format (Py.get event "channel")
                         +:+ "): '" +:+ Py.take 70 t +:+ "...'") :: rest).
Proof.
  intros db execute_insert target table event w t Hq Ht app cli.
  assert (Py.get event "text" = Py.PStr t) as Hg by (unfold Py.get; by rewrite Ht).
  assert (Py.get event "user" = Py.PStr target) as Hu.
  { unfold Py.get. by destruct Hq as (_ & -> & _). }
  assert (row_of event !! "message_content" = Some (Py.PStr t)) as Hr.
  { unfold row_of. rewrite Hg. by simplify_map_eq. }
  destruct (app_callback_announces execute_insert target table event w t Hq Hg) as (ra & Ha).
  destruct (cli_callback_announces execute_insert target table event w t Hq Hg) as (rc & Hc).
  unfold received_line in Ha, Hc. rewrite Hu in Ha, Hc. cbn [Py.format] in Ha, Hc.
  split.
  - exists (row_of event), ra. split; [by apply app_callback_inserts | by split].
  - exists (row_of event), rc. split; [by apply cli_callback_inserts | by split].
Qed.

Lemma C10_long_text :
  (String.length long_text = 80)%nat
  ∧ (∃ row rest,
        w_inserts (snd (App.handle_message_events UniqueTable.execute_insert
                          "U_target" "slack_messages_for_sensay" long_event (fresh ∅)))
        = [] ++ [("slack_messages_for_sensay", row)]
        ∧ row !! "message_content" = Some (Py.PStr long_text)
        ∧ w_records (snd (App.handle_message_events UniqueTable.execute_insert
                            "U_target" "slack_messages_for_sensay" long_event (fresh ∅)))
          = [] ++
              (INFO, "Received message from target user (U_target) in channel (C1): '"
                       +:+ "0123456789abcdefghij0123456789ABCDEFGHIJ0123456789" +:+ "...'")
              :: rest)
  ∧ (∃ row rest,
        w_inserts (snd (ConsoleBot.handle_message_events UniqueTable.execute_insert
                          "U_target" "slack_messages_for_sensay" long_event (fresh ∅)))
        = [] ++ [("slack_messages_for_sensay", row)]
        ∧ row !! "message_content" = Some (Py.PStr long_text)
        ∧ w_records (snd (ConsoleBot.handle_message_events UniqueTable.execute_insert
                            "U_target" "slack_messages_for_sensay" long_event (fresh ∅)))
          = [] ++
              (INFO, "Received message from target user (U_target) in channel (C1): '"
                       +:+ "0123456789abcdefghij0123456789ABCDEFGHIJ0123456789klmnopqrst0123456789"
                       +:+ "...'")
              :: rest).
Proof.
  split; [reflexivity|].
  apply (C10_stored_text_is_not_truncated UniqueTable.execute_insert
           "U_target" "slack_messages_for_sensay" long_event (fresh ∅) long_text).
  - split; [left; compute_done | split; [compute_done|]].
    exists long_text. split; [compute_done | discriminate].
  - compute_done.
Defined.

(** ** The log buffer *)

Lemma append_nil_r (s : string) : s +:+ EmptyString = s.
Proof.
  induction s as [|c s IH]; [reflexivity|].
  change (String c (s +:+ EmptyString) = String c s). by rewrite IH.
Qed.

Lemma append_assoc (a b c : string) : (a +:+ b) +:+ c = a +:+ (b +:+ c).
Proof.
  induction a as [|x a IH]; [reflexivity|].
  change (String x ((a +:+ b) +:+ c) = String x (a +:+ (b +:+ c))). by rewrite IH.
Qed.

Lemma join_cons (x : string) (xs : list string) :
  String.concat EmptyString (x :: xs) = x +:+ String.concat EmptyString xs.
Proof. destruct xs; [by rewrite append_nil_r | reflexivity]. Qed.

Lemma join_app (l1 l2 : list string) :
  String.concat EmptyString (l1 ++ l2)
  = String.concat EmptyString l1 +:+ String.concat EmptyString l2.
Proof.
  induction l1 as [|x l1 IH]; [reflexivity|].
  change ((x :: l1) ++ l2) with (x :: (l1 ++ l2)).
  by rewrite !join_cons, IH, append_assoc.
Qed.

Lemma write_all_buffer entries h out :
  StreamlitLogHandler.buffer (fst (write_all entries (h, out)))
  = StreamlitLogHandler.buffer h ++ entries
  ∧ snd (write_all entries (h, out)) = out ++ entries.
Proof.
  revert h out. induction entries as [|e entries IH]; intros h out.
  - simpl. by rewrite !app_nil_r.
  - change (write_all (e :: entries) (h, out))
      with (write_all entries
              ({| StreamlitLogHandler.buffer := StreamlitLogHandler.buffer h ++ [e] |},
               out ++ [e])).
    destruct (IH {| StreamlitLogHandler.buffer := StreamlitLogHandler.buffer h ++ [e] |}
                (out ++ [e])) as [-> ->].
    simpl. by rewrite <- !app_assoc.
Qed.

(** C7: after the entries of any list have been written to the log buffer,
    the buffer holds what it held before followed by those entries, each
    whole and in the order written, and [get_logs] returns their
    concatenation in that order; from an empty or cleared buffer it returns
    exactly the entries written. *)
Theorem C7_log_buffer_keeps_entries_in_order :
  ∀ (entries : list string) (h : StreamlitLogHandler.t) (out : list string),
    let h' := fst (write_all entries (h, out)) in
    let fresh' := fst (write_all entries (StreamlitLogHandler.clear_logs h, out)) in
    StreamlitLogHandler.buffer h' = StreamlitLogHandler.buffer h ++ entries
    ∧ StreamlitLogHandler.get_logs h'
      = StreamlitLogHandler.get_logs h +:+ String.concat EmptyString entries
    ∧ StreamlitLogHandler.buffer fresh' = entries
    ∧ StreamlitLogHandler.get_logs fresh' = String.concat EmptyString entries
    ∧ StreamlitLogHandler.get_logs
        (fst (write_all entries (StreamlitLogHandler.init, out)))
      = String.concat EmptyString entries.
Proof.
  intros entries h out h' fresh'. subst h' fresh'.
  unfold StreamlitLogHandler.get_logs.
  rewrite !(proj1 (write_all_buffer _ _ _)). simpl.
  by rewrite join_app.
Qed.

(** ** The configuration of the command-line host *)

Section ConfigurationFacts.

Context {db : Type}.
Variable environ : gmap string string.
Variable answers : string → option string.

Lemma nothing_started_refl (w : world db) : nothing_started w w.
Proof. by repeat split. Qed.

Lemma nothing_started_trans (w1 w2 w3 : world db) :
  nothing_started w1 w2 → nothing_started w2 w3 → nothing_started w1 w3.
Proof.
  intros (H1 & H2 & H3) (H4 & H5 & H6). repeat split; congruence.
Qed.

(** A setting is resolved, or the process stops; nothing is started either
    way. *)
Lemma get_env_variable_cases var_name prompt_text is_secret (w : world db) :
  let after := ConsoleBot.get_env_variable environ answers var_name prompt_text is_secret w in
  nothing_started w (snd after)
  ∧ ((∃ v, fst after = Return v ∧ v ≠ EmptyString)
     ∨ aborts (ConsoleBot.get_env_variable environ answers var_name prompt_text is_secret) w).
Proof.
  unfold aborts, ConsoleBot.get_env_variable, ConsoleBot.prompt_for, ConsoleBot.unset,
    Run.bind, Run.input, Run.getpass, Run.read_line, Run.logger, Run.raise, Run.ret, nothing_started.
  destruct (environ !! var_name) as [[|c v]|]; cbn;
    try (destruct is_secret; destruct (answers (prompt_text +:+ ": ")) as [[|c' l]|]; cbn);
    (split; [by repeat split|]);
    first [ left; eexists; split; [reflexivity | discriminate]
          | right; eexists; repeat split; reflexivity ].
Qed.

(** With the variable unset and nothing typed, the process stops. *)
Lemma get_env_variable_aborts var_name prompt_text is_secret (w : world db) :
  ConsoleBot.unset (environ !! var_name) = true →
  nothing_typed (answers (prompt_text +:+ ": ")) →
  aborts (ConsoleBot.get_env_variable environ answers var_name prompt_text is_secret) w.
Proof.
  unfold aborts, ConsoleBot.get_env_variable, ConsoleBot.prompt_for, ConsoleBot.unset,
    Run.bind, Run.input, Run.getpass, Run.read_line, Run.logger, Run.raise, Run.ret, nothing_started, nothing_typed.
  intros Hu [Ha|Ha];
    destruct (environ !! var_name) as [[|c v]|]; try discriminate; cbn;
    destruct is_secret; rewrite Ha; cbn; eexists; repeat split; reflexivity.
Qed.

Lemma aborts_bind_left {A B} (m : Run.M db A) (k : A → Run.M db B) (w : world db) :
  aborts m w → aborts (Run.bind m k) w.
Proof.
  unfold aborts, Run.bind. intros (e & He & Hx & Hn).
  destruct (m w) as [[a|e'] w']; cbn in *; [discriminate|].
  exists e'. by simplify_eq.
Qed.

Lemma aborts_bind_right {A B} (m : Run.M db A) (k : A → Run.M db B) (w : world db) a :
  fst (m w) = Return a →
  nothing_started w (snd (m w)) →
  aborts (k a) (snd (m w)) →
  aborts (Run.bind m k) w.
Proof.
  unfold aborts, Run.bind. intros Hr Hn (e & He & Hx & Hn').
  destruct (m w) as [[a'|e'] w']; cbn in *; [|discriminate].
  simplify_eq. exists e. repeat split; try assumption.
  all: destruct Hn as (H1 & H2 & H3), Hn' as (H4 & H5 & H6); congruence.
Qed.

End ConfigurationFacts.

Ltac resolve_next :=
  match goal with
  | |- aborts (Run.bind (ConsoleBot.get_env_variable ?env ?ans ?v ?p ?s) ?k) ?w =>
      let Hn := fresh "Hn" in
      let Hv := fresh "Hv" in
      let Ha := fresh "Ha" in
      let val := fresh "val" in
      destruct (get_env_variable_cases env ans v p s w) as [Hn [(val & Hv & _)|Ha]];
      [ eapply aborts_bind_right; [exact Hv | exact Hn | cbv beta]
      | by apply aborts_bind_left ]
  end.

(** Resolving the settings stops the process when a mandatory one is unset
    and nothing is typed for it. *)
Lemma resolve_config_aborts {db} environ answers (w : world db) var prompt secret :
  (var, prompt, secret) ∈ mandatory →
  ConsoleBot.unset (environ !! var) = true →
  nothing_typed (answers (prompt +:+ ": ")) →
  aborts (ConsoleBot.resolve_config environ answers) w.
Proof.
  intros Hin Hu Ht. unfold mandatory in Hin. unfold ConsoleBot.resolve_config.
  repeat (apply elem_of_cons in Hin as [Hin|Hin]);
    [| | | | | by apply elem_of_nil in Hin]; simplify_eq.
  - apply aborts_bind_left. by apply get_env_variable_aborts.
  - resolve_next. apply aborts_bind_left. by apply get_env_variable_aborts.
  - do 2 resolve_next. apply aborts_bind_left. by apply get_env_variable_aborts.
  - do 3 resolve_next. apply aborts_bind_left. by apply get_env_variable_aborts.
  - do 4 resolve_next. apply aborts_bind_left. by apply get_env_variable_aborts.
Qed.

(** C5, as amended: in the command-line host, when a mandatory setting is
    unset in the environment (absent or empty) and nothing is typed at its
    prompt (an empty line, or the end of the input), the process ends with
    exit status 1, and by then no client or listener has been constructed
    and the store has not been called. *)
Theorem C5_unset_setting_with_nothing_typed_exits :
  ∀ {db : Type} (execute_insert : db → string → gmap string Py.value → db * execute_result)
    (environ : gmap string string) (answers : string → option string) (ext : externals)
    (w : world db) (var prompt : string) (secret : bool),
    (var, prompt, secret) ∈ mandatory →
    ConsoleBot.unset (environ !! var) = true →
    nothing_typed (answers (prompt +:+ ": ")) →
    let after := ConsoleBot.run_bot execute_insert environ answers ext w in
    ConsoleBot.exit_status (fst after) = 1%Z
    ∧ w_clients (snd after) = w_clients w
    ∧ w_inserts (snd after) = w_inserts w
    ∧ w_db (snd after) = w_db w.
Proof.
  intros db execute_insert environ answers ext w var prompt secret Hin Hu Ht after.
  assert (aborts (ConsoleBot.run_bot execute_insert environ answers ext) w)
    as (e & He & Hx & Hc & Hi & Hd).
  { unfold ConsoleBot.run_bot. apply aborts_bind_left.
    by apply (resolve_config_aborts environ answers w var prompt secret). }
  subst after. by rewrite He.
Qed.

Lemma C5_no_token_and_empty_line :
  ConsoleBot.exit_status
    (fst (ConsoleBot.run_bot unreachable_store environ_without_bot_token
            types_nothing quiet_services (fresh tt))) = 1%Z
  ∧ w_clients (snd (ConsoleBot.run_bot unreachable_store environ_without_bot_token
                      types_nothing quiet_services (fresh tt))) = []
  ∧ w_inserts (snd (ConsoleBot.run_bot unreachable_store environ_without_bot_token
                      types_nothing quiet_services (fresh tt))) = []
  ∧ w_db (snd (ConsoleBot.run_bot unreachable_store environ_without_bot_token
                 types_nothing quiet_services (fresh tt))) = tt.
Proof.
  apply (C5_unset_setting_with_nothing_typed_exits unreachable_store
           environ_without_bot_token types_nothing quiet_services (fresh tt)
           "SLACK_BOT_TOKEN" "Enter Slack Bot Token (xoxb-)" true).
  - apply list_elem_of_here.
  - compute_done.
  - right. reflexivity.
Defined.

(** C5 as stated fails: the bot token is absent from the environment, the
    operator types one at the prompt, and the host constructs its clients,
    listens, stores the message delivered and ends with status 0. *)
Lemma C5_absent_setting_typed_at_the_prompt :
  environ_without_bot_token !! "SLACK_BOT_TOKEN" = None
  ∧ ConsoleBot.exit_status
      (fst (ConsoleBot.run_bot UniqueTable.execute_insert environ_without_bot_token
              types_a_token quiet_services (fresh ∅))) = 0%Z
  ∧ w_clients (snd (ConsoleBot.run_bot UniqueTable.execute_insert environ_without_bot_token
                      types_a_token quiet_services (fresh ∅)))
    = ["App"; "create_client"; "SocketModeHandler"]
  ∧ w_inserts (snd (ConsoleBot.run_bot UniqueTable.execute_insert environ_without_bot_token
                      types_a_token quiet_services (fresh ∅)))
    = [("slack_messages_for_sensay", row_of hello_event)].
Proof. repeat split; compute_done. Qed.

(** ** The two ways to the configuration *)







(** ** The stop flag *)

Section FlagBlind.

Context {db : Type}.
Variable execute_insert : db → string → gmap string Py.value → db * execute_result.
Variable ext : externals.

Lemma blind_ret {A} (a : A) : flag_blind (Run.ret (db := db) a).
Proof. by intros flag w. Qed.

Lemma blind_raise {A} e : flag_blind (Run.raise (db := db) (A := A) e).
Proof. by intros flag w. Qed.

Lemma blind_logger lvl msg : flag_blind (Run.logger (db := db) lvl msg).
Proof. by intros flag w. Qed.

Lemma blind_capture_write message : flag_blind (Run.capture_write (db := db) message).
Proof. by intros flag w. Qed.

Lemma blind_construct client failure : flag_blind (Run.construct (db := db) client failure).
Proof. intros flag w. unfold Run.construct. by destruct failure as [[cls msg]|]. Qed.

Lemma blind_insert_execute name row :
  flag_blind (Run.insert_execute execute_insert name row).
Proof.
  intros flag w. unfold Run.insert_execute. cbn.
  by destruct (execute_insert (w_db w) name row) as [d [resp|cls msg]].
Qed.

Lemma blind_bind {A B} (m : Run.M db A) (k : A → Run.M db B) :
  flag_blind m → (∀ a, flag_blind (k a)) → flag_blind (Run.bind m k).
Proof.
  intros Hm Hk flag w. unfold Run.bind. rewrite Hm.
  destruct (m w) as [[a|e] w']; cbn; [apply Hk | reflexivity].
Qed.

Lemma blind_try_except {A} (body : Run.M db A) handler :
  flag_blind body → (∀ e, flag_blind (handler e)) → flag_blind (Run.try_except body handler).
Proof.
  intros Hb Hh flag w. unfold Run.try_except. rewrite Hb.
  destruct (body w) as [[a|[cls msg|code|]] w']; cbn;
    [reflexivity | apply Hh | reflexivity | reflexivity].
Qed.

Lemma blind_try_finally {A} (body : Run.M db A) final :
  flag_blind body → flag_blind final → flag_blind (Run.try_finally body final).
Proof.
  intros Hb Hf flag w. unfold Run.try_finally. rewrite Hb.
  destruct (body w) as [r w']; cbn. rewrite Hf.
  by destruct (final w') as [[a|e] w''].
Qed.

End FlagBlind.

Ltac blind_step :=
  lazymatch goal with
  | |- ∀ _, _ => intro
  | |- flag_blind (Run.ret _) => apply blind_ret
  | |- flag_blind (Run.raise _) => apply blind_raise
  | |- flag_blind (Run.logger _ _) => apply blind_logger
  | |- flag_blind (Run.capture_write _) => apply blind_capture_write
  | |- flag_blind (Run.construct _ _) => apply blind_construct
  | |- flag_blind (Run.insert_execute _ _ _) => apply blind_insert_execute
  | |- flag_blind (Run.bind _ _) => apply blind_bind
  | |- flag_blind (Run.try_except _ _) => apply blind_try_except
  | |- flag_blind (Run.try_finally _ _) => apply blind_try_finally
  | |- flag_blind (match ?x with _ => _ end) => destruct x
  end.

Ltac blind := repeat blind_step.

Section FlagBlindListener.

Context {db : Type}.
Variable execute_insert : db → string → gmap string Py.value → db * execute_result.
Variable ext : externals.

Lemma blind_handle_message_events target table event :
  flag_blind (App.handle_message_events execute_insert target table event).
Proof.
  unfold App.handle_message_events, App.store_message, App.store_failed,
    Run.slice, Run.first_id, Run.response_error.
  cbv zeta. blind.
Qed.

Lemma blind_read_config config : flag_blind (App.read_config (db := db) config).
Proof. unfold App.read_config, App.getitem. cbv zeta. blind. Qed.

Lemma blind_listener_banner : flag_blind (App.listener_banner (db := db)).
Proof. unfold App.listener_banner. blind. Qed.

Lemma blind_listener_setup cfg : flag_blind (App.listener_setup (db := db) ext cfg).
Proof. unfold App.listener_setup. blind. Qed.

Lemma blind_serve handler events :
  (∀ event, flag_blind (handler event)) →
  flag_blind (App.serve (db := db) handler events).
Proof.
  intros Hh. induction events as [|event events IH]; simpl; [apply blind_ret|].
  apply blind_bind; [apply Hh | intros _; apply IH].
Qed.

Lemma blind_session_over ending : flag_blind (App.session_over (db := db) ending).
Proof. unfold App.session_over. blind. Qed.

Lemma blind_listener_exit rest :
  flag_blind rest → flag_blind (App.listener_exit (db := db) rest).
Proof.
  intros Hr. unfold App.listener_exit, App.listener_except, App.listener_finally.
  cbv zeta. apply blind_try_finally; [apply blind_try_except; [exact Hr|]|]; blind.
Qed.

Lemma blind_start_slack_bot_listener config :
  flag_blind (App.start_slack_bot_listener execute_insert ext config).
Proof.
  unfold App.start_slack_bot_listener.
  apply blind_bind; [apply blind_read_config | intros cfg].
  apply blind_bind; [apply blind_listener_banner | intros _].
  apply (blind_listener_exit
           (Run.bind (App.listener_setup ext cfg)
              (λ _, Run.bind (App.serve (App.bound_handler execute_insert cfg) (session ext))
                      (λ _, App.session_over (session_end ext))))).
  apply blind_bind; [apply blind_listener_setup | intros _].
  apply blind_bind; [|intros _; apply blind_session_over].
  apply blind_serve. intros event. apply blind_handle_message_events.
Qed.

End FlagBlindListener.

(** Each step of the thread commutes with any setting of the flag. *)
Section FlagAndThread.

Context {db : Type}.
Variable execute_insert : db → string → gmap string Py.value → db * execute_result.
Variable ext : externals.

Lemma thread_boot_flagged flag (s : App.system db) :
  App.thread_boot ext (App.flagged flag s) = App.flagged flag (App.thread_boot ext s).
Proof.
  destruct s as [u [|c|cfg|] w0]; try reflexivity.
  unfold App.thread_boot, App.flagged. cbn [App.thread App.shared App.ui].
  rewrite (blind_read_config c flag w0).
  destruct (App.read_config c w0) as [[cfg|e] w]; cbn [fst snd]; [|reflexivity].
  rewrite (blind_listener_banner flag w). cbn [fst snd].
  rewrite (blind_listener_setup ext cfg flag (snd (App.listener_banner w))).
  destruct (App.listener_setup ext cfg (snd (App.listener_banner w))) as [[u'|e] w2];
    cbn [fst snd]; [reflexivity|].
  rewrite (blind_listener_exit (Run.raise e) (blind_raise e) flag w2). reflexivity.
Qed.

Lemma thread_deliver_flagged flag event (s : App.system db) :
  App.thread_deliver execute_insert event (App.flagged flag s)
  = App.flagged flag (App.thread_deliver execute_insert event s).
Proof.
  destruct s as [u [|c|cfg|] w0]; try reflexivity.
  unfold App.thread_deliver, App.flagged, App.bound_handler.
  cbn [App.thread App.shared App.ui].
  rewrite (blind_handle_message_events execute_insert _ _ event flag w0).
  destruct (App.handle_message_events execute_insert _ _ event w0)
    as [[u'|e] w]; cbn [fst snd]; [reflexivity|].
  rewrite (blind_listener_exit (Run.raise e) (blind_raise e) flag w). reflexivity.
Qed.

Lemma thread_end_flagged flag ending (s : App.system db) :
  App.thread_end ending (App.flagged flag s) = App.flagged flag (App.thread_end ending s).
Proof.
  destruct s as [u [|c|cfg|] w0]; try reflexivity.
  unfold App.thread_end, App.flagged. cbn [App.thread App.shared App.ui].
  rewrite (blind_listener_exit _ (blind_session_over ending) flag w0).
  reflexivity.
Qed.

Lemma background_step_flagged flag a (s : App.system db) :
  App.background a = true →
  App.exec execute_insert ext a (App.flagged flag s)
  = App.flagged flag (App.exec execute_insert ext a s).
Proof.
  destruct a; simpl; try discriminate; intros _.
  - apply thread_boot_flagged.
  - apply thread_deliver_flagged.
  - apply thread_end_flagged.
Qed.

Lemma background_run_flagged flag schedule (s : App.system db) :
  forallb App.background schedule = true →
  App.run execute_insert ext schedule (App.flagged flag s)
  = App.flagged flag (App.run execute_insert ext schedule s).
Proof.
  revert s. induction schedule as [|a schedule IH]; intros s Hb; [reflexivity|].
  simpl in Hb. apply andb_true_iff in Hb as [Ha Hb].
  simpl. rewrite background_step_flagged by assumption. by apply IH.
Qed.

(** The reset button leaves the thread and the store as they are. *)
Lemma stop_bot_keeps_listener (s : App.system db) :
  App.thread (App.stop_bot s) = App.thread s
  ∧ w_db (App.shared (App.stop_bot s)) = w_db (App.shared s)
  ∧ w_inserts (App.shared (App.stop_bot s)) = w_inserts (App.shared s)
  ∧ w_records (App.shared (App.stop_bot s)) = w_records (App.shared s)
  ∧ w_clients (App.shared (App.stop_bot s)) = w_clients (App.shared s).
Proof.
  destruct s as [[confirmed started stored saved] t w0]. unfold App.stop_bot.
  cbn [App.ui App.env_vars_confirmed App.bot_started].
  destruct (confirmed && started); by repeat split.
Qed.

(** A listening thread still stores the events delivered after a reset. *)
Lemma deliver_after_reset event cfg (s : App.system db) :
  App.thread s = App.Listening cfg →
  App.thread (App.thread_deliver execute_insert event (App.stop_bot s)) = App.Listening cfg
  ∧ w_inserts (App.shared (App.thread_deliver execute_insert event (App.stop_bot s)))
    = w_inserts (App.shared (App.thread_deliver execute_insert event s)).
Proof.
  intros Hl. destruct (stop_bot_keeps_listener s) as (Ht & _ & Hi & _).
  rewrite Hl in Ht.
  set (target := cfg_target_slack_user_id cfg).
  set (table := cfg_supabase_table_name cfg).
  assert (∀ s1 : App.system db,
             App.thread s1 = App.Listening cfg →
             App.thread_deliver execute_insert event s1
             = {| App.ui := App.ui s1; App.thread := App.Listening cfg;
                  App.shared :=
                    snd (App.handle_message_events execute_insert target table event
                           (App.shared s1)) |}) as Hstep.
  { intros [u1 t1 w1] H1. cbn in H1. subst t1.
    unfold App.thread_deliver, App.bound_handler. cbn [App.thread App.shared App.ui].
    pose proof (app_callback_returns execute_insert target table event w1) as Hr.
    fold target table.
    destruct (App.handle_message_events execute_insert target table event w1)
      as [[u2|e2] w2]; [reflexivity | discriminate]. }
  rewrite (Hstep _ Ht), (Hstep _ Hl). cbn [App.thread App.shared].
  split; [reflexivity|].
  destruct (App.passes_filter target event) eqn:Hf.
  - apply app_passes_filter_iff in Hf.
    by rewrite !app_callback_inserts, Hi by assumption.
  - by rewrite !app_callback_skips by assumption.
Qed.

End FlagAndThread.

(** C8: the listener thread neither reads nor writes the flag of
    [stop_event]: each of its steps, and so any run of them and the whole
    thread function, does the same whatever the flag is and whenever it is
    set.  The reset button leaves the thread, the store and the clients as
    they are, and a listening thread goes on storing the events delivered
    after it; where the button is shown, what it changes is the two
    indicators of the session and the flag. *)
Theorem C8_stop_event_is_advisory :
  ∀ {db : Type} (execute_insert : db → string → gmap string Py.value → db * execute_result)
    (ext : externals) (s : App.system db) (flag : bool),
    (∀ a, App.background a = true →
          App.exec execute_insert ext a (App.flagged flag s)
          = App.flagged flag (App.exec execute_insert ext a s))
    ∧ (∀ schedule, forallb App.background schedule = true →
          App.run execute_insert ext schedule (App.flagged flag s)
          = App.flagged flag (App.run execute_insert ext schedule s))
    ∧ (∀ config, flag_blind (App.start_slack_bot_listener execute_insert ext config))
    ∧ App.thread (App.stop_bot s) = App.thread s
    ∧ w_db (App.shared (App.stop_bot s)) = w_db (App.shared s)
    ∧ w_inserts (App.shared (App.stop_bot s)) = w_inserts (App.shared s)
    ∧ w_clients (App.shared (App.stop_bot s)) = w_clients (App.shared s)
    ∧ (∀ cfg event,
          App.thread s = App.Listening cfg →
          App.thread (App.thread_deliver execute_insert event (App.stop_bot s))
          = App.Listening cfg
          ∧ w_inserts (App.shared (App.thread_deliver execute_insert event (App.stop_bot s)))
            = w_inserts (App.shared (App.thread_deliver execute_insert event s)))
    ∧ (App.env_vars_confirmed (App.ui s) = true →
       App.bot_started (App.ui s) = true →
       App.ui (App.stop_bot s)
       = {| App.env_vars_confirmed := false; App.bot_started := false;
            App.bot_thread := App.bot_thread (App.ui s);
            App.config := App.config (App.ui s) |}
       ∧ w_stop_event (App.shared (App.stop_bot s)) = true).
Proof.
  intros db execute_insert ext s flag.
  destruct (stop_bot_keeps_listener s) as (Ht & Hd & Hi & _ & Hc).
  repeat match goal with |- _ ∧ _ => split end; try assumption.
  - intros a Ha. by apply background_step_flagged.
  - intros schedule Hs. by apply background_run_flagged.
  - intros config. apply blind_start_slack_bot_listener.
  - intros cfg event Hl. by apply deliver_after_reset.
  - intros Hv Hb. unfold App.stop_bot. by rewrite Hv, Hb.
Qed.

(** On [listening_page], the reset button is pressed and [later_event] is
    delivered: it is stored as it would have been without the reset. *)
Lemma C8_reset_on_a_listening_page :
  w_stop_event (App.shared (App.stop_bot listening_page)) = true
  ∧ App.bot_started (App.ui (App.stop_bot listening_page)) = false
  ∧ App.thread (App.stop_bot listening_page) = App.thread listening_page
  ∧ App.is_alive (App.thread (App.stop_bot listening_page)) = true
  ∧ w_inserts (App.shared (App.thread_deliver UniqueTable.execute_insert later_event
                             (App.stop_bot listening_page)))
    = w_inserts (App.shared (App.thread_deliver UniqueTable.execute_insert later_event
                               listening_page))
  ∧ length (w_inserts (App.shared (App.thread_deliver UniqueTable.execute_insert later_event
                                     (App.stop_bot listening_page)))) = 2%nat.
Proof.
  destruct (C8_stop_event_is_advisory UniqueTable.execute_insert quiet_services
              listening_page true) as (_ & _ & _ & Ht & _ & _ & _ & Hd & Hr).
  destruct Hr as (Hu & Hf); [compute_done | compute_done |].
  assert (App.thread listening_page
          = App.Listening
              {| cfg_slack_bot_token := "xoxb-1";
                 cfg_slack_app_token := "xapp-1";
                 cfg_supabase_url := "https://db.example";
                 cfg_supabase_service_key := "service-key";
                 cfg_target_slack_user_id := "U_target";
                 cfg_supabase_table_name := "slack_messages_for_sensay" |}) as Hl
    by compute_done.
  destruct (Hd _ later_event Hl) as (_ & Hi).
  split; [exact Hf|]. split; [by rewrite Hu|]. split; [exact Ht|].
  split; [by rewrite Ht, Hl|]. split; [exact Hi|]. compute_done.
Defined.

(** ** The thread, step by step and as a whole *)

Section ThreadSteps.

Context {db : Type}.
Variable execute_insert : db → string → gmap string Py.value → db * execute_result.
Variable ext : externals.

Lemma listener_exit_bind {A} (m : Run.M db A) (k : A → Run.M db unit) (w : world db) :
  App.listener_exit (Run.bind m k) w
  = match m w with
    | (Return a, w') => App.listener_exit (k a) w'
    | (Raise e, w') => App.listener_exit (Run.raise e) w'
    end.
Proof.
  unfold App.listener_exit, Run.try_finally, Run.try_except, Run.bind, Run.raise.
  by destruct (m w) as [[a|e] w'].
Qed.

(** Once the thread is finished, its steps do nothing. *)
Lemma finished_thread_stays (s : App.system db) events ending :
  App.thread s = App.Dead →
  App.run execute_insert ext (map App.BgDeliver events ++ [App.BgEnd ending]) s = s.
Proof.
  destruct s as [u t w]. cbn. intros ->.
  induction events as [|event events IH]; [reflexivity | exact IH].
Qed.

Lemma listener_exit_ext (m m' : Run.M db unit) (w : world db) :
  m w = m' w → App.listener_exit m w = App.listener_exit m' w.
Proof.
  unfold App.listener_exit, Run.try_finally, Run.try_except. by intros ->.
Qed.

Lemma bind_assoc_at {A B C} (m : Run.M db A) (k1 : A → Run.M db B) (k2 : B → Run.M db C)
    (w : world db) :
  Run.bind (Run.bind m k1) k2 w = Run.bind m (λ a, Run.bind (k1 a) k2) w.
Proof. unfold Run.bind. by destruct (m w) as [[a|e] w']. Qed.

(** A listening thread that is delivered the events of a session and then
    sees the session end has done what the rest of the [try] block does. *)
Lemma listening_thread_runs_the_session u cfg events ending (w : world db) :
  App.run execute_insert ext (map App.BgDeliver events ++ [App.BgEnd ending])
    {| App.ui := u; App.thread := App.Listening cfg; App.shared := w |}
  = {| App.ui := u; App.thread := App.Dead;
       App.shared :=
         snd (App.listener_exit
                (Run.bind (App.serve (App.bound_handler execute_insert cfg) events)
                   (λ _, App.session_over ending)) w) |}.
Proof.
  revert w. induction events as [|event events IH]; intros w.
  - cbn [map app App.run App.exec]. unfold App.thread_end. cbn [App.thread App.shared App.ui].
    rewrite listener_exit_bind. reflexivity.
  - change (App.run execute_insert ext
              (map App.BgDeliver (event :: events) ++ [App.BgEnd ending])
              {| App.ui := u; App.thread := App.Listening cfg; App.shared := w |})
      with (App.run execute_insert ext (map App.BgDeliver events ++ [App.BgEnd ending])
              match App.bound_handler execute_insert cfg event w with
              | (Return _, w1) =>
                  {| App.ui := u; App.thread := App.Listening cfg; App.shared := w1 |}
              | (Raise e, w1) =>
                  {| App.ui := u; App.thread := App.Dead;
                     App.shared := snd (App.listener_exit (Run.raise e) w1) |}
              end).
    rewrite (listener_exit_ext _
               (Run.bind (App.bound_handler execute_insert cfg event)
                  (λ _, Run.bind (App.serve (App.bound_handler execute_insert cfg) events)
                          (λ _, App.session_over ending))) w)
      by apply bind_assoc_at.
    rewrite listener_exit_bind.
    pose proof (app_callback_returns execute_insert
                  (cfg_target_slack_user_id cfg) (cfg_supabase_table_name cfg) event w) as Hr.
    change (App.handle_message_events execute_insert
              (cfg_target_slack_user_id cfg) (cfg_supabase_table_name cfg) event w)
      with (App.bound_handler execute_insert cfg event w) in Hr.
    destruct (App.bound_handler execute_insert cfg event w) as [[u'|e] w']; [|discriminate].
    apply IH.
Qed.

(** The steps of the thread, run in order over the session, leave the
    process in the state in which [start_slack_bot_listener] leaves it. *)
Lemma thread_steps_are_start_slack_bot_listener (s : App.system db) config :
  App.thread s = App.Spawned config →
  App.run execute_insert ext
    (App.BgBoot :: map App.BgDeliver (session ext) ++ [App.BgEnd (session_end ext)]) s
  = {| App.ui := App.ui s; App.thread := App.Dead;
       App.shared :=
         snd (App.start_slack_bot_listener execute_insert ext config (App.shared s)) |}.
Proof.
  destruct s as [u t w0]. cbn [App.thread App.shared App.ui]. intros ->.
  cbn [App.run App.exec]. unfold App.thread_boot, App.start_slack_bot_listener.
  cbn [App.thread App.shared App.ui]. unfold Run.bind at 1.
  destruct (App.read_config config w0) as [[cfg|e] w].
  - unfold Run.bind at 1.
    change (App.listener_banner w) with (Return tt, snd (App.listener_banner w)).
    cbn [snd].
    change (Run.try_finally (Run.try_except ?m App.listener_except) App.listener_finally)
      with (App.listener_exit m).
    rewrite listener_exit_bind.
    destruct (App.listener_setup ext cfg (snd (App.listener_banner w))) as [[u'|e] w2].
    + apply listening_thread_runs_the_session.
    + by apply finished_thread_stays.
  - by apply finished_thread_stays.
Qed.

End ThreadSteps.

(** ** A whole session *)

(** Over a session, whatever the store does on each call, the callback is
    run on every event and none stops the listener: the insert calls issued
    are those of the qualifying events, one each, in the order of
    delivery. *)
Lemma app_session_inserts {db} (execute_insert : db → _) cfg events (w : world db) :
  let after := App.serve (App.bound_handler execute_insert cfg) events w in
  fst after = Return tt
  ∧ w_inserts (snd after)
    = w_inserts w ++
        ((λ event, (cfg_supabase_table_name cfg, row_of event)) <$>
           filter (λ event, App.passes_filter (cfg_target_slack_user_id cfg) event = true)
             events).
Proof.
  revert w. induction events as [|event events IH]; intros w.
  - cbn. by rewrite app_nil_r.
  - cbn [App.serve]. unfold Run.bind.
    assert (fst (App.bound_handler execute_insert cfg event w) = Return tt) as Hr
      by apply app_callback_returns.
    assert (w_inserts (snd (App.bound_handler execute_insert cfg event w))
            = w_inserts w ++
                (if App.passes_filter (cfg_target_slack_user_id cfg) event
                 then [(cfg_supabase_table_name cfg, row_of event)] else [])) as Hi.
    { unfold App.bound_handler. destruct (App.passes_filter _ event) eqn:Hf.
      - apply app_callback_inserts. by apply app_passes_filter_iff.
      - rewrite app_callback_skips by assumption. by rewrite app_nil_r. }
    destruct (App.bound_handler execute_insert cfg event w) as [[u|e] w1];
      [|discriminate].
    cbn [snd] in Hi. destruct (IH w1) as [Hf' Hi']. cbv zeta. split; [exact Hf'|].
    rewrite Hi', Hi, filter_cons.
    destruct (App.passes_filter (cfg_target_slack_user_id cfg) event) eqn:Hf.
    + rewrite decide_True by reflexivity. by rewrite fmap_cons, <- app_assoc.
    + rewrite decide_False by discriminate. by rewrite app_nil_r.
Qed.

Lemma cli_session_inserts {db} (execute_insert : db → _) target table events (w : world db) :
  let after :=
    ConsoleBot.serve (ConsoleBot.handle_message_events execute_insert target table) events w in
  fst after = Return tt
  ∧ w_inserts (snd after)
    = w_inserts w ++
        ((λ event, (table, row_of event)) <$>
           filter (λ event, App.passes_filter target event = true) events).
Proof.
  revert w. induction events as [|event events IH]; intros w.
  - cbn. by rewrite app_nil_r.
  - cbn [ConsoleBot.serve]. unfold Run.bind.
    pose proof (cli_callback_returns execute_insert target table event w) as Hr.
    assert (w_inserts (snd (ConsoleBot.handle_message_events execute_insert target table
                              event w))
            = w_inserts w ++
                (if App.passes_filter target event then [(table, row_of event)] else []))
      as Hi.
    { destruct (App.passes_filter target event) eqn:Hf.
      - apply cli_callback_inserts. by apply app_passes_filter_iff.
      - rewrite cli_callback_skips by assumption. by rewrite app_nil_r. }
    destruct (ConsoleBot.handle_message_events execute_insert target table event w)
      as [[u|e] w1]; [|discriminate].
    cbn [snd] in Hi. destruct (IH w1) as [Hf' Hi']. cbv zeta. split; [exact Hf'|].
    rewrite Hi', Hi, filter_cons.
    destruct (App.passes_filter target event) eqn:Hf.
    + rewrite decide_True by reflexivity. by rewrite fmap_cons, <- app_assoc.
    + rewrite decide_False by discriminate. by rewrite app_nil_r.
Qed.

(** C4: when the insert for a qualifying event fails, which the client
    reports by raising, whatever the reason, each host records the received
    message and then an error that carries the text of the exception,
    returns normally and has issued that one insert call and no other; and
    the listener goes on: over that event and any events delivered after it,
    the loop runs to its end and issues the insert of every later event that
    passes the test. *)
Theorem C4_failed_insert_is_recorded_and_the_listener_goes_on :
  ∀ {db : Type} (execute_insert : db → string → gmap string Py.value → db * execute_result)
    (cfg : RuntimeConfig) (event : gmap string Py.value)
    (later : list (gmap string Py.value)) (w : world db) (t : string)
    (d : db) (cls msg : string),
    let target := cfg_target_slack_user_id cfg in
    let table := cfg_supabase_table_name cfg in
    qualifies target event →
    Py.get event "text" = Py.PStr t →
    execute_insert (w_db w) table (row_of event) = (d, Raised cls msg) →
    let app := App.handle_message_events execute_insert target table event w in
    let cli := ConsoleBot.handle_message_events execute_insert target table event w in
    let app_session := App.serve (App.bound_handler execute_insert cfg) (event :: later) w in
    let cli_session :=
      ConsoleBot.serve (ConsoleBot.handle_message_events execute_insert target table)
        (event :: later) w in
    let later_rows :=
      (λ e, (table, row_of e)) <$> filter (λ e, App.passes_filter target e = true) later in
    (fst app = Return tt
     ∧ w_records (snd app) = w_records w ++
         [(INFO, received_line 50 event t);
          (ERROR, "Error storing message in Supabase: " +:+ msg)]
     ∧ w_inserts (snd app) = w_inserts w ++ [(table, row_of event)]
     ∧ w_db (snd app) = d)
    ∧ (fst cli = Return tt
       ∧ w_records (snd cli) = w_records w ++
           [(INFO, received_line 70 event t);
            (ERROR, "Error storing message in Supabase: " +:+ msg)]
       ∧ w_inserts (snd cli) = w_inserts w ++ [(table, row_of event)]
       ∧ w_db (snd cli) = d)
    ∧ (fst app_session = Return tt
       ∧ w_inserts (snd app_session) = w_inserts w ++ (table, row_of event) :: later_rows)
    ∧ (fst cli_session = Return tt
       ∧ w_inserts (snd cli_session) = w_inserts w ++ (table, row_of event) :: later_rows).
Proof.
  intros db execute_insert cfg event later w t d cls msg target table Hq Ht He
    app cli app_session cli_session later_rows.
  assert (App.passes_filter target event = true) as Hp by by apply app_passes_filter_iff.
  split; [by apply (app_callback_on_exception execute_insert target table event w t d cls msg)|].
  split; [by apply (cli_callback_on_exception execute_insert target table event w t d cls msg)|].
  split.
  - destruct (app_session_inserts execute_insert cfg (event :: later) w) as [Hr Hi].
    split; [exact Hr|]. subst app_session. rewrite Hi, filter_cons.
    fold target. by rewrite decide_True by exact Hp.
  - destruct (cli_session_inserts execute_insert target table (event :: later) w) as [Hr Hi].
    split; [exact Hr|]. subst cli_session. rewrite Hi, filter_cons.
    by rewrite decide_True by exact Hp.
Qed.

Lemma C4_refused_insert_and_later_events :
  (fst (App.handle_message_events refusing_store
          (cfg_target_slack_user_id default_settings)
          (cfg_supabase_table_name default_settings) hello_event (fresh tt)) = Return tt
   ∧ w_records (snd (App.handle_message_events refusing_store
                       (cfg_target_slack_user_id default_settings)
                       (cfg_supabase_table_name default_settings) hello_event (fresh tt)))
     = w_records (fresh tt) ++
         [(INFO, received_line 50 hello_event "hello");
          (ERROR, "Error storing message in Supabase: " +:+ permission_denied)]
   ∧ w_inserts (snd (App.handle_message_events refusing_store
                       (cfg_target_slack_user_id default_settings)
                       (cfg_supabase_table_name default_settings) hello_event (fresh tt)))
     = w_inserts (fresh tt) ++
         [(cfg_supabase_table_name default_settings, row_of hello_event)]
   ∧ w_db (snd (App.handle_message_events refusing_store
                  (cfg_target_slack_user_id default_settings)
                  (cfg_supabase_table_name default_settings) hello_event (fresh tt))) = tt)
  ∧ (fst (ConsoleBot.handle_message_events refusing_store
            (cfg_target_slack_user_id default_settings)
            (cfg_supabase_table_name default_settings) hello_event (fresh tt)) = Return tt
     ∧ w_records (snd (ConsoleBot.handle_message_events refusing_store
                         (cfg_target_slack_user_id default_settings)
                         (cfg_supabase_table_name default_settings) hello_event (fresh tt)))
       = w_records (fresh tt) ++
           [(INFO, received_line 70 hello_event "hello");
            (ERROR, "Error storing message in Supabase: " +:+ permission_denied)]
     ∧ w_inserts (snd (ConsoleBot.handle_message_events refusing_store
                         (cfg_target_slack_user_id default_settings)
                         (cfg_supabase_table_name default_settings) hello_event (fresh tt)))
       = w_inserts (fresh tt) ++
           [(cfg_supabase_table_name default_settings, row_of hello_event)]
     ∧ w_db (snd (ConsoleBot.handle_message_events refusing_store
                    (cfg_target_slack_user_id default_settings)
                    (cfg_supabase_table_name default_settings) hello_event (fresh tt))) = tt)
  ∧ (fst (App.serve (App.bound_handler refusing_store default_settings)
            (hello_event :: [later_event; edited_event]) (fresh tt)) = Return tt
     ∧ w_inserts (snd (App.serve (App.bound_handler refusing_store default_settings)
                         (hello_event :: [later_event; edited_event]) (fresh tt)))
       = w_inserts (fresh tt) ++
           (cfg_supabase_table_name default_settings, row_of hello_event)
           :: ((λ e, (cfg_supabase_table_name default_settings, row_of e)) <$>
                 filter (λ e, App.passes_filter (cfg_target_slack_user_id default_settings) e
                              = true)
                   [later_event; edited_event]))
  ∧ (fst (ConsoleBot.serve
            (ConsoleBot.handle_message_events refusing_store
               (cfg_target_slack_user_id default_settings)
               (cfg_supabase_table_name default_settings))
            (hello_event :: [later_event; edited_event]) (fresh tt)) = Return tt
     ∧ w_inserts (snd (ConsoleBot.serve
                         (ConsoleBot.handle_message_events refusing_store
                            (cfg_target_slack_user_id default_settings)
                            (cfg_supabase_table_name default_settings))
                         (hello_event :: [later_event; edited_event]) (fresh tt)))
       = w_inserts (fresh tt) ++
           (cfg_supabase_table_name default_settings, row_of hello_event)
           :: ((λ e, (cfg_supabase_table_name default_settings, row_of e)) <$>
                 filter (λ e, App.passes_filter (cfg_target_slack_user_id default_settings) e
                              = true)
                   [later_event; edited_event])).
Proof.
  apply (C4_failed_insert_is_recorded_and_the_listener_goes_on refusing_store
           default_settings hello_event [later_event; edited_event] (fresh tt) "hello"
           tt "APIError" permission_denied).
  - split; [left; compute_done | split; [compute_done|]].
    exists "hello". split; [compute_done | discriminate].
  - compute_done.
  - reflexivity.
Defined.

(** ** The session of the page *)

(** On every page reached from the first visit, a confirmed configuration is
    a saved one, so the start button finds [config]. *)
Lemma confirmed_configuration_is_saved {db} (execute_insert : db → _) ext schedule
    (s : App.system db) :
  (App.env_vars_confirmed (App.ui s) = true → is_Some (App.config (App.ui s))) →
  App.env_vars_confirmed (App.ui (App.run execute_insert ext schedule s)) = true →
  is_Some (App.config (App.ui (App.run execute_insert ext schedule s))).
Proof.
  revert s. induction schedule as [|a schedule IH]; intros s Hs; [exact Hs|].
  apply IH. clear IH. destruct s as [[confirmed started stored saved] t w].
  cbn [App.ui App.env_vars_confirmed App.config] in Hs.
  destruct a; cbn [App.exec];
    unfold App.submit, App.env_var_form, App.start_bot, App.stop_bot,
      App.thread_boot, App.thread_deliver, App.thread_end;
    cbn [App.ui App.thread App.shared App.env_vars_confirmed App.bot_started
         App.bot_thread App.config];
    repeat case_match; simplify_eq;
    cbn [App.ui App.env_vars_confirmed App.config fst];
    first [ exact Hs | discriminate | intros _; by eexists ].
Qed.

(** ** The two hosts on one operator *)

(** With the bot token missing from the environment and typed by the
    operator, both hosts end with the same configuration. *)
Example both_hosts_with_a_typed_token :
  fst (ConsoleBot.resolve_config environ_without_bot_token types_a_token (fresh tt))
  = Return {| cfg_slack_bot_token := "xoxb-typed";
              cfg_slack_app_token := "xapp-1";
              cfg_supabase_url := "https://db.example";
              cfg_supabase_service_key := "service-key";
              cfg_target_slack_user_id := "U_target";
              cfg_supabase_table_name := "slack_messages_for_sensay" |}
  ∧ fst (App.read_config
           (App.form_config (supplied environ_without_bot_token (λ _, "xoxb-typed")))
           (fresh tt))
    = Return {| cfg_slack_bot_token := "xoxb-typed";
                cfg_slack_app_token := "xapp-1";
                cfg_supabase_url := "https://db.example";
                cfg_supabase_service_key := "service-key";
                cfg_target_slack_user_id := "U_target";
                cfg_supabase_table_name := "slack_messages_for_sensay" |}
  ∧ App.missing_fields (supplied environ_without_bot_token (λ _, "xoxb-typed")) = []
  ∧ App.missing_fields (supplied environ_without_bot_token (λ _, EmptyString))
    = ["Slack Bot Token"].
Proof. repeat split; compute_done. Qed.

(** * Further properties of the two hosts *)

(** ** Stores and pages for concrete runs *)

(** A store that keeps the row and returns it without an [id]. *)
Definition idless_store (rows : list (gmap string Py.value)) (name : string)
    (row : gmap string Py.value)
  : list (gmap string Py.value) * execute_result :=
  (rows ++ [row],
   Responded {| data := [row]; count := None; response_class := "APIResponse" |}).

(** A store that returns no row. *)
Definition silent_store (d : unit) (name : string) (row : gmap string Py.value)
  : unit * execute_result :=
  (d, Responded {| data := []; count := None; response_class := "APIResponse" |}).

(** External services whose [App] constructor refuses the token. *)
Definition refusing_services : externals :=
  {| new_App := fun _ => Some ("BoltError", "token is invalid");
     create_client := fun _ _ => None;
     new_SocketModeHandler := fun _ => None;
     session := [hello_event];
     session_end := None;
     session_interrupted := false |}.

(** External services that accept every call and deliver [hello_event], with
    an operator who then interrupts the process. *)
Definition interrupted_services : externals :=
  {| new_App := fun _ => None;
     create_client := fun _ _ => None;
     new_SocketModeHandler := fun _ => None;
     session := [hello_event];
     session_end := None;
     session_interrupted := true |}.

(** An environment with all six settings. *)
Definition full_environ : gmap string string :=
  <["SLACK_BOT_TOKEN" := "xoxb-1"]> environ_without_bot_token.

(** ** The callback, outcome by outcome *)

(** The store answers with rows: the first one is read for its [id]. *)
Lemma app_callback_on_rows {db} (execute_insert : db → _)
    target table event w t d r rest count class :
  qualifies target event →
  Py.get event "text" = Py.PStr t →
  execute_insert (w_db w) table (row_of event)
    = (d, Responded {| data := r :: rest; count := count; response_class := class |}) →
  let after := App.handle_message_events execute_insert target table event w in
  fst after = Return tt
  ∧ w_records (snd after) = w_records w ++
      [(INFO, received_line 50 event t);
       match r !! "id" with
       | Some id => (INFO, "Message successfully stored in Supabase. ID: " +:+ Py.format id)
       | None => (ERROR, "Error storing message in Supabase: " +:+ "'id'")
       end]
  ∧ w_inserts (snd after) = w_inserts w ++ [(table, row_of event)]
  ∧ w_db (snd after) = d.
Proof.
  intros Hq Ht He after. subst after. run_app Hq Ht He.
  destruct (r !! "id"); cbn; rewrite <- !app_assoc; repeat split; reflexivity.
Qed.

Lemma cli_callback_on_rows {db} (execute_insert : db → _)
    target table event w t d r rest count class :
  qualifies target event →
  Py.get event "text" = Py.PStr t →
  execute_insert (w_db w) table (row_of event)
    = (d, Responded {| data := r :: rest; count := count; response_class := class |}) →
  let after := ConsoleBot.handle_message_events execute_insert target table event w in
  fst after = Return tt
  ∧ w_records (snd after) = w_records w ++
      [(INFO, received_line 70 event t);
       match r !! "id" with
       | Some id => (INFO, "Message successfully stored in Supabase. ID: " +:+ Py.format id)
       | None => (ERROR, "Error storing message in Supabase: " +:+ "'id'")
       end]
  ∧ w_inserts (snd after) = w_inserts w ++ [(table, row_of event)]
  ∧ w_db (snd after) = d.
Proof.
  intros Hq Ht He after. subst after. run_cli Hq Ht He.
  destruct (r !! "id"); cbn; rewrite <- !app_assoc; repeat split; reflexivity.
Qed.

Lemma hello_qualifies : qualifies "U_target" hello_event.
Proof.
  split; [left; compute_done | split; [compute_done|]].
  exists "hello". split; [compute_done | discriminate].
Qed.

(** X1: whatever the event, the store's answer and the state of the process,
    the callback of each host returns normally: an exception raised by the
    insert, or by reading the [id] of the returned row, never leaves it. *)
Theorem X1_callbacks_never_raise :
  ∀ {db : Type} (execute_insert : db → string → gmap string Py.value → db * execute_result)
    (target table : string) (event : gmap string Py.value) (w : world db),
    fst (App.handle_message_events execute_insert target table event w) = Return tt
    ∧ fst (ConsoleBot.handle_message_events execute_insert target table event w) = Return tt.
Proof.
  intros db execute_insert target table event w. split.
  - apply app_callback_returns.
  - apply cli_callback_returns.
Qed.

(** X2: when the store returns rows and the first one has an [id], each host
    records the received message and then the confirmation with that [id],
    both at level INFO, and nothing else, whatever else the response
    carries; the store is as the insert left it. *)
Theorem X2_stored_row_is_confirmed_with_its_id :
  ∀ {db : Type} (execute_insert : db → string → gmap string Py.value → db * execute_result)
    (target table : string) (event : gmap string Py.value) (w : world db) (t : string)
    (d : db) (r : gmap string Py.value) (rest : list (gmap string Py.value))
    (count : option Z) (class : string) (id : Py.value),
    qualifies target event →
    Py.get event "text" = Py.PStr t →
    execute_insert (w_db w) table (row_of event)
      = (d, Responded {| data := r :: rest; count := count; response_class := class |}) →
    r !! "id" = Some id →
    let app := App.handle_message_events execute_insert target table event w in
    let cli := ConsoleBot.handle_message_events execute_insert target table event w in
    (w_records (snd app) = w_records w ++
       [(INFO, received_line 50 event t);
        (INFO, "Message successfully stored in Supabase. ID: " +:+ Py.format id)]
     ∧ w_db (snd app) = d)
    ∧ (w_records (snd cli) = w_records w ++
         [(INFO, received_line 70 event t);
          (INFO, "Message successfully stored in Supabase. ID: " +:+ Py.format id)]
       ∧ w_db (snd cli) = d).
Proof.
  intros db execute_insert target table event w t d r rest count class id
    Hq Ht He Hid app cli.
  destruct (app_callback_on_rows _ _ _ _ _ _ _ _ _ _ _ Hq Ht He) as (_ & Ha & _ & Hd).
  destruct (cli_callback_on_rows _ _ _ _ _ _ _ _ _ _ _ Hq Ht He) as (_ & Hc & _ & Hd').
  rewrite Hid in Ha, Hc. by repeat split.
Qed.

Lemma X2_hello_is_confirmed_with_id_1 :
  (w_records (snd (App.handle_message_events UniqueTable.execute_insert
                     "U_target" "slack_messages_for_sensay" hello_event (fresh ∅)))
   = [] ++ [(INFO, received_line 50 hello_event "hello");
            (INFO, "Message successfully stored in Supabase. ID: " +:+ "1")]
   ∧ w_db (snd (App.handle_message_events UniqueTable.execute_insert
                  "U_target" "slack_messages_for_sensay" hello_event (fresh ∅)))
     = {[ "slack_messages_for_sensay" := [<["id" := Py.PStr "1"]> (row_of hello_event)] ]})
  ∧ (w_records (snd (ConsoleBot.handle_message_events UniqueTable.execute_insert
                       "U_target" "slack_messages_for_sensay" hello_event (fresh ∅)))
     = [] ++ [(INFO, received_line 70 hello_event "hello");
              (INFO, "Message successfully stored in Supabase. ID: " +:+ "1")]
     ∧ w_db (snd (ConsoleBot.handle_message_events UniqueTable.execute_insert
                    "U_target" "slack_messages_for_sensay" hello_event (fresh ∅)))
       = {[ "slack_messages_for_sensay" := [<["id" := Py.PStr "1"]> (row_of hello_event)] ]}).
Proof.
  apply (X2_stored_row_is_confirmed_with_its_id UniqueTable.execute_insert
           "U_target" "slack_messages_for_sensay" hello_event (fresh ∅) "hello"
           {[ "slack_messages_for_sensay" := [<["id" := Py.PStr "1"]> (row_of hello_event)] ]}
           (<["id" := Py.PStr "1"]> (row_of hello_event)) [] None "APIResponse"
           (Py.PStr "1")).
  - exact hello_qualifies.
  - compute_done.
  - compute_done.
  - compute_done.
Defined.

(** X3: when the first returned row has no [id], the [KeyError] is caught:
    each host records it as an error, ['id'] being its text, and returns;
    the insert has been issued and the store keeps what it did. *)
Theorem X3_row_without_id_is_logged_as_error :
  ∀ {db : Type} (execute_insert : db → string → gmap string Py.value → db * execute_result)
    (target table : string) (event : gmap string Py.value) (w : world db) (t : string)
    (d : db) (r : gmap string Py.value) (rest : list (gmap string Py.value))
    (count : option Z) (class : string),
    qualifies target event →
    Py.get event "text" = Py.PStr t →
    execute_insert (w_db w) table (row_of event)
      = (d, Responded {| data := r :: rest; count := count; response_class := class |}) →
    r !! "id" = None →
    let app := App.handle_message_events execute_insert target table event w in
    let cli := ConsoleBot.handle_message_events execute_insert target table event w in
    (fst app = Return tt
     ∧ w_records (snd app) = w_records w ++
         [(INFO, received_line 50 event t);
          (ERROR, "Error storing message in Supabase: 'id'")]
     ∧ w_inserts (snd app) = w_inserts w ++ [(table, row_of event)]
     ∧ w_db (snd app) = d)
    ∧ (fst cli = Return tt
       ∧ w_records (snd cli) = w_records w ++
           [(INFO, received_line 70 event t);
            (ERROR, "Error storing message in Supabase: 'id'")]
       ∧ w_inserts (snd cli) = w_inserts w ++ [(table, row_of event)]
       ∧ w_db (snd cli) = d).
Proof.
  intros db execute_insert target table event w t d r rest count class
    Hq Ht He Hid app cli.
  destruct (app_callback_on_rows _ _ _ _ _ _ _ _ _ _ _ Hq Ht He) as (Hr & Ha & Hi & Hd).
  destruct (cli_callback_on_rows _ _ _ _ _ _ _ _ _ _ _ Hq Ht He) as (Hr' & Hc & Hi' & Hd').
  rewrite Hid in Ha, Hc. by repeat split.
Qed.

Lemma X3_idless_store_run :
  (fst (App.handle_message_events idless_store
          "U_target" "slack_messages_for_sensay" hello_event (fresh [])) = Return tt
   ∧ w_records (snd (App.handle_message_events idless_store
                       "U_target" "slack_messages_for_sensay" hello_event (fresh [])))
     = [] ++ [(INFO, received_line 50 hello_event "hello");
              (ERROR, "Error storing message in Supabase: 'id'")]
   ∧ w_inserts (snd (App.handle_message_events idless_store
                       "U_target" "slack_messages_for_sensay" hello_event (fresh [])))
     = [] ++ [("slack_messages_for_sensay", row_of hello_event)]
   ∧ w_db (snd (App.handle_message_events idless_store
                  "U_target" "slack_messages_for_sensay" hello_event (fresh [])))
     = [row_of hello_event])
  ∧ (fst (ConsoleBot.handle_message_events idless_store
            "U_target" "slack_messages_for_sensay" hello_event (fresh [])) = Return tt
     ∧ w_records (snd (ConsoleBot.handle_message_events idless_store
                         "U_target" "slack_messages_for_sensay" hello_event (fresh [])))
       = [] ++ [(INFO, received_line 70 hello_event "hello");
                (ERROR, "Error storing message in Supabase: 'id'")]
     ∧ w_inserts (snd (ConsoleBot.handle_message_events idless_store
                         "U_target" "slack_messages_for_sensay" hello_event (fresh [])))
       = [] ++ [("slack_messages_for_sensay", row_of hello_event)]
     ∧ w_db (snd (ConsoleBot.handle_message_events idless_store
                    "U_target" "slack_messages_for_sensay" hello_event (fresh [])))
       = [row_of hello_event]).
Proof.
  apply (X3_row_without_id_is_logged_as_error idless_store
           "U_target" "slack_messages_for_sensay" hello_event (fresh []) "hello"
           [row_of hello_event] (row_of hello_event) [] None "APIResponse").
  - exact hello_qualifies.
  - compute_done.
  - reflexivity.
  - compute_done.
Defined.

(** X4: when the insert raises, each host records the received message and
    then one error that carries the text of the exception, and returns; the
    insert has been issued once and is not tried again. *)
Theorem X4_insert_exception_is_logged_and_dropped :
  ∀ {db : Type} (execute_insert : db → string → gmap string Py.value → db * execute_result)
    (target table : string) (event : gmap string Py.value) (w : world db) (t : string)
    (d : db) (cls msg : string),
    qualifies target event →
    Py.get event "text" = Py.PStr t →
    execute_insert (w_db w) table (row_of event) = (d, Raised cls msg) →
    let app := App.handle_message_events execute_insert target table event w in
    let cli := ConsoleBot.handle_message_events execute_insert target table event w in
    (fst app = Return tt
     ∧ w_records (snd app) = w_records w ++
         [(INFO, received_line 50 event t);
          (ERROR, "Error storing message in Supabase: " +:+ msg)]
     ∧ w_inserts (snd app) = w_inserts w ++ [(table, row_of event)]
     ∧ w_db (snd app) = d)
    ∧ (fst cli = Return tt
       ∧ w_records (snd cli) = w_records w ++
           [(INFO, received_line 70 event t);
            (ERROR, "Error storing message in Supabase: " +:+ msg)]
       ∧ w_inserts (snd cli) = w_inserts w ++ [(table, row_of event)]
       ∧ w_db (snd cli) = d).
Proof.
  intros db execute_insert target table event w t d cls msg Hq Ht He app cli. split.
  - by apply (app_callback_on_exception execute_insert target table event w t d cls msg).
  - by apply (cli_callback_on_exception execute_insert target table event w t d cls msg).
Qed.

Lemma X4_unreachable_store_run :
  (fst (App.handle_message_events unreachable_store
          "U_target" "slack_messages_for_sensay" hello_event (fresh tt)) = Return tt
   ∧ w_records (snd (App.handle_message_events unreachable_store
                       "U_target" "slack_messages_for_sensay" hello_event (fresh tt)))
     = [] ++ [(INFO, received_line 50 hello_event "hello");
              (ERROR, "Error storing message in Supabase: " +:+ "connection refused")]
   ∧ w_inserts (snd (App.handle_message_events unreachable_store
                       "U_target" "slack_messages_for_sensay" hello_event (fresh tt)))
     = [] ++ [("slack_messages_for_sensay", row_of hello_event)]
   ∧ w_db (snd (App.handle_message_events unreachable_store
                  "U_target" "slack_messages_for_sensay" hello_event (fresh tt))) = tt)
  ∧ (fst (ConsoleBot.handle_message_events unreachable_store
            "U_target" "slack_messages_for_sensay" hello_event (fresh tt)) = Return tt
     ∧ w_records (snd (ConsoleBot.handle_message_events unreachable_store
                         "U_target" "slack_messages_for_sensay" hello_event (fresh tt)))
       = [] ++ [(INFO, received_line 70 hello_event "hello");
                (ERROR, "Error storing message in Supabase: " +:+ "connection refused")]
     ∧ w_inserts (snd (ConsoleBot.handle_message_events unreachable_store
                         "U_target" "slack_messages_for_sensay" hello_event (fresh tt)))
       = [] ++ [("slack_messages_for_sensay", row_of hello_event)]
     ∧ w_db (snd (ConsoleBot.handle_message_events unreachable_store
                    "U_target" "slack_messages_for_sensay" hello_event (fresh tt))) = tt).
Proof.
  apply (X4_insert_exception_is_logged_and_dropped unreachable_store
           "U_target" "slack_messages_for_sensay" hello_event (fresh tt) "hello"
           tt "ConnectError" "connection refused").
  - exact hello_qualifies.
  - compute_done.
  - reflexivity.
Defined.

(** X5: when the store returns no row, the callback goes on to read
    [response.error], which the response does not have: the
    [AttributeError] is caught, and each host records the received message
    and then one error with the text of that exception, and nothing else;
    it returns, and the insert is not tried again. *)
Theorem X5_empty_answer_is_recorded_as_an_attribute_error :
  ∀ {db : Type} (execute_insert : db → string → gmap string Py.value → db * execute_result)
    (target table : string) (event : gmap string Py.value) (w : world db) (t : string)
    (d : db) (resp : api_response),
    qualifies target event →
    Py.get event "text" = Py.PStr t →
    execute_insert (w_db w) table (row_of event) = (d, Responded resp) →
    data resp = [] →
    let app := App.handle_message_events execute_insert target table event w in
    let cli := ConsoleBot.handle_message_events execute_insert target table event w in
    (fst app = Return tt
     ∧ w_records (snd app) = w_records w ++
         [(INFO, received_line 50 event t);
          (ERROR, "Error storing message in Supabase: "
                    +:+ "'" +:+ response_class resp +:+ "' object has no attribute 'error'")]
     ∧ w_inserts (snd app) = w_inserts w ++ [(table, row_of event)])
    ∧ (fst cli = Return tt
       ∧ w_records (snd cli) = w_records w ++
           [(INFO, received_line 70 event t);
            (ERROR, "Error storing message in Supabase: "
                      +:+ "'" +:+ response_class resp
                      +:+ "' object has no attribute 'error'")]
       ∧ w_inserts (snd cli) = w_inserts w ++ [(table, row_of event)]).
Proof.
  intros db execute_insert target table event w t d resp Hq Ht He Hd app cli.
  destruct (app_callback_on_empty _ _ _ _ _ _ _ _ Hq Ht He Hd) as (Hr & Ha & Hi & _).
  destruct (cli_callback_on_empty _ _ _ _ _ _ _ _ Hq Ht He Hd) as (Hr' & Hc & Hi' & _).
  by repeat split.
Qed.

Lemma X5_silent_store_run :
  (fst (App.handle_message_events silent_store
          "U_target" "slack_messages_for_sensay" hello_event (fresh tt)) = Return tt
   ∧ w_records (snd (App.handle_message_events silent_store
                       "U_target" "slack_messages_for_sensay" hello_event (fresh tt)))
     = [] ++ [(INFO, received_line 50 hello_event "hello");
              (ERROR, "Error storing message in Supabase: "
                        +:+ "'" +:+ "APIResponse" +:+ "' object has no attribute 'error'")]
   ∧ w_inserts (snd (App.handle_message_events silent_store
                       "U_target" "slack_messages_for_sensay" hello_event (fresh tt)))
     = [] ++ [("slack_messages_for_sensay", row_of hello_event)])
  ∧ (fst (ConsoleBot.handle_message_events silent_store
            "U_target" "slack_messages_for_sensay" hello_event (fresh tt)) = Return tt
     ∧ w_records (snd (ConsoleBot.handle_message_events silent_store
                         "U_target" "slack_messages_for_sensay" hello_event (fresh tt)))
       = [] ++ [(INFO, received_line 70 hello_event "hello");
                (ERROR, "Error storing message in Supabase: "
                          +:+ "'" +:+ "APIResponse" +:+ "' object has no attribute 'error'")]
     ∧ w_inserts (snd (ConsoleBot.handle_message_events silent_store
                         "U_target" "slack_messages_for_sensay" hello_event (fresh tt)))
       = [] ++ [("slack_messages_for_sensay", row_of hello_event)]).
Proof.
  apply (X5_empty_answer_is_recorded_as_an_attribute_error silent_store
           "U_target" "slack_messages_for_sensay" hello_event (fresh tt) "hello" tt
           {| data := []; count := None; response_class := "APIResponse" |}).
  - exact hello_qualifies.
  - compute_done.
  - reflexivity.
  - reflexivity.
Defined.

Ltac level_records :=
  eexists; split; [rewrite <- ?app_assoc; cbn [app]; reflexivity|];
  split;
    [ repeat (constructor; [first [by left | by right]|]); constructor
    | let text := fresh "text" in
      let Hin := fresh "Hin" in
      intros text Hin;
      repeat (apply elem_of_cons in Hin as [Hin|Hin]; [simplify_eq; try by eexists|]);
      by apply elem_of_nil in Hin ].

(** X6: whatever the event, the answer of the store and the state of the
    process, the records a callback adds are at level INFO or ERROR, and an
    error is always the one of the [except] block: neither host ever records
    a warning, so that the lines [Supabase insert did not return data],
    [Duplicate message ... not inserted] and [Failed to store message in
    Supabase] are never logged. *)
Theorem X6_callbacks_never_record_a_warning :
  ∀ {db : Type} (execute_insert : db → string → gmap string Py.value → db * execute_result)
    (target table : string) (event : gmap string Py.value) (w : world db),
    let app := App.handle_message_events execute_insert target table event w in
    let cli := ConsoleBot.handle_message_events execute_insert target table event w in
    (∃ records,
        w_records (snd app) = w_records w ++ records
        ∧ Forall (λ r, fst r = INFO ∨ fst r = ERROR) records
        ∧ (∀ text, (ERROR, text) ∈ records →
             ∃ cause, text = "Error storing message in Supabase: " +:+ cause))
    ∧ (∃ records,
          w_records (snd cli) = w_records w ++ records
          ∧ Forall (λ r, fst r = INFO ∨ fst r = ERROR) records
          ∧ (∀ text, (ERROR, text) ∈ records →
               ∃ cause, text = "Error storing message in Supabase: " +:+ cause)).
Proof.
  intros db execute_insert target table event w app cli. subst app cli. split.
  - run_callback.
    destruct (App.passes_filter target event) eqn:Hf.
    + apply app_passes_filter_iff, qualifies_text in Hf as (t & -> & _). cbn.
      destruct (execute_insert _ _ _) as [d [resp|cls msg]]; cbn;
        [split_response resp|]; level_records.
    + exists []. cbn. rewrite !app_nil_r. repeat split; [constructor|].
      intros text Hin. by apply elem_of_nil in Hin.
  - run_callback. rewrite cli_passes_filter_eq.
    destruct (App.passes_filter target event) eqn:Hf.
    + apply app_passes_filter_iff, qualifies_text in Hf as (t & -> & _). cbn.
      destruct (execute_insert _ _ _) as [d [resp|cls msg]]; cbn;
        [split_response resp|]; level_records.
    + exists []. cbn. rewrite !app_nil_r. repeat split; [constructor|].
      intros text Hin. by apply elem_of_nil in Hin.
Qed.

(** ** A whole session *)

(** X7: over any sequence of delivered events, and whatever the store does
    on each call, the listening loop of each host runs to the end, and the
    insert calls it issues are exactly those of the events that pass the
    test of the callback, one each, in the order of delivery, each on the
    configured table with the row of its event. *)
Theorem X7_session_issues_one_insert_per_passing_event :
  ∀ {db : Type} (execute_insert : db → string → gmap string Py.value → db * execute_result)
    (cfg : RuntimeConfig) (events : list (gmap string Py.value)) (w : world db),
    let passing :=
      filter (λ event, App.passes_filter (cfg_target_slack_user_id cfg) event = true)
        events in
    let app := App.serve (App.bound_handler execute_insert cfg) events w in
    let cli :=
      ConsoleBot.serve
        (ConsoleBot.handle_message_events execute_insert
           (cfg_target_slack_user_id cfg) (cfg_supabase_table_name cfg)) events w in
    (fst app = Return tt
     ∧ w_inserts (snd app)
       = w_inserts w ++ ((λ event, (cfg_supabase_table_name cfg, row_of event)) <$> passing))
    ∧ (fst cli = Return tt
       ∧ w_inserts (snd cli)
         = w_inserts w ++
             ((λ event, (cfg_supabase_table_name cfg, row_of event)) <$> passing)).
Proof.
  intros db execute_insert cfg events w passing app cli. split.
  - apply app_session_inserts.
  - apply cli_session_inserts.
Qed.

(** ** What reaches the log panel *)

(** The line the Streamlit app writes to the log buffer for a record of the
    callback: the message and a line feed, after the name of the level for a
    warning or an error.  The callback emits no record at level CRITICAL,
    and the last case is there for the function to be total. *)
Definition panel_line (r : level * string) : string :=
  match fst r with
  | INFO => snd r +:+ Py.nl
  | WARNING => "WARNING: " +:+ snd r +:+ Py.nl
  | ERROR => "ERROR: " +:+ snd r +:+ Py.nl
  | CRITICAL => "CRITICAL: " +:+ snd r +:+ Py.nl
  end.

Arguments Py.take : simpl never.

Ltac panel_lines :=
  eexists; split; [rewrite <- ?app_assoc; cbn [app]; reflexivity|];
  cbn [StreamlitLogHandler.buffer]; rewrite <- ?app_assoc;
  cbn [app map panel_line fst snd];
  split; [|split];
    [ apply (f_equal (app _));
      repeat (apply (f_equal2 cons); [rewrite ?append_assoc; reflexivity|]);
      reflexivity
    | apply (f_equal (app _));
      repeat (apply (f_equal2 cons); [rewrite ?append_assoc; reflexivity|]);
      reflexivity
    | repeat constructor; discriminate ].

(** X8: in the Streamlit app, every record the callback emits is also
    written to the shared log buffer, as one line with the prefix of its
    level, in the same order, and echoed on the real standard output;
    nothing else is written to either.  The callback of the command-line
    host writes to neither. *)
Theorem X8_app_callback_mirrors_its_records :
  ∀ {db : Type} (execute_insert : db → string → gmap string Py.value → db * execute_result)
    (target table : string) (event : gmap string Py.value) (w : world db),
    let app := App.handle_message_events execute_insert target table event w in
    let cli := ConsoleBot.handle_message_events execute_insert target table event w in
    (∃ records,
        w_records (snd app) = w_records w ++ records
        ∧ StreamlitLogHandler.buffer (w_capture (snd app))
          = StreamlitLogHandler.buffer (w_capture w) ++ map panel_line records
        ∧ w_stdout (snd app) = w_stdout w ++ map panel_line records
        ∧ Forall (λ r, fst r ≠ CRITICAL) records)
    ∧ w_capture (snd cli) = w_capture w
    ∧ w_stdout (snd cli) = w_stdout w.
Proof.
  intros db execute_insert target table event w app cli. subst app cli. split.
  - run_callback.
    destruct (App.passes_filter target event) eqn:Hf.
    + apply app_passes_filter_iff, qualifies_text in Hf as (t & -> & _). cbn.
      destruct (execute_insert _ _ _) as [d [resp|cls msg]]; cbn;
        [split_response resp|]; panel_lines.
    + exists []. cbn. rewrite !app_nil_r. repeat split. constructor.
  - run_callback. rewrite cli_passes_filter_eq.
    destruct (App.passes_filter target event) eqn:Hf; [|by split].
    apply app_passes_filter_iff, qualifies_text in Hf as (t & -> & _). cbn.
    destruct (execute_insert _ _ _) as [d [resp|cls msg]]; cbn;
      [split_response resp|]; by split.
Qed.

(** ** The command-line host from its start to its end *)

(** A variable that is set and not empty is returned as it is: no prompt is
    shown and nothing is logged. *)
Lemma get_env_variable_set {db} environ answers var_name prompt_text is_secret v
    (w : world db) :
  environ !! var_name = Some v →
  v ≠ EmptyString →
  ConsoleBot.get_env_variable environ answers var_name prompt_text is_secret w
  = (Return v, w).
Proof.
  intros He Hv. unfold ConsoleBot.get_env_variable, ConsoleBot.unset. rewrite He.
  apply str_truthy_true in Hv. by rewrite Hv.
Qed.

Lemma bind_return {db A B} (m : Run.M db A) (k : A → Run.M db B) (w w' : world db) a :
  m w = (Return a, w') → Run.bind m k w = k a w'.
Proof. unfold Run.bind. by intros ->. Qed.

(** X9: when the six settings are set in the environment and none is empty,
    the command-line host resolves its configuration to those six values
    without showing a prompt, reading a line or logging anything, whatever
    the operator would have typed. *)
Theorem X9_complete_environment_needs_no_operator :
  ∀ {db : Type} (environ : gmap string string) (answers : string → option string)
    (w : world db) (bot app url key target table : string),
    environ !! "SLACK_BOT_TOKEN" = Some bot → bot ≠ EmptyString →
    environ !! "SLACK_APP_TOKEN" = Some app → app ≠ EmptyString →
    environ !! "SUPABASE_URL" = Some url → url ≠ EmptyString →
    environ !! "SUPABASE_SERVICE_KEY" = Some key → key ≠ EmptyString →
    environ !! "TARGET_SLACK_USER_ID" = Some target → target ≠ EmptyString →
    environ !! "SUPABASE_TABLE_NAME" = Some table → table ≠ EmptyString →
    ConsoleBot.resolve_config environ answers w
    = (Return {| cfg_slack_bot_token := bot;
                 cfg_slack_app_token := app;
                 cfg_supabase_url := url;
                 cfg_supabase_service_key := key;
                 cfg_target_slack_user_id := target;
                 cfg_supabase_table_name := table |}, w).
Proof.
  intros db environ answers w bot app url key target table
    H1 N1 H2 N2 H3 N3 H4 N4 H5 N5 H6 N6.
  unfold ConsoleBot.resolve_config.
  rewrite (bind_return _ _ w w bot) by by apply get_env_variable_set.
  rewrite (bind_return _ _ w w app) by by apply get_env_variable_set.
  rewrite (bind_return _ _ w w url) by by apply get_env_variable_set.
  rewrite (bind_return _ _ w w key) by by apply get_env_variable_set.
  rewrite (bind_return _ _ w w target) by by apply get_env_variable_set.
  rewrite (bind_return _ _ w w table); [reflexivity|].
  unfold ConsoleBot.get_table_name, ConsoleBot.unset. rewrite H6.
  apply str_truthy_true in N6. by rewrite N6.
Qed.

Lemma X9_full_environment_and_no_terminal :
  ConsoleBot.resolve_config full_environ (λ _, None) (fresh tt)
  = (Return {| cfg_slack_bot_token := "xoxb-1";
               cfg_slack_app_token := "xapp-1";
               cfg_supabase_url := "https://db.example";
               cfg_supabase_service_key := "service-key";
               cfg_target_slack_user_id := "U_target";
               cfg_supabase_table_name := "slack_messages_for_sensay" |}, fresh tt).
Proof.
  apply (X9_complete_environment_needs_no_operator full_environ (λ _, None) (fresh tt));
    first [compute_done | discriminate].
Defined.

(** A computation that lets out no [SystemExit] and no
    [KeyboardInterrupt]: what it raises, [except Exception] catches. *)
Definition only_exceptions {db : Type} {A : Type} (m : Run.M db A) : Prop :=
  ∀ (w : world db) (e : Py.exn),
    fst (m w) = Raise e → ∃ cls msg, e = Py.Exception cls msg.

Section OnlyExceptions.

Context {db : Type}.

Lemma oe_ret {A} (a : A) : only_exceptions (Run.ret (db := db) a).
Proof. intros w e He. discriminate He. Qed.

Lemma oe_raise {A} cls msg :
  only_exceptions (Run.raise (db := db) (A := A) (Py.Exception cls msg)).
Proof. intros w e [= <-]. by eexists _, _. Qed.

Lemma oe_logger lvl msg : only_exceptions (Run.logger (db := db) lvl msg).
Proof. intros w e He. discriminate He. Qed.

Lemma oe_capture_write message : only_exceptions (Run.capture_write (db := db) message).
Proof. intros w e He. discriminate He. Qed.

Lemma oe_construct client failure : only_exceptions (Run.construct (db := db) client failure).
Proof.
  intros w e. unfold Run.construct. destruct failure as [[cls msg]|]; cbn.
  - intros [= <-]. by eexists _, _.
  - intros He. discriminate He.
Qed.

Lemma oe_bind {A B} (m : Run.M db A) (k : A → Run.M db B) :
  only_exceptions m → (∀ a, only_exceptions (k a)) → only_exceptions (Run.bind m k).
Proof.
  intros Hm Hk w e. unfold Run.bind. specialize (Hm w).
  destruct (m w) as [[a|e'] w']; [apply Hk|].
  cbn in *. intros [= <-]. by apply Hm.
Qed.

Lemma oe_returns (m : Run.M db unit) :
  (∀ w, fst (m w) = Return tt) → only_exceptions m.
Proof. intros Hm w e. rewrite Hm. intros He. discriminate He. Qed.

(** [except Exception] around such a computation, with a handler that
    returns, returns. *)
Lemma try_except_returns (body : Run.M db unit) handler (w : world db) :
  only_exceptions body →
  (∀ e w', fst (handler e w') = Return tt) →
  fst (Run.try_except body handler w) = Return tt.
Proof.
  intros Hb Hh. unfold Run.try_except. specialize (Hb w).
  destruct (body w) as [[[]|[cls msg|code|]] w']; [reflexivity | apply Hh | |].
  - destruct (Hb _ eq_refl) as (cls & msg & He). discriminate He.
  - destruct (Hb _ eq_refl) as (cls & msg & He). discriminate He.
Qed.

End OnlyExceptions.

Ltac oe_step :=
  lazymatch goal with
  | |- ∀ _, _ => intro
  | |- only_exceptions (Run.ret _) => apply oe_ret
  | |- only_exceptions (Run.raise (Py.Exception _ _)) => apply oe_raise
  | |- only_exceptions (Run.logger _ _) => apply oe_logger
  | |- only_exceptions (Run.capture_write _) => apply oe_capture_write
  | |- only_exceptions (Run.construct _ _) => apply oe_construct
  | |- only_exceptions (Run.bind _ _) => apply oe_bind
  | |- only_exceptions (match ?x with _ => _ end) => destruct x
  end.

(** Without an interrupt, the [try] block of [run_bot] raises nothing that
    [except Exception] does not catch. *)
Lemma oe_cli_connect_and_listen {db} (execute_insert : db → _) ext cfg :
  session_interrupted ext = false →
  only_exceptions (ConsoleBot.connect_and_listen execute_insert ext cfg).
Proof.
  intros Hi. unfold ConsoleBot.connect_and_listen, ConsoleBot.socket_start. rewrite Hi.
  do 15 (try oe_step).
  - apply oe_returns. intros w. apply cli_session_inserts.
  - repeat oe_step.
Qed.

(** [finally] with a record to log: the outcome of the body, and that record
    after those of the body. *)
Lemma try_finally_logger {db A} (body : Run.M db A) lvl msg (w : world db) :
  let after := Run.try_finally body (Run.logger lvl msg) w in
  fst after = fst (body w)
  ∧ w_records (snd after) = w_records (snd (body w)) ++ [(lvl, msg)]
  ∧ w_inserts (snd after) = w_inserts (snd (body w))
  ∧ w_clients (snd after) = w_clients (snd (body w))
  ∧ w_db (snd after) = w_db (snd (body w)).
Proof. unfold Run.try_finally. by destruct (body w) as [r w']. Qed.

(** [run_bot] from the point where its settings are resolved. *)
Lemma run_bot_once_configured {db} (execute_insert : db → _) environ answers ext
    (w w1 : world db) cfg :
  ConsoleBot.resolve_config environ answers w = (Return cfg, w1) →
  ConsoleBot.run_bot execute_insert environ answers ext w
  = Run.try_finally
      (Run.try_except
         (ConsoleBot.connect_and_listen execute_insert ext cfg)
         (λ e_main,
            Run.logger CRITICAL ("A critical error occurred: " +:+ Py.exn_str e_main)))
      (Run.logger INFO "Bot has shut down or encountered a critical error.")
      (snd (Run.logger INFO "Initializing Deshi Knowledge Collector Bot..." w1)).
Proof.
  intros Hc. unfold ConsoleBot.run_bot. by rewrite (bind_return _ _ w w1 cfg Hc).
Qed.

(** The [try] block of [run_bot] when the constructors accept: the clients
    it constructs, the inserts it issues over the session, and how it
    ends. *)
Lemma cli_callback_clients {db} (execute_insert : db → _) target table event (w : world db) :
  w_clients (snd (ConsoleBot.handle_message_events execute_insert target table event w))
  = w_clients w.
Proof.
  run_callback. rewrite cli_passes_filter_eq.
  destruct (App.passes_filter target event) eqn:Hf; [|reflexivity].
  apply app_passes_filter_iff, qualifies_text in Hf as (t & -> & _). cbn.
  destruct (execute_insert _ _ _) as [d [resp|cls msg]]; cbn;
    [split_response resp|]; reflexivity.
Qed.

Lemma cli_serve_clients {db} (execute_insert : db → _) target table events (w : world db) :
  w_clients
    (snd (ConsoleBot.serve (ConsoleBot.handle_message_events execute_insert target table)
            events w))
  = w_clients w.
Proof.
  revert w. induction events as [|event events IH]; intros w; [reflexivity|].
  cbn [ConsoleBot.serve]. unfold Run.bind.
  pose proof (cli_callback_clients execute_insert target table event w) as Hc.
  destruct (ConsoleBot.handle_message_events execute_insert target table event w)
    as [[u|e] w1]; cbn in Hc.
  - by rewrite IH.
  - exact Hc.
Qed.

(** Runs the primitive steps of a computation, by value. *)
Ltac run_steps :=
  cbv beta iota zeta delta
    [Run.bind Run.ret Run.raise Run.construct Run.logger Run.capture_write
     StreamlitLogHandler.write StreamlitLogHandler.buffer
     w_db w_inserts w_records w_capture w_stdout w_clients w_prompts w_stop_event
     fst snd].

Lemma cli_connect_and_listen_accepted {db} (execute_insert : db → _) ext cfg
    (w : world db) :
  first_refusal ext cfg = None →
  let after := ConsoleBot.connect_and_listen execute_insert ext cfg w in
  fst after
  = (if session_interrupted ext then Raise Py.KeyboardInterrupt
     else match session_end ext with
          | Some (cls, msg) => Raise (Py.Exception cls msg)
          | None => Return tt
          end)
  ∧ w_clients (snd after) = w_clients w ++ ["App"; "create_client"; "SocketModeHandler"]
  ∧ w_inserts (snd after)
    = w_inserts w ++
        ((λ event, (cfg_supabase_table_name cfg, row_of event)) <$>
           filter (λ event, App.passes_filter (cfg_target_slack_user_id cfg) event = true)
             (session ext)).
Proof.
  unfold first_refusal, ConsoleBot.connect_and_listen, ConsoleBot.socket_start.
  destruct (new_App ext _) as [[c1 m1]|]; [discriminate|].
  destruct (create_client ext _ _) as [[c2 m2]|]; [discriminate|].
  intros ->. run_steps.
  match goal with
  | |- context [ConsoleBot.serve ?h ?events ?w0] =>
      destruct (cli_session_inserts execute_insert (cfg_target_slack_user_id cfg)
                  (cfg_supabase_table_name cfg) events w0) as [Hv Hvi];
      pose proof (cli_serve_clients execute_insert (cfg_target_slack_user_id cfg)
                    (cfg_supabase_table_name cfg) events w0) as Hvc;
      destruct (ConsoleBot.serve h events w0) as [[[]|e] w3]; [|discriminate]
  end.
  cbn [snd w_inserts w_clients] in Hvi, Hvc. rewrite <- !app_assoc in Hvc.
  destruct (session_interrupted ext); [by repeat split|].
  destruct (session_end ext) as [[cls msg]|]; by repeat split.
Qed.

(** X10: once the settings of the command-line host are resolved, whatever
    the constructors of the clients, the store and the session do, the last
    record logged is the one of the [finally] block.  When the operator does
    not interrupt the session, [run_bot] returns and the exit status is 0:
    an exception of the constructors or of the session is caught.  When the
    operator interrupts a session that has started, the
    [KeyboardInterrupt], which [except Exception] does not catch, leaves
    [run_bot] after the [finally] block, and the exit status is not 0. *)
Theorem X10_run_bot_ends_with_its_finally_record :
  ∀ {db : Type} (execute_insert : db → string → gmap string Py.value → db * execute_result)
    (environ : gmap string string) (answers : string → option string) (ext : externals)
    (w w1 : world db) (cfg : RuntimeConfig),
    ConsoleBot.resolve_config environ answers w = (Return cfg, w1) →
    let after := ConsoleBot.run_bot execute_insert environ answers ext w in
    last (w_records (snd after))
    = Some (INFO, "Bot has shut down or encountered a critical error.")
    ∧ if session_interrupted ext
      then first_refusal ext cfg = None →
           fst after = Raise Py.KeyboardInterrupt
           ∧ ConsoleBot.exit_status (fst after) = 130%Z
      else fst after = Return tt
           ∧ ConsoleBot.exit_status (fst after) = 0%Z.
Proof.
  intros db execute_insert environ answers ext w w1 cfg Hc after. subst after.
  rewrite (run_bot_once_configured execute_insert environ answers ext w w1 cfg Hc).
  match goal with
  | |- context [Run.try_finally ?b (Run.logger ?l ?m) ?w0] =>
      destruct (try_finally_logger b l m w0) as (Hf & Hr & _)
  end.
  rewrite Hf, Hr. split; [apply last_snoc|].
  destruct (session_interrupted ext) eqn:Hi.
  - intros Ha. unfold Run.try_except.
    match goal with
    | |- context [ConsoleBot.connect_and_listen ?x ?e ?c ?w0] =>
        destruct (cli_connect_and_listen_accepted x e c w0 Ha) as (Hb & _);
        destruct (ConsoleBot.connect_and_listen x e c w0) as [r w2]
    end.
    rewrite Hi in Hb. cbn in Hb. subst r. by split.
  - assert (∀ e (w' : world db),
               fst (Run.logger CRITICAL ("A critical error occurred: " +:+ Py.exn_str e) w')
               = Return tt) as Hh by reflexivity.
    rewrite (try_except_returns _ _ _ (oe_cli_connect_and_listen _ _ _ Hi) Hh).
    by split.
Qed.

Lemma X10_interrupted_session_run :
  last (w_records (snd (ConsoleBot.run_bot UniqueTable.execute_insert full_environ
                          no_terminal interrupted_services (fresh ∅))))
  = Some (INFO, "Bot has shut down or encountered a critical error.")
  ∧ fst (ConsoleBot.run_bot UniqueTable.execute_insert full_environ no_terminal
           interrupted_services (fresh ∅)) = Raise Py.KeyboardInterrupt
  ∧ ConsoleBot.exit_status
      (fst (ConsoleBot.run_bot UniqueTable.execute_insert full_environ no_terminal
              interrupted_services (fresh ∅))) = 130%Z.
Proof.
  destruct (X10_run_bot_ends_with_its_finally_record UniqueTable.execute_insert
              full_environ no_terminal interrupted_services (fresh ∅) (fresh ∅)
              default_settings) as (Hl & Hi).
  - vm_compute. reflexivity.
  - split; [exact Hl|]. exact (Hi eq_refl).
Defined.

Lemma bind_raise {db A B} (m : Run.M db A) (k : A → Run.M db B) (w w' : world db) e :
  m w = (Raise e, w') → Run.bind m k w = (Raise e, w').
Proof. unfold Run.bind. by intros ->. Qed.

(** X11: in the command-line host, when the constructor of the Slack [App]
    raises, the exception is logged as critical with its text, the record of
    the [finally] block follows, and the host ends normally: no other client
    is constructed, no event is handled and the store is not called. *)
Theorem X11_cli_refused_app_is_logged_as_critical :
  ∀ {db : Type} (execute_insert : db → string → gmap string Py.value → db * execute_result)
    (environ : gmap string string) (answers : string → option string) (ext : externals)
    (w w1 : world db) (cfg : RuntimeConfig) (cls msg : string),
    ConsoleBot.resolve_config environ answers w = (Return cfg, w1) →
    new_App ext (cfg_slack_bot_token cfg) = Some (cls, msg) →
    let after := ConsoleBot.run_bot execute_insert environ answers ext w in
    fst after = Return tt
    ∧ w_records (snd after) = w_records w1 ++
        [(INFO, "Initializing Deshi Knowledge Collector Bot...");
         (CRITICAL, "A critical error occurred: " +:+ msg);
         (INFO, "Bot has shut down or encountered a critical error.")]
    ∧ w_clients (snd after) = w_clients w1
    ∧ w_inserts (snd after) = w_inserts w1
    ∧ w_db (snd after) = w_db w1.
Proof.
  intros db execute_insert environ answers ext w w1 cfg cls msg Hc Hn after. subst after.
  rewrite (run_bot_once_configured execute_insert environ answers ext w w1 cfg Hc).
  unfold Run.try_finally, Run.try_except, ConsoleBot.connect_and_listen.
  match goal with
  | |- context [Run.bind (Run.construct "App" ?f) ?k ?w0] =>
      rewrite (bind_raise (Run.construct "App" f) k w0 w0 (Py.Exception cls msg))
        by (unfold Run.construct; by rewrite Hn)
  end.
  cbn. rewrite <- !app_assoc. by repeat split.
Qed.

Lemma X11_refused_token_run :
  fst (ConsoleBot.run_bot unreachable_store full_environ (λ _, None)
         refusing_services (fresh tt)) = Return tt
  ∧ w_records (snd (ConsoleBot.run_bot unreachable_store full_environ (λ _, None)
                      refusing_services (fresh tt)))
    = [] ++ [(INFO, "Initializing Deshi Knowledge Collector Bot...");
             (CRITICAL, "A critical error occurred: " +:+ "token is invalid");
             (INFO, "Bot has shut down or encountered a critical error.")]
  ∧ w_clients (snd (ConsoleBot.run_bot unreachable_store full_environ (λ _, None)
                      refusing_services (fresh tt))) = []
  ∧ w_inserts (snd (ConsoleBot.run_bot unreachable_store full_environ (λ _, None)
                      refusing_services (fresh tt))) = []
  ∧ w_db (snd (ConsoleBot.run_bot unreachable_store full_environ (λ _, None)
                 refusing_services (fresh tt))) = tt.
Proof.
  apply (X11_cli_refused_app_is_logged_as_critical unreachable_store full_environ
           (λ _, None) refusing_services (fresh tt) (fresh tt)
           {| cfg_slack_bot_token := "xoxb-1";
              cfg_slack_app_token := "xapp-1";
              cfg_supabase_url := "https://db.example";
              cfg_supabase_service_key := "service-key";
              cfg_target_slack_user_id := "U_target";
              cfg_supabase_table_name := "slack_messages_for_sensay" |}
           "BoltError" "token is invalid").
  - vm_compute. reflexivity.
  - reflexivity.
Defined.

(** ** The listener thread of the Streamlit app from its start to its end *)

(** The dictionary [config] holds the five mandatory settings of [cfg], and
    [cfg] has its table name, or the default one when [config] has none. *)
Definition holds_settings (config : gmap string string) (cfg : RuntimeConfig) : Prop :=
  config !! "SLACK_BOT_TOKEN" = Some (cfg_slack_bot_token cfg)
  ∧ config !! "SLACK_APP_TOKEN" = Some (cfg_slack_app_token cfg)
  ∧ config !! "SUPABASE_URL" = Some (cfg_supabase_url cfg)
  ∧ config !! "SUPABASE_SERVICE_KEY" = Some (cfg_supabase_service_key cfg)
  ∧ config !! "TARGET_SLACK_USER_ID" = Some (cfg_target_slack_user_id cfg)
  ∧ cfg_supabase_table_name cfg
    = default "slack_messages_for_sensay" (config !! "SUPABASE_TABLE_NAME").

(** The keys read with [config[key]]. *)
Definition mandatory_keys : list string :=
  [ "SLACK_BOT_TOKEN"; "SLACK_APP_TOKEN"; "SUPABASE_URL"; "SUPABASE_SERVICE_KEY";
    "TARGET_SLACK_USER_ID" ].

(** A dictionary without the table name, services whose session is cut, and
    a dictionary without the bot token. *)
Definition config_without_table : gmap string string :=
  <["SLACK_BOT_TOKEN" := "xoxb-1"]>
  (<["SLACK_APP_TOKEN" := "xapp-1"]>
  (<["SUPABASE_URL" := "https://db.example"]>
  (<["SUPABASE_SERVICE_KEY" := "service-key"]>
  (<["TARGET_SLACK_USER_ID" := "U_target"]> ∅)))).

Definition cut_services : externals :=
  {| new_App := fun _ => None;
     create_client := fun _ _ => None;
     new_SocketModeHandler := fun _ => None;
     session := [hello_event; edited_event];
     session_end := Some ("ConnectionError", "socket closed");
     session_interrupted := false |}.

Definition config_without_bot_token : gmap string string :=
  delete "SLACK_BOT_TOKEN" config_without_table.

Lemma holds_default_settings : holds_settings config_without_table default_settings.
Proof. repeat split; compute_done. Qed.

Section ListenerThread.

Context {db : Type}.
Variable execute_insert : db → string → gmap string Py.value → db * execute_result.
Variable ext : externals.

Lemma read_config_holds config cfg (w : world db) :
  holds_settings config cfg → App.read_config config w = (Return cfg, w).
Proof.
  intros (H1 & H2 & H3 & H4 & H5 & H6).
  unfold App.read_config, App.getitem, Run.bind, Run.ret.
  rewrite H1, H2, H3, H4, H5. destruct cfg as [a b c d e f]. cbn in *. rewrite H6.
  by destruct (config !! "SUPABASE_TABLE_NAME").
Qed.

(** The thread from the point where its settings are read. *)
Lemma listener_once_configured config cfg (w : world db) :
  holds_settings config cfg →
  App.start_slack_bot_listener execute_insert ext config w
  = App.listener_exit
      (Run.bind (App.listener_setup ext cfg)
         (λ _, Run.bind (App.serve (App.bound_handler execute_insert cfg) (session ext))
                 (λ _, App.session_over (session_end ext))))
      (snd (App.listener_banner w)).
Proof.
  intros Hc. unfold App.start_slack_bot_listener.
  by rewrite (bind_return _ _ w w cfg (read_config_holds _ _ _ Hc)).
Qed.

Lemma oe_listener_body cfg :
  only_exceptions
    (Run.bind (App.listener_setup (db := db) ext cfg)
       (λ _, Run.bind (App.serve (App.bound_handler execute_insert cfg) (session ext))
               (λ _, App.session_over (session_end ext)))).
Proof.
  unfold App.listener_setup, App.session_over.
  do 40 (try oe_step).
  apply oe_returns. intros w. apply app_session_inserts.
Qed.

(** The [except] and [finally] blocks: what is raised by the [try] block is
    logged, the last record and the last line of the buffer are those of the
    [finally] block, and the store and the clients are as the [try] block
    left them. *)
Lemma listener_exit_returns (rest : Run.M db unit) (w : world db) :
  only_exceptions rest →
  let after := App.listener_exit rest w in
  fst after = Return tt
  ∧ last (w_records (snd after)) = Some (INFO, "Bot thread attempting to clean up and exit.")
  ∧ last (StreamlitLogHandler.buffer (w_capture (snd after)))
    = Some ("Bot thread attempting to clean up and exit." +:+ Py.nl)
  ∧ w_inserts (snd after) = w_inserts (snd (rest w))
  ∧ w_clients (snd after) = w_clients (snd (rest w))
  ∧ w_db (snd after) = w_db (snd (rest w)).
Proof.
  intros Hr. specialize (Hr w).
  unfold App.listener_exit, Run.try_finally, Run.try_except, App.listener_except,
    App.listener_finally, Run.bind, Run.logger, Run.capture_write.
  destruct (rest w) as [[[]|[cls msg|code|]] w']; cbn.
  - repeat split; apply last_snoc.
  - repeat split; apply last_snoc.
  - destruct (Hr _ eq_refl) as (cls & msg & He). discriminate He.
  - destruct (Hr _ eq_refl) as (cls & msg & He). discriminate He.
Qed.

(** What the [except] block adds when the [try] block raises. *)
Lemma listener_exit_raised (rest : Run.M db unit) (w w' : world db) cls msg :
  rest w = (Raise (Py.Exception cls msg), w') →
  let after := App.listener_exit rest w in
  w_records (snd after)
  = w_records w' ++
      [(ERROR, "Critical error in bot thread: " +:+ msg);
       (INFO, "Bot thread attempting to clean up and exit.")]
  ∧ StreamlitLogHandler.buffer (w_capture (snd after))
    = StreamlitLogHandler.buffer (w_capture w') ++
        ["CRITICAL ERROR: " +:+ "Critical error in bot thread: " +:+ msg +:+ Py.nl;
         "Bot thread attempting to clean up and exit." +:+ Py.nl].
Proof.
  intros Hr.
  unfold App.listener_exit, Run.try_finally, Run.try_except, App.listener_except,
    App.listener_finally, Run.bind, Run.logger, Run.capture_write.
  rewrite Hr. cbn. by rewrite <- !app_assoc.
Qed.

(** The constructors up to the first that refuses. *)
Lemma listener_setup_refused cfg cls msg (w : world db) :
  first_refusal ext cfg = Some (cls, msg) →
  fst (App.listener_setup ext cfg w) = Raise (Py.Exception cls msg)
  ∧ w_inserts (snd (App.listener_setup ext cfg w)) = w_inserts w
  ∧ w_db (snd (App.listener_setup ext cfg w)) = w_db w.
Proof.
  unfold first_refusal, App.listener_setup.
  destruct (new_App ext _) as [[c1 m1]|];
    [intros [= -> ->]; run_steps; repeat split; reflexivity|].
  destruct (create_client ext _ _) as [[c2 m2]|];
    [intros [= -> ->]; run_steps; repeat split; reflexivity|].
  intros ->. run_steps. repeat split; reflexivity.
Qed.

Lemma listener_setup_accepted cfg (w : world db) :
  first_refusal ext cfg = None →
  fst (App.listener_setup ext cfg w) = Return tt
  ∧ w_inserts (snd (App.listener_setup ext cfg w)) = w_inserts w
  ∧ w_clients (snd (App.listener_setup ext cfg w))
    = w_clients w ++ ["App"; "create_client"; "SocketModeHandler"]
  ∧ w_db (snd (App.listener_setup ext cfg w)) = w_db w.
Proof.
  unfold first_refusal, App.listener_setup.
  destruct (new_App ext _) as [[c1 m1]|]; [discriminate|].
  destruct (create_client ext _ _) as [[c2 m2]|]; [discriminate|].
  intros ->. run_steps. rewrite <- !app_assoc. repeat split; reflexivity.
Qed.

(** The callback constructs no client, and neither does the loop. *)
Lemma app_callback_clients target table event (w : world db) :
  w_clients (snd (App.handle_message_events execute_insert target table event w))
  = w_clients w.
Proof.
  run_callback. destruct (App.passes_filter target event) eqn:Hf; [|reflexivity].
  apply app_passes_filter_iff, qualifies_text in Hf as (t & -> & _). cbn.
  destruct (execute_insert _ _ _) as [d [resp|cls msg]]; cbn;
    [split_response resp|]; reflexivity.
Qed.

Lemma app_serve_clients cfg events (w : world db) :
  w_clients (snd (App.serve (App.bound_handler execute_insert cfg) events w)) = w_clients w.
Proof.
  revert w. induction events as [|event events IH]; intros w; [reflexivity|].
  cbn [App.serve]. unfold Run.bind.
  pose proof (app_callback_clients (cfg_target_slack_user_id cfg)
                (cfg_supabase_table_name cfg) event w) as Hc.
  change (App.handle_message_events execute_insert
            (cfg_target_slack_user_id cfg) (cfg_supabase_table_name cfg) event w)
    with (App.bound_handler execute_insert cfg event w) in Hc.
  destruct (App.bound_handler execute_insert cfg event w) as [[u|e] w1]; cbn in Hc.
  - by rewrite IH.
  - exact Hc.
Qed.

End ListenerThread.

(** X12: with the five mandatory settings in [config], the thread function
    of the Streamlit app returns, whatever the constructors, the store and
    the session do, and the last record it logs and the last line it writes
    to the log buffer are those of its [finally] block. *)
Theorem X12_listener_thread_always_cleans_up :
  ∀ {db : Type} (execute_insert : db → string → gmap string Py.value → db * execute_result)
    (ext : externals) (config : gmap string string) (cfg : RuntimeConfig) (w : world db),
    holds_settings config cfg →
    let after := App.start_slack_bot_listener execute_insert ext config w in
    fst after = Return tt
    ∧ last (w_records (snd after))
      = Some (INFO, "Bot thread attempting to clean up and exit.")
    ∧ last (StreamlitLogHandler.buffer (w_capture (snd after)))
      = Some ("Bot thread attempting to clean up and exit." +:+ Py.nl).
Proof.
  intros db execute_insert ext config cfg w Hc after. subst after.
  rewrite (listener_once_configured execute_insert ext config cfg w Hc).
  destruct (listener_exit_returns _ (snd (App.listener_banner w))
              (oe_listener_body execute_insert ext cfg)) as (Hr & Hl & Hb & _).
  by repeat split.
Qed.

Lemma X12_cut_session_cleans_up :
  fst (App.start_slack_bot_listener UniqueTable.execute_insert cut_services
         config_without_table (fresh ∅)) = Return tt
  ∧ last (w_records (snd (App.start_slack_bot_listener UniqueTable.execute_insert
                            cut_services config_without_table (fresh ∅))))
    = Some (INFO, "Bot thread attempting to clean up and exit.")
  ∧ last (StreamlitLogHandler.buffer
            (w_capture (snd (App.start_slack_bot_listener UniqueTable.execute_insert
                               cut_services config_without_table (fresh ∅)))))
    = Some ("Bot thread attempting to clean up and exit." +:+ Py.nl).
Proof.
  apply (X12_listener_thread_always_cleans_up UniqueTable.execute_insert cut_services
           config_without_table default_settings (fresh ∅)).
  exact holds_default_settings.
Defined.

(** X13: when [config] lacks one of the five keys read with [config[key]],
    the thread function raises [KeyError] for a missing key before its first
    log line: nothing is logged, written to the log buffer, constructed or
    stored.  On the page the thread is then finished, the log buffer is as
    it was, and the session still says that the bot is started. *)
Theorem X13_missing_setting_ends_the_thread_silently :
  ∀ {db : Type} (execute_insert : db → string → gmap string Py.value → db * execute_result)
    (ext : externals) (config : gmap string string) (key : string)
    (u : App.session_state) (w : world db),
    key ∈ mandatory_keys →
    config !! key = None →
    (∃ k, k ∈ mandatory_keys
          ∧ config !! k = None
          ∧ App.start_slack_bot_listener execute_insert ext config w
            = (Raise (Py.Exception "KeyError" ("'" +:+ k +:+ "'")), w))
    ∧ App.thread_boot ext {| App.ui := u; App.thread := App.Spawned config; App.shared := w |}
      = {| App.ui := u; App.thread := App.Dead; App.shared := w |}.
Proof.
  intros db execute_insert ext config key u w Hin Hk.
  assert (∃ k, k ∈ mandatory_keys ∧ config !! k = None
               ∧ App.read_config config w
                 = (Raise (Py.Exception "KeyError" ("'" +:+ k +:+ "'")), w)) as (k & Hk1 & Hk2 & Hr).
  { unfold App.read_config, App.getitem, Run.bind, Run.ret, Run.raise.
    destruct (config !! "SLACK_BOT_TOKEN") eqn:E1;
      [|exists "SLACK_BOT_TOKEN"; repeat split; [compute_done|done]].
    destruct (config !! "SLACK_APP_TOKEN") eqn:E2;
      [|exists "SLACK_APP_TOKEN"; repeat split; [compute_done|done]].
    destruct (config !! "SUPABASE_URL") eqn:E3;
      [|exists "SUPABASE_URL"; repeat split; [compute_done|done]].
    destruct (config !! "SUPABASE_SERVICE_KEY") eqn:E4;
      [|exists "SUPABASE_SERVICE_KEY"; repeat split; [compute_done|done]].
    destruct (config !! "TARGET_SLACK_USER_ID") eqn:E5;
      [|exists "TARGET_SLACK_USER_ID"; repeat split; [compute_done|done]].
    unfold mandatory_keys in Hin.
    repeat (apply elem_of_cons in Hin as [Hin|Hin]);
      [| | | | | by apply elem_of_nil in Hin]; subst key; congruence. }
  split.
  - exists k. repeat split; [exact Hk1 | exact Hk2 |].
    unfold App.start_slack_bot_listener. by rewrite (bind_raise _ _ w w _ Hr).
  - unfold App.thread_boot. cbn [App.thread App.shared App.ui]. by rewrite Hr.
Qed.

Lemma X13_no_bot_token_in_config :
  (∃ k, k ∈ mandatory_keys
        ∧ config_without_bot_token !! k = None
        ∧ App.start_slack_bot_listener unreachable_store quiet_services
            config_without_bot_token (fresh tt)
          = (Raise (Py.Exception "KeyError" ("'" +:+ k +:+ "'")), fresh tt))
  ∧ App.thread_boot quiet_services
      {| App.ui := App.ui listening_page; App.thread := App.Spawned config_without_bot_token;
         App.shared := fresh tt |}
    = {| App.ui := App.ui listening_page; App.thread := App.Dead; App.shared := fresh tt |}.
Proof.
  apply (X13_missing_setting_ends_the_thread_silently unreachable_store
           quiet_services config_without_bot_token "SLACK_BOT_TOKEN"
           (App.ui listening_page) (fresh tt)).
  - compute_done.
  - compute_done.
Defined.

(** X14: when the three constructors accept, the thread constructs the
    three clients in order and, over the session, issues one insert for each
    event that passes the test of the callback, in the order of delivery, on
    the table named in [config], or on [slack_messages_for_sensay] when
    [config] names none; it returns however the session ends. *)
Theorem X14_listener_stores_the_session_on_the_configured_table :
  ∀ {db : Type} (execute_insert : db → string → gmap string Py.value → db * execute_result)
    (ext : externals) (config : gmap string string) (cfg : RuntimeConfig) (w : world db),
    holds_settings config cfg →
    first_refusal ext cfg = None →
    let after := App.start_slack_bot_listener execute_insert ext config w in
    let table := default "slack_messages_for_sensay" (config !! "SUPABASE_TABLE_NAME") in
    fst after = Return tt
    ∧ w_clients (snd after) = w_clients w ++ ["App"; "create_client"; "SocketModeHandler"]
    ∧ w_inserts (snd after)
      = w_inserts w ++
          ((λ event, (table, row_of event)) <$>
             filter (λ event, App.passes_filter (cfg_target_slack_user_id cfg) event = true)
               (session ext)).
Proof.
  intros db execute_insert ext config cfg w Hc Ha after table. subst after table.
  rewrite (listener_once_configured execute_insert ext config cfg w Hc).
  destruct (listener_exit_returns _ (snd (App.listener_banner w))
              (oe_listener_body execute_insert ext cfg)) as (Hr & _ & _ & Hi & Hcl & _).
  split; [exact Hr|]. rewrite Hi, Hcl. clear Hr Hi Hcl.
  destruct Hc as (_ & _ & _ & _ & _ & <-).
  set (w1 := snd (App.listener_banner w)).
  destruct (listener_setup_accepted ext cfg w1 Ha) as (Hs & Hsi & Hsc & _).
  unfold Run.bind at 1 3.
  destruct (App.listener_setup ext cfg w1) as [[[]|e] w2]; [|discriminate].
  cbn [snd] in Hsi, Hsc.
  destruct (app_session_inserts execute_insert cfg (session ext) w2) as [Hv Hvi].
  pose proof (app_serve_clients execute_insert cfg (session ext) w2) as Hvc.
  unfold Run.bind.
  destruct (App.serve (App.bound_handler execute_insert cfg) (session ext) w2)
    as [[[]|e] w3]; [|discriminate].
  cbn [snd] in Hvi, Hvc. unfold App.session_over.
  destruct (session_end ext) as [[cls msg]|]; cbn [snd Run.raise Run.ret];
    by rewrite Hvi, Hvc, Hsi, Hsc.
Qed.

Lemma X14_default_table_run :
  fst (App.start_slack_bot_listener UniqueTable.execute_insert cut_services
         config_without_table (fresh ∅)) = Return tt
  ∧ w_clients (snd (App.start_slack_bot_listener UniqueTable.execute_insert cut_services
                      config_without_table (fresh ∅)))
    = [] ++ ["App"; "create_client"; "SocketModeHandler"]
  ∧ w_inserts (snd (App.start_slack_bot_listener UniqueTable.execute_insert cut_services
                      config_without_table (fresh ∅)))
    = [] ++
        ((λ event,
            (default "slack_messages_for_sensay"
               (config_without_table !! "SUPABASE_TABLE_NAME"), row_of event)) <$>
           filter (λ event, App.passes_filter "U_target" event = true)
             [hello_event; edited_event]).
Proof.
  apply (X14_listener_stores_the_session_on_the_configured_table
           UniqueTable.execute_insert cut_services config_without_table default_settings
           (fresh ∅)).
  - exact holds_default_settings.
  - reflexivity.
Defined.

(** X15: when one of the three constructors raises, the thread handles no
    event: the store is not called, the exception is logged as an error with
    its text, the line [CRITICAL ERROR: ...] is written to the log buffer,
    and the record and the line of the [finally] block follow; the thread
    function returns. *)
Theorem X15_refused_client_ends_the_thread_before_any_event :
  ∀ {db : Type} (execute_insert : db → string → gmap string Py.value → db * execute_result)
    (ext : externals) (config : gmap string string) (cfg : RuntimeConfig) (w : world db)
    (cls msg : string),
    holds_settings config cfg →
    first_refusal ext cfg = Some (cls, msg) →
    let after := App.start_slack_bot_listener execute_insert ext config w in
    fst after = Return tt
    ∧ w_inserts (snd after) = w_inserts w
    ∧ w_db (snd after) = w_db w
    ∧ (∃ records,
          w_records (snd after)
          = records ++ [(ERROR, "Critical error in bot thread: " +:+ msg);
                        (INFO, "Bot thread attempting to clean up and exit.")])
    ∧ (∃ lines,
          StreamlitLogHandler.buffer (w_capture (snd after))
          = lines ++
              ["CRITICAL ERROR: " +:+ "Critical error in bot thread: " +:+ msg +:+ Py.nl;
               "Bot thread attempting to clean up and exit." +:+ Py.nl]).
Proof.
  intros db execute_insert ext config cfg w cls msg Hc Hf after. subst after.
  rewrite (listener_once_configured execute_insert ext config cfg w Hc).
  destruct (listener_exit_returns _ (snd (App.listener_banner w))
              (oe_listener_body execute_insert ext cfg)) as (Hr & _ & _ & Hi & _ & Hd).
  set (w1 := snd (App.listener_banner w)) in *.
  destruct (listener_setup_refused ext cfg cls msg w1 Hf) as (Hs & Hsi & Hsd).
  assert (∃ w2, App.listener_setup ext cfg w1 = (Raise (Py.Exception cls msg), w2)
                ∧ w_inserts w2 = w_inserts w ∧ w_db w2 = w_db w) as (w2 & Hs2 & Hi2 & Hd2).
  { destruct (App.listener_setup ext cfg w1) as [r w2]. cbn in Hs, Hsi, Hsd. subst r.
    by exists w2. }
  pose proof (bind_raise _
                (λ _, Run.bind (App.serve (App.bound_handler execute_insert cfg) (session ext))
                        (λ _, App.session_over (session_end ext)))
                w1 w2 _ Hs2) as Hb.
  rewrite Hb in Hi, Hd. cbn [snd] in Hi, Hd.
  destruct (listener_exit_raised _ w1 w2 cls msg Hb) as (Hrec & Hbuf).
  split; [exact Hr|]. split; [by rewrite Hi|]. split; [by rewrite Hd|].
  split; [by eexists | by eexists].
Qed.

Lemma X15_refused_token_ends_the_thread :
  fst (App.start_slack_bot_listener UniqueTable.execute_insert refusing_services
         config_without_table (fresh ∅)) = Return tt
  ∧ w_inserts (snd (App.start_slack_bot_listener UniqueTable.execute_insert
                      refusing_services config_without_table (fresh ∅))) = []
  ∧ w_db (snd (App.start_slack_bot_listener UniqueTable.execute_insert
                 refusing_services config_without_table (fresh ∅))) = ∅
  ∧ (∃ records,
        w_records (snd (App.start_slack_bot_listener UniqueTable.execute_insert
                          refusing_services config_without_table (fresh ∅)))
        = records ++ [(ERROR, "Critical error in bot thread: " +:+ "token is invalid");
                      (INFO, "Bot thread attempting to clean up and exit.")])
  ∧ (∃ lines,
        StreamlitLogHandler.buffer
          (w_capture (snd (App.start_slack_bot_listener UniqueTable.execute_insert
                             refusing_services config_without_table (fresh ∅))))
        = lines ++
            ["CRITICAL ERROR: " +:+ "Critical error in bot thread: " +:+ "token is invalid"
               +:+ Py.nl;
             "Bot thread attempting to clean up and exit." +:+ Py.nl]).
Proof.
  apply (X15_refused_client_ends_the_thread_before_any_event UniqueTable.execute_insert
           refusing_services config_without_table default_settings (fresh ∅)
           "BoltError" "token is invalid").
  - exact holds_default_settings.
  - reflexivity.
Defined.

(** X16: when the constructors accept and [handler.start()] ends with an
    exception, the thread logs it as an error with its text after the
    records of the events it has handled, then the record of the [finally]
    block, and returns; the inserts issued for the delivered events stay. *)
Theorem X16_cut_session_is_logged_after_its_events :
  ∀ {db : Type} (execute_insert : db → string → gmap string Py.value → db * execute_result)
    (ext : externals) (config : gmap string string) (cfg : RuntimeConfig) (w : world db)
    (cls msg : string),
    holds_settings config cfg →
    first_refusal ext cfg = None →
    session_end ext = Some (cls, msg) →
    let after := App.start_slack_bot_listener execute_insert ext config w in
    let served :=
      App.serve (App.bound_handler execute_insert cfg) (session ext)
        (snd (App.listener_setup ext cfg (snd (App.listener_banner w)))) in
    fst after = Return tt
    ∧ w_records (snd after)
      = w_records (snd served) ++
          [(ERROR, "Critical error in bot thread: " +:+ msg);
           (INFO, "Bot thread attempting to clean up and exit.")]
    ∧ StreamlitLogHandler.buffer (w_capture (snd after))
      = StreamlitLogHandler.buffer (w_capture (snd served)) ++
          ["CRITICAL ERROR: " +:+ "Critical error in bot thread: " +:+ msg +:+ Py.nl;
           "Bot thread attempting to clean up and exit." +:+ Py.nl]
    ∧ w_inserts (snd after) = w_inserts (snd served)
    ∧ w_db (snd after) = w_db (snd served).
Proof.
  intros db execute_insert ext config cfg w cls msg Hc Ha He after served.
  subst after served.
  rewrite (listener_once_configured execute_insert ext config cfg w Hc).
  destruct (listener_exit_returns _ (snd (App.listener_banner w))
              (oe_listener_body execute_insert ext cfg)) as (Hr & _ & _ & Hi & _ & Hd).
  set (w1 := snd (App.listener_banner w)) in *.
  destruct (listener_setup_accepted ext cfg w1 Ha) as (Hs & _).
  destruct (app_session_inserts execute_insert cfg (session ext)
              (snd (App.listener_setup ext cfg w1))) as [Hv _].
  assert (Run.bind (App.listener_setup ext cfg)
            (λ _, Run.bind (App.serve (App.bound_handler execute_insert cfg) (session ext))
                    (λ _, App.session_over (session_end ext))) w1
          = (Raise (Py.Exception cls msg),
             snd (App.serve (App.bound_handler execute_insert cfg) (session ext)
                    (snd (App.listener_setup ext cfg w1))))) as Hb.
  { unfold Run.bind at 1.
    destruct (App.listener_setup ext cfg w1) as [[[]|e] w2]; [|discriminate].
    cbn [snd] in *. unfold Run.bind.
    destruct (App.serve (App.bound_handler execute_insert cfg) (session ext) w2)
      as [[[]|e] w3]; [|discriminate].
    unfold App.session_over. by rewrite He. }
  rewrite Hb in Hi, Hd. cbn [snd] in Hi, Hd.
  destruct (listener_exit_raised _ w1 _ cls msg Hb) as (Hrec & Hbuf).
  by repeat split.
Qed.

Lemma X16_cut_session_run :
  fst (App.start_slack_bot_listener UniqueTable.execute_insert cut_services
         config_without_table (fresh ∅)) = Return tt
  ∧ w_records (snd (App.start_slack_bot_listener UniqueTable.execute_insert cut_services
                      config_without_table (fresh ∅)))
    = w_records
        (snd (App.serve (App.bound_handler UniqueTable.execute_insert default_settings)
                (session cut_services)
                (snd (App.listener_setup cut_services default_settings
                        (snd (App.listener_banner (fresh ∅)))))))
      ++ [(ERROR, "Critical error in bot thread: " +:+ "socket closed");
          (INFO, "Bot thread attempting to clean up and exit.")]
  ∧ StreamlitLogHandler.buffer
      (w_capture (snd (App.start_slack_bot_listener UniqueTable.execute_insert cut_services
                         config_without_table (fresh ∅))))
    = StreamlitLogHandler.buffer
        (w_capture
           (snd (App.serve (App.bound_handler UniqueTable.execute_insert default_settings)
                   (session cut_services)
                   (snd (App.listener_setup cut_services default_settings
                           (snd (App.listener_banner (fresh ∅))))))))
      ++ ["CRITICAL ERROR: " +:+ "Critical error in bot thread: " +:+ "socket closed"
            +:+ Py.nl;
          "Bot thread attempting to clean up and exit." +:+ Py.nl]
  ∧ w_inserts (snd (App.start_slack_bot_listener UniqueTable.execute_insert cut_services
                      config_without_table (fresh ∅)))
    = w_inserts
        (snd (App.serve (App.bound_handler UniqueTable.execute_insert default_settings)
                (session cut_services)
                (snd (App.listener_setup cut_services default_settings
                        (snd (App.listener_banner (fresh ∅)))))))
  ∧ w_db (snd (App.start_slack_bot_listener UniqueTable.execute_insert cut_services
                 config_without_table (fresh ∅)))
    = w_db
        (snd (App.serve (App.bound_handler UniqueTable.execute_insert default_settings)
                (session cut_services)
                (snd (App.listener_setup cut_services default_settings
                        (snd (App.listener_banner (fresh ∅))))))).
Proof.
  apply (X16_cut_session_is_logged_after_its_events UniqueTable.execute_insert
           cut_services config_without_table default_settings (fresh ∅)
           "ConnectionError" "socket closed").
  - exact holds_default_settings.
  - reflexivity.
  - reflexivity.
Defined.

(** ** The page of the Streamlit app over a whole session *)

(** Lines 133 to 143: the session state of a first visit, with a new stop
    event and a new log handler, in a process that has done nothing yet. *)
Definition new_session {db : Type} (d : db) : App.system db :=
  {| App.ui := {| App.env_vars_confirmed := false; App.bot_started := false;
                  App.bot_thread := false; App.config := None |};
     App.thread := App.NoThread;
     App.shared := fresh d |}.

(** The settings the thread reads out of the dictionary an accepted form
    saves. *)
Definition form_settings (f : App.form_fields) : RuntimeConfig :=
  {| cfg_slack_bot_token := App.f_slack_bot_token f;
     cfg_slack_app_token := App.f_slack_app_token f;
     cfg_supabase_url := App.f_supabase_url f;
     cfg_supabase_service_key := App.f_supabase_service_key f;
     cfg_target_slack_user_id := App.f_target_slack_user_id f;
     cfg_supabase_table_name :=
       if Py.str_truthy (App.f_supabase_table_name f) then App.f_supabase_table_name f
       else "slack_messages_for_sensay" |}.

(** A dictionary saved by a form that was accepted. *)
Definition accepted_form (c : gmap string string) : Prop :=
  ∃ f, c = App.form_config f ∧ App.missing_fields f = [].

(** What holds of the session state and the thread on every page. *)
Definition page_invariant {db : Type} (s : App.system db) : Prop :=
  (App.env_vars_confirmed (App.ui s) = true → is_Some (App.config (App.ui s)))
  ∧ (∀ c, App.config (App.ui s) = Some c → accepted_form c)
  ∧ (App.bot_started (App.ui s) = true →
     App.env_vars_confirmed (App.ui s) = true ∧ App.bot_thread (App.ui s) = true)
  ∧ (App.bot_thread (App.ui s) = false ↔ App.thread s = App.NoThread)
  ∧ (∀ c, App.thread s = App.Spawned c → accepted_form c).

(** Another form, saved after a reset. *)
Definition other_fields : App.form_fields :=
  {| App.f_slack_bot_token := "xoxb-2";
     App.f_slack_app_token := "xapp-2";
     App.f_supabase_url := "https://other.example";
     App.f_supabase_service_key := "other-key";
     App.f_target_slack_user_id := "U_other";
     App.f_supabase_table_name := "other_table" |}.

Ltac page_fields :=
  cbn [App.ui App.thread App.shared App.env_vars_confirmed App.bot_started
       App.bot_thread App.config].

Ltac page_step :=
  unfold App.submit, App.env_var_form, App.start_bot, App.stop_bot,
    App.thread_boot, App.thread_deliver, App.thread_end;
  page_fields.

Ltac invariant_parts := refine (conj _ (conj _ (conj _ (conj _ _)))).

(** An accepted form has its five mandatory fields filled in. *)
Lemma accepted_fields (f : App.form_fields) :
  App.missing_fields f = [] →
  Py.str_truthy (App.f_slack_bot_token f) = true
  ∧ Py.str_truthy (App.f_slack_app_token f) = true
  ∧ Py.str_truthy (App.f_supabase_url f) = true
  ∧ Py.str_truthy (App.f_supabase_service_key f) = true
  ∧ Py.str_truthy (App.f_target_slack_user_id f) = true.
Proof.
  unfold App.missing_fields.
  destruct (Py.str_truthy (App.f_slack_bot_token f)); [|discriminate].
  destruct (Py.str_truthy (App.f_slack_app_token f)); [|discriminate].
  destruct (Py.str_truthy (App.f_supabase_url f)); [|discriminate].
  destruct (Py.str_truthy (App.f_supabase_service_key f)); [|discriminate].
  destruct (Py.str_truthy (App.f_target_slack_user_id f)); [|discriminate].
  done.
Qed.

Lemma form_config_holds (f : App.form_fields) :
  holds_settings (App.form_config f) (form_settings f).
Proof. unfold holds_settings, App.form_config, form_settings. by simplify_map_eq. Qed.

Section PageFacts.

Context {db : Type}.
Variable execute_insert : db → string → gmap string Py.value → db * execute_result.
Variable ext : externals.

Lemma page_invariant_step a (s : App.system db) :
  page_invariant s → page_invariant (App.exec execute_insert ext a s).
Proof.
  destruct s as [[confirmed started stored saved] t w].
  unfold page_invariant. cbn [App.ui App.thread App.env_vars_confirmed App.bot_started
                                App.bot_thread App.config].
  intros Hinv. pose proof Hinv as (H1 & H2 & H3 & H4 & H5).
  destruct a; cbn [App.exec]; page_step.
  - (* the form *)
    destruct confirmed; [exact Hinv|].
    destruct (App.missing_fields f) eqn:Hm; cbn [fst]; page_fields; [|exact Hinv].
    invariant_parts; [by eexists | | | exact H4 | exact H5].
    + intros c [= <-]. by exists f.
    + intros Hs. by destruct (H3 Hs).
  - (* the start button *)
    destruct confirmed, started; cbn [andb negb]; try exact Hinv.
    destruct (negb stored || negb (App.is_alive t)); [|exact Hinv].
    destruct saved as [c|]; [|exact Hinv]. page_fields.
    invariant_parts; [by eexists | exact H2 | done | split; discriminate |].
    intros c' [= <-]. by apply H2.
  - (* the reset button *)
    destruct confirmed, started; cbn [andb]; try exact Hinv. page_fields.
    invariant_parts; [discriminate | exact H2 | discriminate | exact H4 | exact H5].
  - (* the thread starts *)
    destruct t as [|c|cfg|]; try exact Hinv.
    destruct (App.read_config c w) as [[cfg|e] w1];
      [destruct (App.listener_setup ext cfg (App.listener_banner w1).2) as [[u|e] w2]|];
      page_fields;
      (invariant_parts;
       [ exact H1 | exact H2 | exact H3
       | split; [intros Hs; by apply H4 in Hs | discriminate]
       | discriminate ]).
  - (* an event is delivered *)
    destruct t as [|c|cfg|]; try exact Hinv.
    destruct (App.bound_handler execute_insert cfg event w) as [[u|e] w1];
      page_fields;
      (invariant_parts;
       [ exact H1 | exact H2 | exact H3
       | split; [intros Hs; by apply H4 in Hs | discriminate]
       | discriminate ]).
  - (* the session ends *)
    destruct t as [|c|cfg|]; try exact Hinv. page_fields.
    invariant_parts;
      [ exact H1 | exact H2 | exact H3
      | split; [intros Hs; by apply H4 in Hs | discriminate]
      | discriminate ].
Qed.

Lemma page_invariant_run schedule (s : App.system db) :
  page_invariant s → page_invariant (App.run execute_insert ext schedule s).
Proof.
  revert s. induction schedule as [|a schedule IH]; intros s Hs; [exact Hs|].
  apply IH. by apply page_invariant_step.
Qed.

(** The steps of the thread leave the session state as it is. *)
Lemma background_keeps_session schedule (s : App.system db) :
  Forall (λ a, App.background a = true) schedule →
  App.ui (App.run execute_insert ext schedule s) = App.ui s.
Proof.
  intros Hb. revert s. induction Hb as [|a schedule Ha _ IH]; intros s; [reflexivity|].
  cbn [App.run]. rewrite IH. destruct s as [u t w].
  destruct a; try discriminate; cbn [App.exec]; page_step.
  - destruct t as [|c|cfg|]; try reflexivity.
    destruct (App.read_config c w) as [[cfg|e] w1]; [|reflexivity].
    by destruct (App.listener_setup ext cfg (App.listener_banner w1).2) as [[u'|e] w2].
  - destruct t as [|c|cfg|]; try reflexivity.
    by destruct (App.bound_handler execute_insert cfg event w) as [[u'|e] w1].
  - by destruct t as [|c|cfg|].
Qed.

(** The buttons and the form leave a listening thread as it is, whatever
    the session state says, and do not call the store. *)
Lemma foreground_keeps_listener schedule cfg (s : App.system db) :
  Forall (λ a, App.background a = false) schedule →
  App.thread s = App.Listening cfg →
  App.bot_thread (App.ui s) = true →
  App.thread (App.run execute_insert ext schedule s) = App.Listening cfg
  ∧ App.bot_thread (App.ui (App.run execute_insert ext schedule s)) = true
  ∧ w_inserts (App.shared (App.run execute_insert ext schedule s))
    = w_inserts (App.shared s)
  ∧ w_db (App.shared (App.run execute_insert ext schedule s)) = w_db (App.shared s).
Proof.
  intros Hf. revert s. induction Hf as [|a schedule Ha _ IH]; intros s Ht Hb; [done|].
  cbn [App.run].
  assert (App.thread (App.exec execute_insert ext a s) = App.Listening cfg
          ∧ App.bot_thread (App.ui (App.exec execute_insert ext a s)) = true
          ∧ w_inserts (App.shared (App.exec execute_insert ext a s))
            = w_inserts (App.shared s)
          ∧ w_db (App.shared (App.exec execute_insert ext a s)) = w_db (App.shared s))
    as (Ht' & Hb' & Hi' & Hd').
  { clear IH. destruct s as [[confirmed started stored saved] t w].
    cbn [App.ui App.thread App.shared App.bot_thread] in *. subst t stored.
    destruct a; try discriminate; cbn [App.exec]; page_step.
    - destruct confirmed; [done|]. by destruct (App.missing_fields f).
    - by destruct confirmed, started.
    - by destruct confirmed, started. }
  destruct (IH _ Ht' Hb') as (Ht2 & Hb2 & Hi2 & Hd2).
  repeat split; congruence.
Qed.

End PageFacts.

(** X17: on every page reached from a first visit, over any sequence of
    form submissions, button presses and steps of the thread: a confirmed
    configuration is a saved one; a saved dictionary, and the one a started
    thread was given, come from an accepted form, so the thread finds its
    five settings, none empty; [bot_started] holds only with a confirmed
    configuration and a stored thread; and [bot_thread] is [None] exactly
    when no thread was ever started. *)
Theorem X17_page_invariants :
  ∀ {db : Type} (execute_insert : db → string → gmap string Py.value → db * execute_result)
    (ext : externals) (d : db) (schedule : list App.action),
    let s := App.run execute_insert ext schedule (new_session d) in
    page_invariant s
    ∧ (∀ c, App.thread s = App.Spawned c →
         ∃ cfg, holds_settings c cfg
                ∧ cfg_slack_bot_token cfg ≠ EmptyString
                ∧ cfg_slack_app_token cfg ≠ EmptyString
                ∧ cfg_supabase_url cfg ≠ EmptyString
                ∧ cfg_supabase_service_key cfg ≠ EmptyString
                ∧ cfg_target_slack_user_id cfg ≠ EmptyString).
Proof.
  intros db execute_insert ext d schedule s.
  assert (page_invariant s) as Hs.
  { apply page_invariant_run. unfold page_invariant, new_session. page_fields.
    invariant_parts; [discriminate | discriminate | discriminate | done | discriminate]. }
  split; [exact Hs|]. intros c Hc.
  destruct Hs as (_ & _ & _ & _ & H5). destruct (H5 c Hc) as (f & -> & Hm).
  exists (form_settings f). split; [apply form_config_holds|].
  destruct (accepted_fields f Hm) as (T1 & T2 & T3 & T4 & T5).
  cbn. by rewrite <- !str_truthy_true.
Qed.

(** X18: while the session says that the bot is started, nothing the thread
    does changes the session state: also once the thread has finished, the
    page shows the panel [Logs (Bot Active)] with the content of the log
    buffer; it schedules its refresh exactly while the thread is alive, and
    shows the warning of a stopped thread exactly when it is not. *)
Theorem X18_finished_thread_leaves_the_page_active :
  ∀ {db : Type} (execute_insert : db → string → gmap string Py.value → db * execute_result)
    (ext : externals) (s : App.system db) (schedule : list App.action),
    Forall (λ a, App.background a = true) schedule →
    App.env_vars_confirmed (App.ui s) = true →
    App.bot_started (App.ui s) = true →
    App.bot_thread (App.ui s) = true →
    let s' := App.run execute_insert ext schedule s in
    App.ui s' = App.ui s
    ∧ App.log_panel s'
      = Some {| App.log_display_label := "Logs (Bot Active)";
                App.log_display_content :=
                  StreamlitLogHandler.get_logs (w_capture (App.shared s'));
                App.show_rerun_trigger_for_logs := App.is_alive (App.thread s');
                App.stopped_warning := negb (App.is_alive (App.thread s')) |}.
Proof.
  intros db execute_insert ext s schedule Hb Hc Hs Ht s'.
  pose proof (background_keeps_session execute_insert ext schedule s Hb) as Hu.
  fold s' in Hu. split; [exact Hu|].
  unfold App.log_panel. by rewrite Hu, Hc, Hs, Ht.
Qed.

Lemma X18_ended_session_on_a_listening_page :
  App.ui (App.run UniqueTable.execute_insert quiet_services [App.BgEnd None] listening_page)
  = App.ui listening_page
  ∧ App.log_panel
      (App.run UniqueTable.execute_insert quiet_services [App.BgEnd None] listening_page)
    = Some {| App.log_display_label := "Logs (Bot Active)";
              App.log_display_content :=
                StreamlitLogHandler.get_logs
                  (w_capture
                     (App.shared
                        (App.run UniqueTable.execute_insert quiet_services
                           [App.BgEnd None] listening_page)));
              App.show_rerun_trigger_for_logs :=
                App.is_alive
                  (App.thread
                     (App.run UniqueTable.execute_insert quiet_services
                        [App.BgEnd None] listening_page));
              App.stopped_warning :=
                negb (App.is_alive
                        (App.thread
                           (App.run UniqueTable.execute_insert quiet_services
                              [App.BgEnd None] listening_page))) |}.
Proof.
  apply (X18_finished_thread_leaves_the_page_active UniqueTable.execute_insert
           quiet_services listening_page [App.BgEnd None]).
  - repeat constructor.
  - vm_compute. reflexivity.
  - vm_compute. reflexivity.
  - vm_compute. reflexivity.
Defined.

(** X19: once a thread is listening, no form submission and no button press
    replaces or reconfigures it: after any such sequence, with a reset and
    another configuration saved or not, the start button starts no second
    thread, the thread still has the settings it was started with, the store
    has not been called, and the next event delivered is tested and stored
    with those settings. *)
Theorem X19_listening_thread_keeps_its_first_settings :
  ∀ {db : Type} (execute_insert : db → string → gmap string Py.value → db * execute_result)
    (ext : externals) (s : App.system db) (cfg : RuntimeConfig)
    (schedule : list App.action) (event : gmap string Py.value),
    Forall (λ a, App.background a = false) schedule →
    App.thread s = App.Listening cfg →
    App.bot_thread (App.ui s) = true →
    let s' := App.run execute_insert ext schedule s in
    App.thread s' = App.Listening cfg
    ∧ w_inserts (App.shared s') = w_inserts (App.shared s)
    ∧ w_db (App.shared s') = w_db (App.shared s)
    ∧ w_inserts (App.shared (App.exec execute_insert ext (App.BgDeliver event) s'))
      = w_inserts (App.shared s) ++
          (if App.passes_filter (cfg_target_slack_user_id cfg) event
           then [(cfg_supabase_table_name cfg, row_of event)] else []).
Proof.
  intros db execute_insert ext s cfg schedule event Hf Ht Hb s'.
  destruct (foreground_keeps_listener execute_insert ext schedule cfg s Hf Ht Hb)
    as (Ht' & _ & Hi' & Hd').
  fold s' in Ht', Hi', Hd'. repeat split; try assumption.
  destruct s' as [u t w']. cbn [App.thread App.shared] in *. subst t.
  cbn [App.exec]. unfold App.thread_deliver. cbn [App.thread App.shared App.ui].
  pose proof (app_callback_returns execute_insert
                (cfg_target_slack_user_id cfg) (cfg_supabase_table_name cfg) event w') as Hr.
  assert (w_inserts (snd (App.bound_handler execute_insert cfg event w'))
          = w_inserts w' ++
              (if App.passes_filter (cfg_target_slack_user_id cfg) event
               then [(cfg_supabase_table_name cfg, row_of event)] else [])) as Hi.
  { unfold App.bound_handler. destruct (App.passes_filter _ event) eqn:Hp.
    - apply app_callback_inserts. by apply app_passes_filter_iff.
    - rewrite app_callback_skips by assumption. by rewrite app_nil_r. }
  change (App.handle_message_events execute_insert
            (cfg_target_slack_user_id cfg) (cfg_supabase_table_name cfg) event w')
    with (App.bound_handler execute_insert cfg event w') in Hr.
  destruct (App.bound_handler execute_insert cfg event w') as [[u'|e] w1]; [|discriminate].
  cbn [App.shared snd] in *. by rewrite Hi, Hi'.
Qed.

Lemma X19_reset_and_another_configuration :
  App.thread
    (App.run UniqueTable.execute_insert quiet_services
       [App.UiReset; App.UiSubmit other_fields; App.UiStart] listening_page)
  = App.Listening (form_settings saved_fields)
  ∧ w_inserts
      (App.shared
         (App.run UniqueTable.execute_insert quiet_services
            [App.UiReset; App.UiSubmit other_fields; App.UiStart] listening_page))
    = w_inserts (App.shared listening_page)
  ∧ w_db
      (App.shared
         (App.run UniqueTable.execute_insert quiet_services
            [App.UiReset; App.UiSubmit other_fields; App.UiStart] listening_page))
    = w_db (App.shared listening_page)
  ∧ w_inserts
      (App.shared
         (App.exec UniqueTable.execute_insert quiet_services (App.BgDeliver later_event)
            (App.run UniqueTable.execute_insert quiet_services
               [App.UiReset; App.UiSubmit other_fields; App.UiStart] listening_page)))
    = w_inserts (App.shared listening_page) ++
        (if App.passes_filter (cfg_target_slack_user_id (form_settings saved_fields))
              later_event
         then [(cfg_supabase_table_name (form_settings saved_fields), row_of later_event)]
         else []).
Proof.
  apply (X19_listening_thread_keeps_its_first_settings UniqueTable.execute_insert
           quiet_services listening_page (form_settings saved_fields)
           [App.UiReset; App.UiSubmit other_fields; App.UiStart] later_event).
  - repeat constructor.
  - vm_compute. reflexivity.
  - vm_compute. reflexivity.
Defined.

(** ** From the form to a listening thread *)

Section PageToThread.

Context {db : Type}.
Variable execute_insert : db → string → gmap string Py.value → db * execute_result.
Variable ext : externals.

(** The lines in the log buffer once the thread has come to listen. *)
Lemma listener_boot_accepted cfg (w : world db) :
  first_refusal ext cfg = None →
  let after := App.listener_setup ext cfg (snd (App.listener_banner w)) in
  fst after = Return tt
  ∧ StreamlitLogHandler.buffer (w_capture (snd after))
    = StreamlitLogHandler.buffer (w_capture w) ++
        [ "Bot thread started. Initializing Slack and Supabase clients..." +:+ Py.nl;
          "Supabase client initialized for URL: " +:+ cfg_supabase_url cfg +:+ Py.nl;
          "Monitoring messages from Slack User ID: " +:+ cfg_target_slack_user_id cfg
            +:+ Py.nl;
          "Storing messages in Supabase table: " +:+ cfg_supabase_table_name cfg +:+ Py.nl;
          "Starting SocketModeHandler..." +:+ Py.nl ]
  ∧ w_clients (snd after) = w_clients w ++ ["App"; "create_client"; "SocketModeHandler"]
  ∧ w_inserts (snd after) = w_inserts w
  ∧ w_stop_event (snd after) = w_stop_event w.
Proof.
  unfold first_refusal, App.listener_setup, App.listener_banner.
  destruct (new_App ext _) as [[c1 m1]|]; [discriminate|].
  destruct (create_client ext _ _) as [[c2 m2]|]; [discriminate|].
  intros ->. run_steps. rewrite <- !app_assoc. repeat split; reflexivity.
Qed.

(** A started thread that finds its settings and whose clients are accepted
    comes to listen. *)
Lemma thread_boot_accepted u config cfg (w : world db) :
  holds_settings config cfg →
  first_refusal ext cfg = None →
  App.thread_boot ext {| App.ui := u; App.thread := App.Spawned config; App.shared := w |}
  = {| App.ui := u; App.thread := App.Listening cfg;
       App.shared := snd (App.listener_setup ext cfg (snd (App.listener_banner w))) |}.
Proof.
  intros Hc Ha. unfold App.thread_boot. cbn [App.thread App.shared App.ui].
  rewrite (read_config_holds config cfg w Hc).
  destruct (listener_boot_accepted cfg w Ha) as (Hr & _).
  by destruct (App.listener_setup ext cfg (snd (App.listener_banner w))) as [[[]|e] w2].
Qed.

End PageToThread.

(** X20: from a first visit, saving a form whose five mandatory fields are
    filled in, pressing the start button and letting the thread start, with
    clients that accept, gives a thread that listens with exactly the values
    of the form (the table name defaulted when left empty); the session says
    confirmed and started, the three clients have been constructed in
    order, the log buffer holds the five start-up lines and nothing else,
    the stop flag is clear and the store has not been called. *)
Theorem X20_saved_form_reaches_the_listening_thread :
  ∀ {db : Type} (execute_insert : db → string → gmap string Py.value → db * execute_result)
    (ext : externals) (d : db) (f : App.form_fields),
    App.missing_fields f = [] →
    first_refusal ext (form_settings f) = None →
    let s :=
      App.run execute_insert ext [App.UiSubmit f; App.UiStart; App.BgBoot] (new_session d) in
    App.thread s = App.Listening (form_settings f)
    ∧ App.ui s = {| App.env_vars_confirmed := true; App.bot_started := true;
                    App.bot_thread := true; App.config := Some (App.form_config f) |}
    ∧ w_clients (App.shared s) = ["App"; "create_client"; "SocketModeHandler"]
    ∧ StreamlitLogHandler.buffer (w_capture (App.shared s))
      = [ "Bot thread started. Initializing Slack and Supabase clients..." +:+ Py.nl;
          "Supabase client initialized for URL: " +:+ App.f_supabase_url f +:+ Py.nl;
          "Monitoring messages from Slack User ID: " +:+ App.f_target_slack_user_id f
            +:+ Py.nl;
          "Storing messages in Supabase table: "
            +:+ cfg_supabase_table_name (form_settings f) +:+ Py.nl;
          "Starting SocketModeHandler..." +:+ Py.nl ]
    ∧ w_inserts (App.shared s) = []
    ∧ w_stop_event (App.shared s) = false.
Proof.
  intros db execute_insert ext d f Hm Ha s. subst s.
  cbn [App.run App.exec]. unfold App.submit, new_session.
  cbn [App.ui App.thread App.shared App.env_vars_confirmed App.bot_started
       App.bot_thread App.config].
  unfold App.env_var_form. rewrite Hm. cbn [fst]. unfold App.start_bot.
  cbn [App.ui App.thread App.shared App.env_vars_confirmed App.bot_started
       App.bot_thread App.config andb negb orb].
  rewrite (thread_boot_accepted ext _ _ (form_settings f) _ (form_config_holds f) Ha).
  cbn [App.ui App.thread App.shared].
  destruct (listener_boot_accepted ext (form_settings f)
              (App.with_stop_event false (App.with_cleared_logs (fresh d))) Ha)
    as (_ & Hb & Hc & Hi & Hs).
  by repeat split.
Qed.

Lemma X20_saved_fields_reach_the_thread :
  App.thread
    (App.run UniqueTable.execute_insert quiet_services
       [App.UiSubmit saved_fields; App.UiStart; App.BgBoot] (new_session ∅))
  = App.Listening (form_settings saved_fields)
  ∧ App.ui
      (App.run UniqueTable.execute_insert quiet_services
         [App.UiSubmit saved_fields; App.UiStart; App.BgBoot] (new_session ∅))
    = {| App.env_vars_confirmed := true; App.bot_started := true;
         App.bot_thread := true; App.config := Some (App.form_config saved_fields) |}
  ∧ w_clients
      (App.shared
         (App.run UniqueTable.execute_insert quiet_services
            [App.UiSubmit saved_fields; App.UiStart; App.BgBoot] (new_session ∅)))
    = ["App"; "create_client"; "SocketModeHandler"]
  ∧ StreamlitLogHandler.buffer
      (w_capture
         (App.shared
            (App.run UniqueTable.execute_insert quiet_services
               [App.UiSubmit saved_fields; App.UiStart; App.BgBoot] (new_session ∅))))
    = [ "Bot thread started. Initializing Slack and Supabase clients..." +:+ Py.nl;
        "Supabase client initialized for URL: " +:+ App.f_supabase_url saved_fields
          +:+ Py.nl;
        "Monitoring messages from Slack User ID: "
          +:+ App.f_target_slack_user_id saved_fields +:+ Py.nl;
        "Storing messages in Supabase table: "
          +:+ cfg_supabase_table_name (form_settings saved_fields) +:+ Py.nl;
        "Starting SocketModeHandler..." +:+ Py.nl ]
  ∧ w_inserts
      (App.shared
         (App.run UniqueTable.execute_insert quiet_services
            [App.UiSubmit saved_fields; App.UiStart; App.BgBoot] (new_session ∅)))
    = []
  ∧ w_stop_event
      (App.shared
         (App.run UniqueTable.execute_insert quiet_services
            [App.UiSubmit saved_fields; App.UiStart; App.BgBoot] (new_session ∅)))
    = false.
Proof.
  apply (X20_saved_form_reaches_the_listening_thread UniqueTable.execute_insert
           quiet_services ∅ saved_fields).
  - reflexivity.
  - reflexivity.
Defined.

(** ** What the page shows *)

(** X21: once a form is accepted, the configuration shown back on the page
    holds, for each of the two tokens and the service key, its first five
    characters followed by three dots, and no more of it; the URL, the user
    id and the table name (defaulted when left empty) are shown whole, and
    no entry reads [Not Set]. *)
Theorem X21_saved_secrets_are_shown_by_their_first_five_characters :
  ∀ (f : App.form_fields) (ss : App.session_state),
    App.missing_fields f = [] →
    App.config_display (fst (App.env_var_form f ss))
    = <["SLACK_BOT_TOKEN" := Py.take 5 (App.f_slack_bot_token f) +:+ "..."]>
      (<["SLACK_APP_TOKEN" := Py.take 5 (App.f_slack_app_token f) +:+ "..."]>
      (<["SUPABASE_URL" := App.f_supabase_url f]>
      (<["SUPABASE_SERVICE_KEY" := Py.take 5 (App.f_supabase_service_key f) +:+ "..."]>
      (<["TARGET_SLACK_USER_ID" := App.f_target_slack_user_id f]>
      (<["SUPABASE_TABLE_NAME" :=
           if Py.str_truthy (App.f_supabase_table_name f) then App.f_supabase_table_name f
           else "slack_messages_for_sensay"]> ∅))))).
Proof.
  intros f ss Hm. destruct (accepted_fields f Hm) as (T1 & T2 & T3 & T4 & T5).
  unfold App.env_var_form. rewrite Hm. cbn [fst].
  unfold App.config_display, App.masked, App.shown, App.form_config. cbn [App.config].
  simplify_map_eq. by rewrite T1, T2, T4.
Qed.

Lemma X21_saved_fields_display :
  App.config_display
    (fst (App.env_var_form saved_fields (App.ui (new_session tt))))
  = <["SLACK_BOT_TOKEN" := Py.take 5 (App.f_slack_bot_token saved_fields) +:+ "..."]>
    (<["SLACK_APP_TOKEN" := Py.take 5 (App.f_slack_app_token saved_fields) +:+ "..."]>
    (<["SUPABASE_URL" := App.f_supabase_url saved_fields]>
    (<["SUPABASE_SERVICE_KEY" :=
         Py.take 5 (App.f_supabase_service_key saved_fields) +:+ "..."]>
    (<["TARGET_SLACK_USER_ID" := App.f_target_slack_user_id saved_fields]>
    (<["SUPABASE_TABLE_NAME" :=
         if Py.str_truthy (App.f_supabase_table_name saved_fields)
         then App.f_supabase_table_name saved_fields
         else "slack_messages_for_sensay"]> ∅))))).
Proof.
  apply (X21_saved_secrets_are_shown_by_their_first_five_characters saved_fields
           (App.ui (new_session tt))).
  reflexivity.
Defined.

(** A computation only appends to the log buffer. *)
Definition appends {db : Type} {A : Type} (m : Run.M db A) : Prop :=
  ∀ w : world db,
    ∃ lines,
      StreamlitLogHandler.buffer (w_capture (snd (m w)))
      = StreamlitLogHandler.buffer (w_capture w) ++ lines.

Section Appends.

Context {db : Type}.
Variable execute_insert : db → string → gmap string Py.value → db * execute_result.
Variable ext : externals.

Lemma appends_ret {A} (a : A) : appends (Run.ret (db := db) a).
Proof. intros w. exists []. by rewrite app_nil_r. Qed.

Lemma appends_raise {A} e : appends (Run.raise (db := db) (A := A) e).
Proof. intros w. exists []. by rewrite app_nil_r. Qed.

Lemma appends_logger lvl msg : appends (Run.logger (db := db) lvl msg).
Proof. intros w. exists []. by rewrite app_nil_r. Qed.

Lemma appends_capture_write message : appends (Run.capture_write (db := db) message).
Proof. intros w. by exists [message]. Qed.

Lemma appends_construct client failure : appends (Run.construct (db := db) client failure).
Proof.
  intros w. exists []. rewrite app_nil_r. unfold Run.construct.
  by destruct failure as [[cls msg]|].
Qed.

Lemma appends_insert_execute name row :
  appends (Run.insert_execute execute_insert name row).
Proof.
  intros w. exists []. rewrite app_nil_r. unfold Run.insert_execute.
  by destruct (execute_insert (w_db w) name row) as [d [resp|cls msg]].
Qed.

Lemma appends_bind {A B} (m : Run.M db A) (k : A → Run.M db B) :
  appends m → (∀ a, appends (k a)) → appends (Run.bind m k).
Proof.
  intros Hm Hk w. unfold Run.bind. destruct (Hm w) as [l1 H1].
  destruct (m w) as [[a|e] w']; cbn [snd] in *.
  - destruct (Hk a w') as [l2 H2]. exists (l1 ++ l2). by rewrite H2, H1, app_assoc.
  - by exists l1.
Qed.

Lemma appends_try_except {A} (body : Run.M db A) handler :
  appends body → (∀ e, appends (handler e)) → appends (Run.try_except body handler).
Proof.
  intros Hb Hh w. unfold Run.try_except. destruct (Hb w) as [l1 H1].
  destruct (body w) as [[a|[cls msg|code|]] w']; cbn [snd] in *; try by exists l1.
  destruct (Hh (Py.Exception cls msg) w') as [l2 H2].
  exists (l1 ++ l2). by rewrite H2, H1, app_assoc.
Qed.

Lemma appends_try_finally {A} (body : Run.M db A) final :
  appends body → appends final → appends (Run.try_finally body final).
Proof.
  intros Hb Hf w. unfold Run.try_finally. destruct (Hb w) as [l1 H1].
  destruct (body w) as [r w']. cbn [snd] in *. destruct (Hf w') as [l2 H2].
  exists (l1 ++ l2). rewrite app_assoc, <- H1, <- H2.
  by destruct (final w') as [[u|e] w''].
Qed.

End Appends.

Ltac appends_step :=
  lazymatch goal with
  | |- ∀ _, _ => intro
  | |- appends (Run.ret _) => apply appends_ret
  | |- appends (Run.raise _) => apply appends_raise
  | |- appends (Run.logger _ _) => apply appends_logger
  | |- appends (Run.capture_write _) => apply appends_capture_write
  | |- appends (Run.construct _ _) => apply appends_construct
  | |- appends (Run.insert_execute _ _ _) => apply appends_insert_execute
  | |- appends (Run.bind _ _) => apply appends_bind
  | |- appends (Run.try_except _ _) => apply appends_try_except
  | |- appends (Run.try_finally _ _) => apply appends_try_finally
  | |- appends (match ?x with _ => _ end) => destruct x
  end.

Section AppendsThread.

Context {db : Type}.
Variable execute_insert : db → string → gmap string Py.value → db * execute_result.
Variable ext : externals.

Lemma appends_handle_message_events target table event :
  appends (App.handle_message_events execute_insert target table event).
Proof.
  unfold App.handle_message_events, App.store_message, App.store_failed,
    Run.slice, Run.first_id, Run.response_error.
  cbv zeta. repeat appends_step.
Qed.

Lemma appends_read_config config : appends (App.read_config (db := db) config).
Proof. unfold App.read_config, App.getitem. repeat appends_step. Qed.

Lemma appends_listener_banner : appends (App.listener_banner (db := db)).
Proof. unfold App.listener_banner. repeat appends_step. Qed.

Lemma appends_listener_setup cfg : appends (App.listener_setup (db := db) ext cfg).
Proof. unfold App.listener_setup. repeat appends_step. Qed.

Lemma appends_listener_exit rest :
  appends rest → appends (App.listener_exit (db := db) rest).
Proof.
  intros Hr. unfold App.listener_exit, App.listener_except, App.listener_finally.
  repeat appends_step. exact Hr.
Qed.

(** A step of the thread only appends to the log buffer. *)
Lemma background_step_appends a (s : App.system db) :
  App.background a = true →
  ∃ lines,
    StreamlitLogHandler.buffer (w_capture (App.shared (App.exec execute_insert ext a s)))
    = StreamlitLogHandler.buffer (w_capture (App.shared s)) ++ lines.
Proof.
  destruct s as [u t w]. destruct a; try discriminate; intros _; cbn [App.exec]; page_step.
  - destruct t as [|c|cfg|]; try (exists []; by rewrite app_nil_r).
    destruct (appends_read_config c w) as [l0 H0].
    destruct (App.read_config c w) as [[cfg|e] w1]; cbn [snd] in H0; [|by exists l0].
    destruct (appends_listener_banner w1) as [l1 H1].
    destruct (appends_listener_setup cfg (App.listener_banner w1).2) as [l2 H2].
    destruct (App.listener_setup ext cfg (App.listener_banner w1).2) as [[u'|e] w2];
      cbn [snd App.shared] in *.
    + exists (l0 ++ l1 ++ l2). by rewrite H2, H1, H0, <- !app_assoc.
    + destruct (appends_listener_exit (Run.raise e) (appends_raise e) w2) as [l3 H3].
      exists (l0 ++ l1 ++ l2 ++ l3). by rewrite H3, H2, H1, H0, <- !app_assoc.
  - destruct t as [|c|cfg|]; try (exists []; by rewrite app_nil_r).
    destruct (appends_handle_message_events (cfg_target_slack_user_id cfg)
                (cfg_supabase_table_name cfg) event w) as [l1 H1].
    change (App.handle_message_events execute_insert
              (cfg_target_slack_user_id cfg) (cfg_supabase_table_name cfg) event w)
      with (App.bound_handler execute_insert cfg event w) in H1.
    destruct (App.bound_handler execute_insert cfg event w) as [[u'|e] w1];
      cbn [snd App.shared] in *; [by exists l1|].
    destruct (appends_listener_exit (Run.raise e) (appends_raise e) w1) as [l2 H2].
    exists (l1 ++ l2). by rewrite H2, H1, <- !app_assoc.
  - destruct t as [|c|cfg|]; try (exists []; by rewrite app_nil_r).
    cbn [App.shared].
    apply appends_listener_exit. unfold App.session_over. repeat appends_step.
Qed.

Lemma background_run_appends schedule (s : App.system db) :
  Forall (λ a, App.background a = true) schedule →
  ∃ lines,
    StreamlitLogHandler.buffer
      (w_capture (App.shared (App.run execute_insert ext schedule s)))
    = StreamlitLogHandler.buffer (w_capture (App.shared s)) ++ lines.
Proof.
  intros Hb. revert s. induction Hb as [|a schedule Ha _ IH]; intros s.
  - exists []. by rewrite app_nil_r.
  - cbn [App.run]. destruct (IH (App.exec execute_insert ext a s)) as [l2 H2].
    destruct (background_step_appends a s Ha) as [l1 H1].
    exists (l1 ++ l2). by rewrite H2, H1, <- app_assoc.
Qed.

Lemma run_app schedule1 schedule2 (s : App.system db) :
  App.run execute_insert ext (schedule1 ++ schedule2) s
  = App.run execute_insert ext schedule2 (App.run execute_insert ext schedule1 s).
Proof.
  revert s. induction schedule1 as [|a schedule1 IH]; intros s; [reflexivity|].
  cbn [app App.run]. apply IH.
Qed.

End AppendsThread.

Lemma str_truthy_append_l (a b : string) :
  Py.str_truthy a = true → Py.str_truthy (a +:+ b) = true.
Proof. by destruct a. Qed.

Lemma str_truthy_append_r (a b : string) :
  Py.str_truthy b = true → Py.str_truthy (a +:+ b) = true.
Proof. by destruct a. Qed.

(** X22: the reset button takes the page back to the form, where no log
    panel is drawn, whatever the thread does in the meantime; once a form is
    saved again, and whatever the thread has done before and after that,
    the panel is [Logs (Bot Inactive)], its content is the log buffer as it
    stands, which holds what it held at the reset, then the line
    [UI Stop requested. Resetting configuration.], then what the thread has
    written since; the page schedules no refresh and shows no warning. *)
Theorem X22_reset_leaves_an_inactive_log_without_refresh :
  ∀ {db : Type} (execute_insert : db → string → gmap string Py.value → db * execute_result)
    (ext : externals) (s : App.system db) (f : App.form_fields)
    (before after : list App.action),
    App.env_vars_confirmed (App.ui s) = true →
    App.bot_started (App.ui s) = true →
    App.missing_fields f = [] →
    Forall (λ a, App.background a = true) before →
    Forall (λ a, App.background a = true) after →
    let reset := App.run execute_insert ext (App.UiReset :: before) s in
    let saved :=
      App.run execute_insert ext (App.UiReset :: before ++ App.UiSubmit f :: after) s in
    App.log_panel reset = None
    ∧ (∃ later,
          StreamlitLogHandler.buffer (w_capture (App.shared saved))
          = StreamlitLogHandler.buffer (w_capture (App.shared s))
              ++ ("UI Stop requested. Resetting configuration." +:+ Py.nl) :: later)
    ∧ App.log_panel saved
      = Some {| App.log_display_label := "Logs (Bot Inactive)";
                App.log_display_content :=
                  StreamlitLogHandler.get_logs (w_capture (App.shared saved));
                App.show_rerun_trigger_for_logs := false;
                App.stopped_warning := false |}.
Proof.
  intros db execute_insert ext [[confirmed started stored saved_config] t w] f
    before after Hc Hs Hm Hb Ha reset saved.
  cbn [App.ui App.env_vars_confirmed App.bot_started] in Hc, Hs. subst confirmed started.
  set (s1 := App.stop_bot {| App.ui := {| App.env_vars_confirmed := true;
                                         App.bot_started := true;
                                         App.bot_thread := stored;
                                         App.config := saved_config |};
                            App.thread := t; App.shared := w |}).
  set (s2 := App.run execute_insert ext before s1).
  assert (reset = s2) as -> by reflexivity.
  assert (saved = App.run execute_insert ext after (App.submit f s2)) as ->.
  { subst saved. cbn [App.run App.exec]. fold s1. by rewrite run_app. }
  pose proof (background_keeps_session execute_insert ext before s1 Hb) as Hu2.
  fold s2 in Hu2.
  destruct (background_run_appends execute_insert ext before s1 Hb) as [l1 H1].
  fold s2 in H1.
  assert (App.ui s1 = {| App.env_vars_confirmed := false; App.bot_started := false;
                         App.bot_thread := stored; App.config := saved_config |}) as Hu1
    by reflexivity.
  assert (StreamlitLogHandler.buffer (w_capture (App.shared s1))
          = StreamlitLogHandler.buffer (w_capture w)
              ++ ["UI Stop requested. Resetting configuration." +:+ Py.nl]) as Hw1
    by reflexivity.
  rewrite Hu1 in Hu2. rewrite Hw1 in H1. clearbody s2. clear s1 Hu1 Hw1.
  destruct s2 as [u2 t2 w2]. cbn [App.ui App.shared] in Hu2, H1. subst u2.
  split; [reflexivity|].
  unfold App.submit. cbn [App.ui App.thread App.shared App.env_vars_confirmed].
  unfold App.env_var_form. rewrite Hm. cbn [fst].
  set (s3 := {| App.ui := _; App.thread := t2; App.shared := w2 |}).
  pose proof (background_keeps_session execute_insert ext after s3 Ha) as Hu4.
  destruct (background_run_appends execute_insert ext after s3 Ha) as [l2 H2].
  cbn [App.shared App.ui s3] in Hu4, H2. rewrite H1 in H2.
  assert (StreamlitLogHandler.buffer
            (w_capture (App.shared (App.run execute_insert ext after s3)))
          = StreamlitLogHandler.buffer (w_capture w)
              ++ ("UI Stop requested. Resetting configuration." +:+ Py.nl) :: (l1 ++ l2))
    as Hbuf.
  { rewrite H2, <- !app_assoc. reflexivity. }
  split; [by exists (l1 ++ l2)|].
  unfold App.log_panel. rewrite Hu4.
  cbn [App.env_vars_confirmed App.bot_started].
  assert (Py.str_truthy
            (StreamlitLogHandler.get_logs
               (w_capture (App.shared (App.run execute_insert ext after s3)))) = true)
    as ->; [|reflexivity].
  unfold StreamlitLogHandler.get_logs. rewrite Hbuf, join_app, join_cons.
  apply str_truthy_append_r, str_truthy_append_l. reflexivity.
Qed.

Lemma X22_reset_on_the_listening_page :
  App.log_panel
    (App.run UniqueTable.execute_insert quiet_services
       (App.UiReset :: [App.BgDeliver later_event]) listening_page) = None
  ∧ (∃ later,
        StreamlitLogHandler.buffer
          (w_capture
             (App.shared
                (App.run UniqueTable.execute_insert quiet_services
                   (App.UiReset :: [App.BgDeliver later_event]
                      ++ App.UiSubmit other_fields :: [App.BgDeliver hello_event])
                   listening_page)))
        = StreamlitLogHandler.buffer (w_capture (App.shared listening_page))
            ++ ("UI Stop requested. Resetting configuration." +:+ Py.nl) :: later)
  ∧ App.log_panel
      (App.run UniqueTable.execute_insert quiet_services
         (App.UiReset :: [App.BgDeliver later_event]
            ++ App.UiSubmit other_fields :: [App.BgDeliver hello_event])
         listening_page)
    = Some {| App.log_display_label := "Logs (Bot Inactive)";
              App.log_display_content :=
                StreamlitLogHandler.get_logs
                  (w_capture
                     (App.shared
                        (App.run UniqueTable.execute_insert quiet_services
                           (App.UiReset :: [App.BgDeliver later_event]
                              ++ App.UiSubmit other_fields :: [App.BgDeliver hello_event])
                           listening_page)));
              App.show_rerun_trigger_for_logs := false;
              App.stopped_warning := false |}.
Proof.
  apply (X22_reset_leaves_an_inactive_log_without_refresh UniqueTable.execute_insert
           quiet_services listening_page other_fields
           [App.BgDeliver later_event] [App.BgDeliver hello_event]).
  - vm_compute. reflexivity.
  - vm_compute. reflexivity.
  - reflexivity.
  - repeat constructor.
  - repeat constructor.
Defined.

(** ** The prompts of the command-line host *)

(** The prompts for the settings that are unset in the environment, in the
    order in which [run_bot] resolves them. *)
Definition prompts_shown (environ : gmap string string) : list string :=
  flat_map
    (λ setting : string * string * bool,
       if ConsoleBot.unset (environ !! setting.1.1) then [setting.1.2 +:+ ": "] else [])
    mandatory
  ++ (if ConsoleBot.unset (environ !! "SUPABASE_TABLE_NAME")
      then ["Enter Supabase Table Name (default: slack_messages_for_sensay): "]
      else []).

Section Prompts.

Context {db : Type}.
Variable environ : gmap string string.
Variable answers : string → option string.

Lemma get_env_variable_returned var_name prompt_text is_secret v (w w' : world db) :
  ConsoleBot.get_env_variable environ answers var_name prompt_text is_secret w
  = (Return v, w') →
  w_prompts w' = w_prompts w ++
    (if ConsoleBot.unset (environ !! var_name) then [prompt_text +:+ ": "] else [])
  ∧ w_records w' = w_records w.
Proof.
  unfold ConsoleBot.get_env_variable, ConsoleBot.prompt_for, ConsoleBot.unset,
    Run.bind, Run.input, Run.getpass, Run.read_line, Run.logger, Run.raise, Run.ret.
  destruct (environ !! var_name) as [[|c v0]|]; cbn;
    try (destruct is_secret; destruct (answers (prompt_text +:+ ": ")) as [[|c' l]|]; cbn);
    intros [= <- <-]; cbn; by rewrite ?app_nil_r.
Qed.

Lemma get_table_name_returned v (w w' : world db) :
  ConsoleBot.get_table_name environ answers w = (Return v, w') →
  w_prompts w' = w_prompts w ++
    (if ConsoleBot.unset (environ !! "SUPABASE_TABLE_NAME")
     then ["Enter Supabase Table Name (default: slack_messages_for_sensay): "] else [])
  ∧ w_records w' = w_records w.
Proof.
  unfold ConsoleBot.get_table_name, ConsoleBot.prompt_table_name, ConsoleBot.unset,
    Run.bind, Run.input, Run.getpass, Run.read_line, Run.ret.
  destruct (environ !! "SUPABASE_TABLE_NAME") as [[|c v0]|]; cbn;
    try (destruct (answers _) as [[|c' l]|]; cbn);
    intros [= <- <-]; cbn; by rewrite ?app_nil_r.
Qed.

End Prompts.

(** X23: when the command-line host resolves its settings, it has shown a
    prompt for exactly the settings that are unset in the environment (absent
    or empty), each once, in the order bot token, app token, URL, service
    key, user id, table name, and it has logged nothing. *)
Theorem X23_prompts_are_those_of_the_unset_settings :
  ∀ {db : Type} (environ : gmap string string) (answers : string → option string)
    (w : world db) (cfg : RuntimeConfig),
    fst (ConsoleBot.resolve_config environ answers w) = Return cfg →
    w_prompts (snd (ConsoleBot.resolve_config environ answers w))
    = w_prompts w ++ prompts_shown environ
    ∧ w_records (snd (ConsoleBot.resolve_config environ answers w)) = w_records w.
Proof.
  intros db environ answers w cfg. unfold ConsoleBot.resolve_config, Run.bind.
  destruct (ConsoleBot.get_env_variable environ answers "SLACK_BOT_TOKEN" _ _ w)
    as [[v1|e] w1] eqn:E1; [|discriminate].
  destruct (ConsoleBot.get_env_variable environ answers "SLACK_APP_TOKEN" _ _ w1)
    as [[v2|e] w2] eqn:E2; [|discriminate].
  destruct (ConsoleBot.get_env_variable environ answers "SUPABASE_URL" _ _ w2)
    as [[v3|e] w3] eqn:E3; [|discriminate].
  destruct (ConsoleBot.get_env_variable environ answers "SUPABASE_SERVICE_KEY" _ _ w3)
    as [[v4|e] w4] eqn:E4; [|discriminate].
  destruct (ConsoleBot.get_env_variable environ answers "TARGET_SLACK_USER_ID" _ _ w4)
    as [[v5|e] w5] eqn:E5; [|discriminate].
  destruct (ConsoleBot.get_table_name environ answers w5) as [[v6|e] w6] eqn:E6;
    [|discriminate].
  intros _. cbn [snd Run.ret].
  apply get_env_variable_returned in E1 as [P1 R1], E2 as [P2 R2], E3 as [P3 R3],
    E4 as [P4 R4], E5 as [P5 R5].
  apply get_table_name_returned in E6 as [P6 R6].
  split; [|congruence].
  rewrite P6, P5, P4, P3, P2, P1. unfold prompts_shown, mandatory.
  cbn [flat_map fst snd]. by rewrite app_nil_r, <- !app_assoc.
Qed.

Lemma X23_only_the_bot_token_is_asked :
  w_prompts (snd (ConsoleBot.resolve_config environ_without_bot_token types_a_token
                    (fresh tt)))
  = w_prompts (fresh tt) ++ prompts_shown environ_without_bot_token
  ∧ w_records (snd (ConsoleBot.resolve_config environ_without_bot_token types_a_token
                      (fresh tt)))
    = w_records (fresh tt).
Proof.
  apply (X23_prompts_are_those_of_the_unset_settings environ_without_bot_token
           types_a_token (fresh tt)
           {| cfg_slack_bot_token := "xoxb-typed";
              cfg_slack_app_token := "xapp-1";
              cfg_supabase_url := "https://db.example";
              cfg_supabase_service_key := "service-key";
              cfg_target_slack_user_id := "U_target";
              cfg_supabase_table_name := "slack_messages_for_sensay" |}).
  vm_compute. reflexivity.
Defined.

(** ** A new start on a page that has run before *)

(** A page on which a session has ended, the reset button was pressed and
    another form was saved. *)
Definition page_after_a_session : App.system (gmap string (list (gmap string Py.value))) :=
  App.run UniqueTable.execute_insert quiet_services
    [App.BgEnd None; App.UiReset; App.UiSubmit other_fields] listening_page.

(** X24: on a page with a confirmed configuration, no bot started and no
    live thread, pressing the start button and letting the thread start,
    with clients that accept, gives a thread that listens with the saved
    settings; the lines that were in the log buffer are discarded, so that
    it holds the five start-up lines only, and the stop flag is clear even
    when an earlier reset had set it; the inserts issued so far are as they
    were. *)
Theorem X24_new_start_discards_the_old_log_and_clears_the_flag :
  ∀ {db : Type} (execute_insert : db → string → gmap string Py.value → db * execute_result)
    (ext : externals) (s : App.system db) (c : gmap string string) (cfg : RuntimeConfig),
    App.env_vars_confirmed (App.ui s) = true →
    App.bot_started (App.ui s) = false →
    App.bot_thread (App.ui s) = false ∨ App.is_alive (App.thread s) = false →
    App.config (App.ui s) = Some c →
    holds_settings c cfg →
    first_refusal ext cfg = None →
    let s' := App.run execute_insert ext [App.UiStart; App.BgBoot] s in
    App.thread s' = App.Listening cfg
    ∧ App.bot_started (App.ui s') = true
    ∧ StreamlitLogHandler.buffer (w_capture (App.shared s'))
      = [ "Bot thread started. Initializing Slack and Supabase clients..." +:+ Py.nl;
          "Supabase client initialized for URL: " +:+ cfg_supabase_url cfg +:+ Py.nl;
          "Monitoring messages from Slack User ID: " +:+ cfg_target_slack_user_id cfg
            +:+ Py.nl;
          "Storing messages in Supabase table: " +:+ cfg_supabase_table_name cfg +:+ Py.nl;
          "Starting SocketModeHandler..." +:+ Py.nl ]
    ∧ w_stop_event (App.shared s') = false
    ∧ w_clients (App.shared s')
      = w_clients (App.shared s) ++ ["App"; "create_client"; "SocketModeHandler"]
    ∧ w_inserts (App.shared s') = w_inserts (App.shared s).
Proof.
  intros db execute_insert ext [[confirmed started stored saved] t w] c cfg
    Hc Hs Ht Hsaved Hh Ha s'. subst s'.
  cbn [App.ui App.thread App.env_vars_confirmed App.bot_started App.bot_thread
       App.config] in Hc, Hs, Ht, Hsaved. subst confirmed started saved.
  assert (negb stored || negb (App.is_alive t) = true) as Hfree.
  { destruct Ht as [-> | ->]; [reflexivity | by destruct stored]. }
  cbn [App.run App.exec]. unfold App.start_bot.
  cbn [App.ui App.thread App.shared App.env_vars_confirmed App.bot_started
       App.bot_thread App.config andb negb].
  rewrite Hfree.
  rewrite (thread_boot_accepted ext _ c cfg _ Hh Ha).
  cbn [App.ui App.thread App.shared App.bot_started].
  destruct (listener_boot_accepted ext cfg
              (App.with_stop_event false (App.with_cleared_logs w)) Ha)
    as (_ & Hb & Hcl & Hi & Hf).
  by repeat split.
Qed.

Lemma X24_new_start_after_a_session :
  App.thread
    (App.run UniqueTable.execute_insert quiet_services [App.UiStart; App.BgBoot]
       page_after_a_session)
  = App.Listening (form_settings other_fields)
  ∧ App.bot_started
      (App.ui
         (App.run UniqueTable.execute_insert quiet_services [App.UiStart; App.BgBoot]
            page_after_a_session))
    = true
  ∧ StreamlitLogHandler.buffer
      (w_capture
         (App.shared
            (App.run UniqueTable.execute_insert quiet_services [App.UiStart; App.BgBoot]
               page_after_a_session)))
    = [ "Bot thread started. Initializing Slack and Supabase clients..." +:+ Py.nl;
        "Supabase client initialized for URL: "
          +:+ cfg_supabase_url (form_settings other_fields) +:+ Py.nl;
        "Monitoring messages from Slack User ID: "
          +:+ cfg_target_slack_user_id (form_settings other_fields) +:+ Py.nl;
        "Storing messages in Supabase table: "
          +:+ cfg_supabase_table_name (form_settings other_fields) +:+ Py.nl;
        "Starting SocketModeHandler..." +:+ Py.nl ]
  ∧ w_stop_event
      (App.shared
         (App.run UniqueTable.execute_insert quiet_services [App.UiStart; App.BgBoot]
            page_after_a_session))
    = false
  ∧ w_clients
      (App.shared
         (App.run UniqueTable.execute_insert quiet_services [App.UiStart; App.BgBoot]
            page_after_a_session))
    = w_clients (App.shared page_after_a_session)
        ++ ["App"; "create_client"; "SocketModeHandler"]
  ∧ w_inserts
      (App.shared
         (App.run UniqueTable.execute_insert quiet_services [App.UiStart; App.BgBoot]
            page_after_a_session))
    = w_inserts (App.shared page_after_a_session).
Proof.
  apply (X24_new_start_discards_the_old_log_and_clears_the_flag
           UniqueTable.execute_insert quiet_services page_after_a_session
           (App.form_config other_fields) (form_settings other_fields)).
  - vm_compute. reflexivity.
  - vm_compute. reflexivity.
  - right. vm_compute. reflexivity.
  - vm_compute. reflexivity.
  - exact (form_config_holds other_fields).
  - reflexivity.
Defined.

(** ** The command-line host over a session *)

(** X25: in the command-line host, once the settings are resolved and when
    the three constructors accept, [run_bot] constructs the three clients in
    order and issues exactly one insert for each delivered event that passes
    the test of the callback, in the order of delivery, on the configured
    table, however the session ends.  When [socket_handler.start()] ends
    with an exception, [run_bot] returns and its last two records are the
    critical error with the text of the exception and the record of the
    [finally] block; when the operator interrupts the session, the
    [KeyboardInterrupt] leaves [run_bot], no critical error is recorded for
    it, and the record of the [finally] block is the last. *)
Theorem X25_run_bot_stores_the_session :
  ∀ {db : Type} (execute_insert : db → string → gmap string Py.value → db * execute_result)
    (environ : gmap string string) (answers : string → option string) (ext : externals)
    (w w1 : world db) (cfg : RuntimeConfig),
    ConsoleBot.resolve_config environ answers w = (Return cfg, w1) →
    first_refusal ext cfg = None →
    let after := ConsoleBot.run_bot execute_insert environ answers ext w in
    let tried :=
      ConsoleBot.connect_and_listen execute_insert ext cfg
        (snd (Run.logger INFO "Initializing Deshi Knowledge Collector Bot..." w1)) in
    w_clients (snd after) = w_clients w1 ++ ["App"; "create_client"; "SocketModeHandler"]
    ∧ w_inserts (snd after)
      = w_inserts w1 ++
          ((λ event, (cfg_supabase_table_name cfg, row_of event)) <$>
             filter (λ event, App.passes_filter (cfg_target_slack_user_id cfg) event = true)
               (session ext))
    ∧ if session_interrupted ext
      then fst after = Raise Py.KeyboardInterrupt
           ∧ w_records (snd after)
             = w_records (snd tried)
                 ++ [(INFO, "Bot has shut down or encountered a critical error.")]
      else match session_end ext with
           | Some (cls, msg) =>
               fst after = Return tt
               ∧ w_records (snd after)
                 = w_records (snd tried)
                     ++ [(CRITICAL, "A critical error occurred: " +:+ msg);
                         (INFO, "Bot has shut down or encountered a critical error.")]
           | None =>
               fst after = Return tt
               ∧ w_records (snd after)
                 = w_records (snd tried)
                     ++ [(INFO, "Bot has shut down or encountered a critical error.")]
           end.
Proof.
  intros db execute_insert environ answers ext w w1 cfg Hc Ha after tried.
  subst after tried.
  rewrite (run_bot_once_configured execute_insert environ answers ext w w1 cfg Hc).
  set (w0 := snd (Run.logger INFO "Initializing Deshi Knowledge Collector Bot..." w1)).
  destruct (cli_connect_and_listen_accepted execute_insert ext cfg w0 Ha)
    as (Hr & Hcl & Hi).
  unfold Run.try_finally, Run.try_except.
  destruct (ConsoleBot.connect_and_listen execute_insert ext cfg w0) as [r w2].
  cbn [fst snd] in Hr, Hcl, Hi. subst r.
  destruct (session_interrupted ext); [|destruct (session_end ext) as [[cls msg]|]]; cbn.
  - repeat split; [exact Hcl | exact Hi].
  - repeat split; [exact Hcl | exact Hi |]. by rewrite <- app_assoc.
  - repeat split; [exact Hcl | exact Hi].
Qed.

Lemma X25_interrupted_session_run :
  w_clients (snd (ConsoleBot.run_bot UniqueTable.execute_insert full_environ no_terminal
                    interrupted_services (fresh ∅)))
  = ["App"; "create_client"; "SocketModeHandler"]
  ∧ w_inserts (snd (ConsoleBot.run_bot UniqueTable.execute_insert full_environ no_terminal
                      interrupted_services (fresh ∅)))
    = [("slack_messages_for_sensay", row_of hello_event)]
  ∧ fst (ConsoleBot.run_bot UniqueTable.execute_insert full_environ no_terminal
           interrupted_services (fresh ∅)) = Raise Py.KeyboardInterrupt
  ∧ at_level CRITICAL
      (w_records (snd (ConsoleBot.run_bot UniqueTable.execute_insert full_environ
                         no_terminal interrupted_services (fresh ∅)))) = [].
Proof.
  destruct (X25_run_bot_stores_the_session UniqueTable.execute_insert full_environ
              no_terminal interrupted_services (fresh ∅) (fresh ∅) default_settings)
    as (Hc & Hi & Hr & Hl).
  - vm_compute. reflexivity.
  - reflexivity.
  - split; [exact Hc|]. split; [exact Hi|]. split; [exact Hr|]. compute_done.
Defined.

(** ** A setting that is unset *)

(** X26: for a setting that is unset in the environment (absent or empty),
    [get_env_variable] shows its prompt once and follows the answer: a line
    that is not empty is returned and nothing is logged; on an empty line
    the error [Required configuration '<name>' was not provided. Exiting.]
    is logged and [SystemExit(1)] raised; at the end of the input the
    [EOFError] of the read leaves the function and nothing is logged, the
    exception of [input] with the text [EOF when reading a line] and the one
    of [getpass], for a secret, with no text. *)
Theorem X26_unset_setting_follows_the_answer :
  ∀ {db : Type} (environ : gmap string string) (answers : string → option string)
    (var_name prompt_text : string) (is_secret : bool) (w : world db),
    ConsoleBot.unset (environ !! var_name) = true →
    let after := ConsoleBot.get_env_variable environ answers var_name prompt_text is_secret w in
    w_prompts (snd after) = w_prompts w ++ [prompt_text +:+ ": "]
    ∧ match answers (prompt_text +:+ ": ") with
      | Some line =>
          if Py.str_truthy line
          then fst after = Return line ∧ w_records (snd after) = w_records w
          else fst after = Raise (Py.SystemExit 1)
               ∧ w_records (snd after)
                 = w_records w ++
                     [(ERROR, "Required configuration '" +:+ var_name
                                +:+ "' was not provided. Exiting.")]
      | None =>
          fst after
          = Raise (Py.Exception "EOFError"
                     (if is_secret then EmptyString else "EOF when reading a line"))
          ∧ w_records (snd after) = w_records w
      end.
Proof.
  intros db environ answers var_name prompt_text is_secret w Hu after. subst after.
  unfold ConsoleBot.get_env_variable, ConsoleBot.prompt_for, ConsoleBot.unset in *.
  unfold Run.bind, Run.input, Run.getpass, Run.read_line, Run.logger, Run.raise, Run.ret.
  destruct (environ !! var_name) as [[|c v]|]; try discriminate; cbn;
    destruct is_secret; destruct (answers (prompt_text +:+ ": ")) as [[|c' l]|]; cbn;
    by repeat split.
Qed.

Lemma X26_no_terminal_for_the_bot_token :
  w_prompts
    (snd (ConsoleBot.get_env_variable environ_without_bot_token no_terminal
            "SLACK_BOT_TOKEN" "Enter Slack Bot Token (xoxb-)" true (fresh tt)))
  = ["Enter Slack Bot Token (xoxb-): "]
  ∧ fst (ConsoleBot.get_env_variable environ_without_bot_token no_terminal
           "SLACK_BOT_TOKEN" "Enter Slack Bot Token (xoxb-)" true (fresh tt))
    = Raise (Py.Exception "EOFError" EmptyString)
  ∧ w_records
      (snd (ConsoleBot.get_env_variable environ_without_bot_token no_terminal
              "SLACK_BOT_TOKEN" "Enter Slack Bot Token (xoxb-)" true (fresh tt)))
    = [].
Proof.
  apply (X26_unset_setting_follows_the_answer environ_without_bot_token no_terminal
           "SLACK_BOT_TOKEN" "Enter Slack Bot Token (xoxb-)" true (fresh tt)).
  compute_done.
Defined.
